(** * langchain-x402: the wallet ledger and the 402 negotiation

    A shallow embedding of [langchain_x402/wallet.py], [eip3009.py] and
    [tool.py].

    - A Python [float] is an IEEE-754 binary64 value, computed with the
      executable specification [SpecFloat] of the standard library.
    - A [decimal.Decimal] is a sign, a coefficient and an exponent, with the
      arithmetic of the default context: 28 significant digits,
      round-half-even, exponents up to 999999, the traps of [Overflow] and
      [DivisionByZero].
    - A call returns or raises; the wallet is an explicit state, next to a
      trace of what the run did to the outside (requests sent, signatures
      asked for, texts logged).
    - The key library, the transport, the base64 and JSON codecs and the
      sources of randomness and time are parameters. *)

From Stdlib Require Import ZArith Lia Bool Ascii String.
From Stdlib Require Import Floats.SpecFloat.
From stdpp Require Import base gmap strings list pretty.

Set Warnings "-register-all".

Open Scope Z_scope.

(** ** Python floats (binary64) *)

Module Float.

Definition float := spec_float.

Definition prec : Z := 53.
Definition emax : Z := 1024.

Definition add (x y : float) : float := SFadd prec emax x y.
Definition sub (x y : float) : float := SFsub prec emax x y.

(** [x > y], [x >= y], [x <= y]: false as soon as one side is NaN. *)
Definition gt (x y : float) : bool :=
  match SFcompare x y with Some Gt => true | _ => false end.
Definition ge (x y : float) : bool :=
  match SFcompare x y with Some (Gt | Eq) => true | _ => false end.
Definition le (x y : float) : bool := SFleb x y.

(** The literal [0.0]. *)
Definition zero : float := S754_zero false.

(** [max(a, b)] of the builtin: the first argument, unless the second is
    strictly greater. *)
Definition max (a b : float) : float := if gt b a then b else a.

(** Truth value of a float: only the two zeros are falsy. *)
Definition truthy (x : float) : bool :=
  match x with S754_zero _ => false | _ => true end.

(** [int(x)]: truncation toward zero; [None] for infinities and NaN, on
    which the builtin raises. *)
Definition to_int (x : float) : option Z :=
  match x with
  | S754_zero _ => Some 0
  | S754_finite s m e =>
      let a := if 0 <=? e then Z.pos m * 2 ^ e else Z.pos m / 2 ^ (- e) in
      Some (if s then - a else a)
  | _ => None
  end.

(** The same float, bit for bit. *)
Definition same (x y : float) : bool :=
  match x, y with
  | S754_zero s, S754_zero s' => Bool.eqb s s'
  | S754_infinity s, S754_infinity s' => Bool.eqb s s'
  | S754_nan, S754_nan => true
  | S754_finite s m e, S754_finite s' m' e' =>
      Bool.eqb s s' && (m =? m')%positive && (e =? e')
  | _, _ => false
  end.

(** The exact value of a finite float, as a fraction [n / 2^k]. *)
Definition exact (x : float) : option (Z * Z) :=
  match x with
  | S754_zero _ => Some (0, 0)
  | S754_finite s m e =>
      let n := if s then Z.neg m else Z.pos m in
      Some (if 0 <=? e then (n * 2 ^ e, 0) else (n, - e))
  | _ => None
  end.

(** [x] denotes exactly the rational [p / q] ([q > 0]). *)
Definition denotes (x : float) (p q : Z) : Prop :=
  match exact x with
  | Some (n, k) => n * q = p * 2 ^ k
  | None => False
  end.

(** [x] is a number, not NaN, with the sign bit [s]. *)
Definition has_sign (s : bool) (x : float) : Prop :=
  match x with
  | S754_zero s' | S754_infinity s' | S754_finite s' _ _ => s' = s
  | S754_nan => False
  end.

End Float.

(** ** [decimal.Decimal] under the default context *)

Module PyDecimal.

(** A finite decimal: [(-1)^sign * coeff * 10^exp], [coeff >= 0]. *)
Record t := mk { sign : bool; coeff : Z; exp : Z }.

Definition ctx_prec : Z := 28.
Definition Emax : Z := 999999.
Definition Emin : Z := -999999.
Definition Etiny : Z := Emin - ctx_prec + 1.
Definition Etop : Z := Emax - ctx_prec + 1.

(** Signals that the default context traps. *)
Inductive signal := Overflow | DivisionByZero.

Fixpoint ndigits_aux (fuel : nat) (n : Z) : Z :=
  match fuel with
  | O => 1
  | S f => if n <? 10 then 1 else 1 + ndigits_aux f (n / 10)
  end.

(** [len(str(n))] for [n >= 0]. *)
Definition ndigits (n : Z) : Z := ndigits_aux (Z.to_nat (Z.log2 n)) n.

(** Round-half-even decision on dropping the last [k] digits of [c]. *)
Definition round_up (c k : Z) : bool :=
  let q := c / 10 ^ k in
  let r := c mod 10 ^ k in
  (10 ^ k <? 2 * r) || ((10 ^ k =? 2 * r) && Z.odd q).

(** [Decimal._fix]: bring a result into the context's precision and
    exponent range. *)
Definition fix_ (d : t) : signal + t :=
  if coeff d =? 0 then
    inr (mk (sign d) 0 (Z.min (Z.max (exp d) Etiny) Emax))
  else
    let exp_min := ndigits (coeff d) + exp d - ctx_prec in
    if Etop <? exp_min then inl Overflow
    else
      let exp_min := if exp_min <? Etiny then Etiny else exp_min in
      if exp d <? exp_min then
        let digits := ndigits (coeff d) + exp d - exp_min in
        let '(c, e) := if digits <? 0 then (1, exp_min - 1) else (coeff d, exp d) in
        let k := exp_min - e in
        let q := c / 10 ^ k in
        let '(q, exp_min) :=
          if round_up c k then
            if ctx_prec <? ndigits (q + 1) then ((q + 1) / 10, exp_min + 1)
            else (q + 1, exp_min)
          else (q, exp_min) in
        if Etop <? exp_min then inl Overflow
        else inr (mk (sign d) q exp_min)
      else inr d.

(** [Decimal(n)] for an int: exact. *)
Definition of_int (n : Z) : t := mk (n <? 0) (Z.abs n) 0.

(** The loop of [__truediv__] that moves an exact quotient toward the
    ideal exponent. *)
Fixpoint strip_zeros (fuel : nat) (c e ideal : Z) : Z * Z :=
  match fuel with
  | O => (c, e)
  | S f =>
      if (e <? ideal) && (c mod 10 =? 0) then strip_zeros f (c / 10) (e + 1) ideal
      else (c, e)
  end.

(** [a / b]. *)
Definition truediv (a b : t) : signal + t :=
  let s := xorb (sign a) (sign b) in
  if coeff b =? 0 then inl DivisionByZero
  else if coeff a =? 0 then fix_ (mk s 0 (exp a - exp b))
  else
    let shift := ndigits (coeff b) - ndigits (coeff a) + ctx_prec + 1 in
    let e := exp a - exp b - shift in
    let '(c, r) :=
      if 0 <=? shift then Z.div_eucl (coeff a * 10 ^ shift) (coeff b)
      else Z.div_eucl (coeff a) (coeff b * 10 ^ (- shift)) in
    let '(c, e) :=
      if r =? 0 then strip_zeros (Z.to_nat (exp a - exp b - e)) c e (exp a - exp b)
      else (if c mod 5 =? 0 then c + 1 else c, e) in
    fix_ (mk s c e).

(** [a * b]. *)
Definition mul (a b : t) : signal + t :=
  fix_ (mk (xorb (sign a) (sign b)) (coeff a * coeff b) (exp a + exp b)).

(** [int(d)]: truncation toward zero. *)
Definition to_int (d : t) : Z :=
  let a := if 0 <=? exp d then coeff d * 10 ^ exp d else coeff d / 10 ^ (- exp d) in
  if sign d then - a else a.

(** [float(d)]: the binary64 value nearest to [d], ties to even. *)
Definition to_float (d : t) : Float.float :=
  if coeff d =? 0 then S754_zero (sign d)
  else if 0 <=? exp d then
    binary_normalize Float.prec Float.emax
      (if sign d then - (coeff d * 10 ^ exp d) else coeff d * 10 ^ exp d) 0 false
  else
    SFdiv Float.prec Float.emax
      (S754_finite (sign d) (Z.to_pos (coeff d)) 0)
      (S754_finite false (Z.to_pos (10 ^ (- exp d))) 0).

(** [a == b]: comparison of the values. *)
Definition eqb (a b : t) : bool :=
  let m := Z.min (exp a) (exp b) in
  let va := coeff a * 10 ^ (exp a - m) in
  let vb := coeff b * 10 ^ (exp b - m) in
  ((if sign a then - va else va) =? (if sign b then - vb else vb)).

(** A [Decimal] in general: finite, or one of the special values. *)
Inductive number :=
| Finite (d : t)
| Infinite (negative : bool)
| NaN.

(** The decimals of [p] digits on both sides of [x = N / D], whose first
    digit has weight [10^k]: the nearer one of those that read back as
    [x], the even one on a tie. *)
Definition shortest_step (x : Float.float) (N D k p : Z) : option (Z * Z) :=
  let q := k - p + 1 in
  let num := if 0 <=? q then N else N * 10 ^ (- q) in
  let den := if 0 <=? q then D * 10 ^ q else D in
  let c_lo := num / den in
  let r := num mod den in
  let ok_lo := (0 <? c_lo) && Float.same (to_float (mk false c_lo q)) x in
  let ok_hi := Float.same (to_float (mk false (c_lo + 1) q)) x in
  if ok_lo && ok_hi then
    Some (if (2 * r <? den) || ((2 * r =? den) && Z.even c_lo) then c_lo else c_lo + 1, q)
  else if ok_lo then Some (c_lo, q)
  else if ok_hi then Some (c_lo + 1, q)
  else None.

Fixpoint shortest (fuel : nat) (x : Float.float) (N D k p : Z) : Z * Z :=
  match fuel with
  | O => (N * 10 ^ 17 / D, -17)
  | S f =>
      match shortest_step x N D k p with
      | Some r => r
      | None => shortest f x N D k (p + 1)
      end
  end.

(** [Decimal(str(x))] for a float [x]: [str] prints the shortest digits
    that read back as [x], in exponent notation when the decimal point is
    left of ten-thousandths or right of the 16th digit, and with [.0] after
    an integer. *)
Definition of_float_str (x : Float.float) : number :=
  match x with
  | S754_zero s => Finite (mk s 0 (-1))
  | S754_infinity s => Infinite s
  | S754_nan => NaN
  | S754_finite s m e =>
      let N := if 0 <=? e then Z.pos m * 2 ^ e else Z.pos m in
      let D := if 0 <=? e then 1 else 2 ^ (- e) in
      let k := if D <=? N then ndigits (N / D) - 1 else - ndigits ((D - 1) / N) in
      let '(c, q) := shortest 17 (S754_finite false m e) N D k 1 in
      let '(c, q) := strip_zeros 17 c q (q + 17) in
      let decpt := q + ndigits c in
      if (decpt <=? -4) || (16 <? decpt) || (q <? 0) then Finite (mk s c q)
      else Finite (mk s (c * 10 ^ (q + 1)) (-1))
  end.

End PyDecimal.

(** ** Values, texts and exceptions *)

Abbreviation float := Float.float.
Abbreviation bytes := (list Byte.byte).

(** A value produced by [json.loads].  An object keeps its keys once, in
    order; [dict_lookup] reads it. *)
Inductive json :=
| JNull
| JBool (b : bool)
| JInt (n : Z)
| JFloat (x : float)
| JStr (s : string)
| JList (items : list json)
| JObj (fields : list (string * json)).

Fixpoint dict_lookup (fields : list (string * json)) (key : string) : option json :=
  match fields with
  | [] => None
  | (k, v) :: rest => if String.eqb k key then Some v else dict_lookup rest key
  end.

(** Truth value of a decoded value ([if v:], [v and ...]). *)
Definition truthy (v : json) : bool :=
  match v with
  | JNull => false
  | JBool b => b
  | JInt n => negb (n =? 0)
  | JFloat x => Float.truthy x
  | JStr s => negb (String.eqb s "")
  | JList items => match items with [] => false | _ => true end
  | JObj fields => match fields with [] => false | _ => true end
  end.

(** [v != s] for a string [s]: only an equal string is not different. *)
Definition differs_from_str (v : json) (s : string) : bool :=
  match v with
  | JStr t => negb (String.eqb t s)
  | _ => true
  end.

(** The texts the code builds with f-strings, kept with their arguments. *)
Inductive message :=
| BudgetExceededText (need have : float)
    (* "Budget exceeded: need ${need:.4f}, have ${have:.4f} remaining" *)
| UnsupportedNetworkText (network : string)
    (* "Unsupported network: {network}" *)
| ParseFailedText (e : string)
    (* "Failed to parse payment requirements: {e}", [e] the text of the
       exception that the decoding raised *)
| InvalidLiteralText (s : string)
    (* "invalid literal for int() with base 10: {s}" *)
| OtherText (s : string).

Inductive exn :=
| ValueError (msg : message)
| TypeError
| AttributeError
| KeyError (key : string)
| OverflowError
| DecimalSignal (s : PyDecimal.signal)
| OtherError (name : string).

(** The strings [_run] and [_arun] return. *)
Inductive reply :=
| Body (body : string)
    (* response.text *)
| ErrorStatus (status : Z) (body : string)
    (* "Error {status}: {body}" *)
| MissingPaymentHeader
    (* "Error: Received 402 but no PAYMENT-REQUIRED header" *)
| ErrorParsing (e : message)
    (* "Error parsing payment requirements: {e}" *)
| NetworkMismatch (required : json) (configured : string)
    (* "Error: Network mismatch. API requires {required}, wallet is configured for {configured}" *)
| PriceRejected (amount_usd : float) (pay_to : json) (effective_max : float)
    (* "Payment required: ${amount_usd:.4f} USDC to {pay_to}. Exceeds limit of ${effective_max:.4f}. ..." *)
| InsufficientBudget (amount_usd remaining : float)
    (* "Payment required: ${amount_usd:.4f} USDC. Insufficient budget: ${remaining:.4f} remaining." *)
| PaymentDeclined (amount_usd : float) (pay_to : json)
    (* "Payment required: ${amount_usd:.4f} USDC to {pay_to}. Set auto_pay=True to automatically pay." *)
| PaymentSigningFailed (e : message)
    (* "Payment signing failed: {e}" *)
| ErrorAfterPayment (status : Z) (body : string).
    (* "Error after payment: {status} - {body}" *)

(** How a call ends. *)
Inductive outcome (A : Type) :=
| Returned (a : A)
| Raised (e : exn).
Arguments Returned {A} a.
Arguments Raised {A} e.

(** [bytes.hex()]. *)
Definition hex_digit (n : N) : Ascii.ascii :=
  match n with
  | 0 => "0" | 1 => "1" | 2 => "2" | 3 => "3" | 4 => "4" | 5 => "5" | 6 => "6"
  | 7 => "7" | 8 => "8" | 9 => "9" | 10 => "a" | 11 => "b" | 12 => "c"
  | 13 => "d" | 14 => "e" | _ => "f"
  end%N%char.

Fixpoint hex (bs : bytes) : string :=
  match bs with
  | [] => EmptyString
  | b :: rest =>
      let n := Byte.to_N b in
      String (hex_digit (n / 16)) (String (hex_digit (n mod 16)) (hex rest))
  end.

(** ** [eip3009.py] *)

(** EIP-3009 TransferWithAuthorization parameters.  [to_address] is
    whatever the caller passes: the tool passes the requirement's [payTo]. *)
Record TransferAuthorization := {
  from_address : string;
  to_address : json;
  value : Z;
  valid_after : Z;
  valid_before : Z;
  nonce : bytes;
}.

(** The typed data handed to the signer: the domain and the message (the
    type schema is a constant of the source). *)
Record typed_data := {
  domain_name : string;
  domain_version : string;
  chainId : Z;
  verifyingContract : string;
  msg_from : string;
  msg_to : json;
  msg_value : Z;
  msg_validAfter : Z;
  msg_validBefore : Z;
  msg_nonce : string;
}.

Definition USDC_CONTRACTS : gmap string string :=
  list_to_map [
    ("eip155:8453", "0x833589fCD6eDb6E08f4c7C32D4f71b54bdA02913");
    ("eip155:84532", "0x036CbD53842c5426634e7929541eC2318f3dCF7e");
    ("eip155:1", "0xA0b86991c6218b36c1d19D4a2e9Eb0cE3606eB48");
    ("eip155:11155111", "0x1c7D4B196Cb0C7B01d064914d0da28F12c7d0b86");
    ("eip155:5042002", "0x3600000000000000000000000000000000000000");
    ("base-mainnet", "0x833589fCD6eDb6E08f4c7C32D4f71b54bdA02913");
    ("base-sepolia", "0x036CbD53842c5426634e7929541eC2318f3dCF7e");
    ("ethereum-mainnet", "0xA0b86991c6218b36c1d19D4a2e9Eb0cE3606eB48");
    ("ethereum-sepolia", "0x1c7D4B196Cb0C7B01d064914d0da28F12c7d0b86");
    ("arc-testnet", "0x3600000000000000000000000000000000000000")
  ]%string.

Definition CHAIN_IDS : gmap string Z :=
  list_to_map [
    ("eip155:8453", 8453);
    ("eip155:84532", 84532);
    ("eip155:1", 1);
    ("eip155:11155111", 11155111);
    ("eip155:5042002", 5042002);
    ("base-mainnet", 8453);
    ("base-sepolia", 84532);
    ("ethereum-mainnet", 1);
    ("ethereum-sepolia", 11155111);
    ("arc-testnet", 5042002)
  ]%string.

(** ** The records of [wallet.py] and the request and response of the transport *)

(** Record of a payment made by the wallet. *)
Record PaymentRecord := {
  timestamp : float;
  pr_to_address : json;
  amount_usd : PyDecimal.number;
  amount_units : Z;
  pr_network : string;
  pr_nonce : string;
  signature : string;
  resource_url : string;
}.

Record X402Wallet := {
  private_key : string;
  network : string;
  budget_usd : float;
  _spent_usd : float;
  _payments : list PaymentRecord;
  _address : option string;
}.

Record request := {
  method : string;
  url : string;
  content : option string;
  headers : gmap string string;
}.

Record response := {
  status_code : Z;
  headers_get : string -> option string;
  text : string;
}.

(** What the code takes from outside: the key library, the codecs of the
    header values, and the builtins that read or print text. *)
Class Ports := {
  (** [Account.from_key(key).address] *)
  account_address : string -> string;
  (** [Account.from_key(key).sign_typed_data(...).signature.hex()] *)
  account_sign_typed_data : string -> typed_data -> exn + string;
  (** [json.loads(base64.b64decode(s))]; [None] when either raises *)
  b64_json_loads : string -> option json;
  (** [str(e)] of the exception [e] that they raise on [s] *)
  b64_json_error : string -> string;
  (** [base64.b64encode(json.dumps(v).encode()).decode()] *)
  b64_json_dumps : json -> string;
  (** [int(s)] on a string; [None] when it raises [ValueError] *)
  int_of_str : string -> option Z;
  (** [str(v)] *)
  str_of : json -> string;
}.

(** What one call draws from its environment: [secrets.token_bytes(32)]
    and [time.time()]. *)
Record environment := {
  token_bytes : bytes;
  time_now : float;
}.

(** ** State, effects and exceptions *)

(** What a run does to the outside, in order. *)
Inductive event :=
| Signing (key : string) (typed : typed_data)
    (* the signer is asked for a signature *)
| Sending (r : request)
    (* client.request(...) *)
| OnText (tx : json).
    (* run_manager.on_text("Payment settled: tx={tx}") *)

Record state := {
  wallet : X402Wallet;
  trace : list event;
}.

(** A computation reads and writes the state and returns or raises; what
    it wrote before raising stays written. *)
Definition M (A : Type) : Type := state -> outcome A * state.

Definition ret {A} (a : A) : M A := fun st => (Returned a, st).

Definition raise {A} (e : exn) : M A := fun st => (Raised e, st).

Definition bind {A B} (m : M A) (k : A -> M B) : M B :=
  fun st =>
    match m st with
    | (Returned a, st') => k a st'
    | (Raised e, st') => (Raised e, st')
    end.

#[global] Instance M_ret : MRet M := @ret.
#[global] Instance M_bind : MBind M := fun A B k m => bind m k.

(** [try: m except ValueError as e: handler e]. *)
Definition except_ValueError {A} (m : M A) (handler : message -> M A) : M A :=
  fun st =>
    match m st with
    | (Raised (ValueError msg), st') => handler msg st'
    | r => r
    end.

(** [try: m except Exception: pass]. *)
Definition except_pass (m : M unit) : M unit :=
  fun st =>
    match m st with
    | (Raised _, st') => (Returned tt, st')
    | r => r
    end.

Definition lift {A} (r : exn + A) : M A :=
  match r with
  | inl e => raise e
  | inr a => ret a
  end.

Definition lift_decimal {A} (r : PyDecimal.signal + A) : M A :=
  match r with
  | inl s => raise (DecimalSignal s)
  | inr a => ret a
  end.

Definition self : M X402Wallet := fun st => (Returned (wallet st), st).

Definition set_self (w : X402Wallet) : M unit :=
  fun st => (Returned tt, {| wallet := w; trace := trace st |}).

Definition emit (e : event) : M unit :=
  fun st => (Returned tt, {| wallet := wallet st; trace := trace st ++ [e] |}).

Section Program.
Context `{Ports}.

(** ** [eip3009.py] *)

Definition generate_nonce (env : environment) : bytes := token_bytes env.

Definition normalize_key (private_key : string) : string :=
  if String.prefix "0x" private_key then private_key
  else ("0x" ++ private_key)%string.

Definition build_eip712_message (authorization : TransferAuthorization)
    (network : string) : exn + typed_data :=
  let usdc_address := USDC_CONTRACTS !! network in
  let chain_id := CHAIN_IDS !! network in
  match usdc_address, chain_id with
  | Some a, Some c =>
      if String.eqb a "" || (c =? 0) then
        inl (ValueError (UnsupportedNetworkText network))
      else
        inr {| domain_name := "USD Coin";
               domain_version := "2";
               chainId := c;
               verifyingContract := a;
               msg_from := from_address authorization;
               msg_to := to_address authorization;
               msg_value := value authorization;
               msg_validAfter := valid_after authorization;
               msg_validBefore := valid_before authorization;
               msg_nonce := ("0x" ++ hex (nonce authorization))%string |}
  | _, _ => inl (ValueError (UnsupportedNetworkText network))
  end.

Definition sign_transfer_authorization (private_key : string)
    (authorization : TransferAuthorization) (network : string) : M string :=
  let private_key := normalize_key private_key in
  typed ← lift (build_eip712_message authorization network);
  _ ← emit (Signing private_key typed);
  lift (account_sign_typed_data private_key typed).

Definition get_wallet_address (private_key : string) : string :=
  account_address (normalize_key private_key).

(** ** [wallet.py] *)

(** [X402Wallet(private_key, network, budget_usd)] with [__post_init__]. *)
Definition new_wallet (private_key network : string) (budget_usd : float) : X402Wallet :=
  {| private_key := private_key;
     network := network;
     budget_usd := budget_usd;
     _spent_usd := Float.zero;
     _payments := [];
     _address := Some (get_wallet_address private_key) |}.

Definition address : M string :=
  w ← self;
  match _address w with
  | None =>
      let a := get_wallet_address (private_key w) in
      _ ← set_self {| private_key := private_key w; network := network w;
                      budget_usd := budget_usd w; _spent_usd := _spent_usd w;
                      _payments := _payments w; _address := Some a |};
      mret a
  | Some a => mret a
  end.

Definition spent_usd (w : X402Wallet) : float := _spent_usd w.

(** The [payments] property hands out the items of the history; that the
    list it returns is a copy is the subject of [Aliasing] below. *)
Definition payments (w : X402Wallet) : list PaymentRecord := _payments w.

Definition remaining_usd (w : X402Wallet) : float :=
  Float.max Float.zero (Float.sub (budget_usd w) (_spent_usd w)).

Definition can_afford (w : X402Wallet) (amount_usd : float) : bool :=
  Float.ge (remaining_usd w) amount_usd.

Definition units_to_usd (units : Z) : PyDecimal.signal + PyDecimal.t :=
  PyDecimal.truediv (PyDecimal.of_int units) (PyDecimal.of_int 1000000).

(** The argument of [usd_to_units]: a float, or a [Decimal] such as
    [units_to_usd] returns. *)
Inductive usd_value :=
| UsdFloat (x : float)
| UsdDecimal (d : PyDecimal.number).

(** [Decimal(str(usd))]: a [Decimal] is spelled and read back unchanged. *)
Definition decimal_of_str (usd : usd_value) : PyDecimal.number :=
  match usd with
  | UsdFloat x => PyDecimal.of_float_str x
  | UsdDecimal d => d
  end.

(** [int(Decimal(str(usd)) * Decimal(1_000_000))]; the product of a
    special value is special, and [int] raises on it. *)
Definition usd_to_units (usd : usd_value) : exn + Z :=
  match decimal_of_str usd with
  | PyDecimal.Finite d =>
      match PyDecimal.mul d (PyDecimal.of_int 1000000) with
      | inl s => inl (DecimalSignal s)
      | inr product => inr (PyDecimal.to_int product)
      end
  | PyDecimal.Infinite _ => inl OverflowError
  | PyDecimal.NaN => inl (ValueError (OtherText "cannot convert NaN to integer"))
  end.

Definition sign_payment (to_address : json) (amount_units valid_before : Z)
    (resource_url : string) (env : environment) : M (string * bytes) :=
  d ← lift_decimal (units_to_usd amount_units);
  let amount_usd := PyDecimal.to_float d in
  w ← self;
  if negb (can_afford w amount_usd) then
    raise (ValueError (BudgetExceededText amount_usd (remaining_usd w)))
  else
    let nonce := generate_nonce env in
    from ← address;
    let authorization :=
      {| from_address := from; to_address := to_address; value := amount_units;
         valid_after := 0; valid_before := valid_before; nonce := nonce |} in
    w ← self;
    signature ← sign_transfer_authorization (private_key w) authorization (network w);
    w ← self;
    _ ← set_self
      {| private_key := private_key w; network := network w;
         budget_usd := budget_usd w;
         _spent_usd := Float.add (_spent_usd w) amount_usd;
         _payments := _payments w ++ [
           {| timestamp := time_now env;
              pr_to_address := to_address;
              amount_usd := PyDecimal.of_float_str amount_usd;
              amount_units := amount_units;
              pr_network := network w;
              pr_nonce := hex nonce;
              signature := signature;
              resource_url := resource_url |} ];
         _address := _address w |};
    mret (signature, nonce).

(** The dictionary of [get_payment_summary]. *)
Record payment_summary := {
  summary_address : string;
  summary_network : string;
  summary_budget_usd : float;
  summary_spent_usd : float;
  summary_remaining_usd : float;
  summary_payment_count : nat;
}.

Definition get_payment_summary : M payment_summary :=
  a ← address;
  w ← self;
  mret {| summary_address := a;
          summary_network := network w;
          summary_budget_usd := budget_usd w;
          summary_spent_usd := spent_usd w;
          summary_remaining_usd := remaining_usd w;
          summary_payment_count := length (_payments w) |}.

Definition reset_budget (new_budget_usd : option float) : M unit :=
  w ← self;
  let budget :=
    match new_budget_usd with
    | Some b => b
    | None => budget_usd w
    end in
  set_self {| private_key := private_key w; network := network w;
              budget_usd := budget;
              _spent_usd := Float.zero;
              _payments := [];
              _address := _address w |}.

(** A caller that signs one payment after the other and stops at the
    first call that raises. *)
Record call := {
  call_to : json;
  call_units : Z;
  call_valid_before : Z;
  call_url : string;
  call_env : environment;
}.

Fixpoint sign_each (calls : list call) : M unit :=
  match calls with
  | [] => mret tt
  | c :: rest =>
      _ ← sign_payment (call_to c) (call_units c) (call_valid_before c)
            (call_url c) (call_env c);
      sign_each rest
  end.

(** ** [tool.py] *)

(** The fields of the tool besides its wallet, which is in the state. *)
Record X402PaymentTool := {
  timeout : float;
  auto_pay : bool;
}.

(** The transport: the [k]-th request of one client and what came back. *)
Definition transport := nat -> request -> exn + response.

Definition client_request (client : transport) (k : nat) (r : request) : M response :=
  _ ← emit (Sending r);
  lift (client k r).

(** [a or b] and [not a] on optional strings: [None] and the empty string
    are falsy. *)
Definition str_truthy (a : option string) : bool :=
  match a with
  | Some s => negb (String.eqb s "")
  | None => false
  end.

Definition str_or (a b : option string) : option string :=
  if str_truthy a then a else b.

(** [headers or {}]. *)
Definition headers_or_empty (headers : option (gmap string string)) : gmap string string :=
  match headers with
  | Some h => h
  | None => ∅
  end.

(** [max_price_usd or remaining]: [None] and a zero are falsy. *)
Definition float_or (a : option float) (b : float) : float :=
  match a with
  | Some x => if Float.truthy x then x else b
  | None => b
  end.

(** [d.get(key, default)] and [d[key]] on a decoded value. *)
Definition get (d : json) (key : string) (fallback : json) : exn + json :=
  match d with
  | JObj fields => inr (default fallback (dict_lookup fields key))
  | _ => inl AttributeError
  end.

Definition getitem (d : json) (key : string) : exn + json :=
  match d with
  | JObj fields =>
      match dict_lookup fields key with
      | Some v => inr v
      | None => inl (KeyError key)
      end
  | _ => inl TypeError
  end.

(** [int(v)]. *)
Definition int (v : json) : exn + Z :=
  match v with
  | JInt n => inr n
  | JBool b => inr (if b then 1 else 0)
  | JFloat x =>
      match Float.to_int x with
      | Some n => inr n
      | None =>
          match x with
          | S754_nan => inl (ValueError (OtherText "cannot convert float NaN to integer"))
          | _ => inl OverflowError
          end
      end
  | JStr s =>
      match int_of_str s with
      | Some n => inr n
      | None => inl (ValueError (InvalidLiteralText s))
      end
  | _ => inl TypeError
  end.

Definition _parse_payment_requirements (header_value : string) : exn + json :=
  match b64_json_loads header_value with
  | Some v => inr v
  | None => inl (ValueError (ParseFailedText (b64_json_error header_value)))
  end.

Definition with_0x (signature : string) : string :=
  if String.prefix "0x" signature then signature else ("0x" ++ signature)%string.

Definition _build_payment_header (requirements : json) (signature : string)
    (nonce : bytes) : M string :=
  version ← lift (get requirements "x402Version" (JInt 1));
  scheme ← lift (get requirements "scheme" (JStr "exact"));
  network ← lift (get requirements "network" JNull);
  from ← address;
  to ← lift (getitem requirements "payTo");
  amount ← lift (getitem requirements "maxAmountRequired");
  valid_until ← lift (getitem requirements "validUntil");
  let payload :=
    JObj [
      ("x402Version", version);
      ("scheme", scheme);
      ("network", network);
      ("payload", JObj [
         ("signature", JStr (with_0x signature));
         ("authorization", JObj [
            ("from", JStr from);
            ("to", to);
            ("value", JStr (str_of amount));
            ("validAfter", JStr "0");
            ("validBefore", JStr (str_of valid_until));
            ("nonce", JStr ("0x" ++ hex nonce))
         ])
      ])
    ]%string in
  mret (b64_json_dumps payload).

(** The logging of the settlement header, which only [_run] has. *)
Definition log_payment_response (paid_response : response) (run_manager : bool) : M unit :=
  let payment_response :=
    str_or (headers_get paid_response "PAYMENT-RESPONSE")
           (headers_get paid_response "X-PAYMENT-RESPONSE") in
  match payment_response with
  | Some value =>
      if str_truthy payment_response && run_manager then
        except_pass (
          pr_data ← lift (match b64_json_loads value with
                          | Some v => inr v
                          | None => inl (OtherError "Exception")
                          end);
          tx ← lift (get pr_data "txHash" (JStr "unknown"));
          emit (OnText tx))
      else mret tt
  | None => mret tt
  end.

Definition _run (tool : X402PaymentTool) (client : transport) (env : environment)
    (url : string) (method : string) (body : option string)
    (headers : option (gmap string string)) (max_price_usd : option float)
    (run_manager : bool) : M reply :=
  let request_headers := headers_or_empty headers in
  (* Initial request *)
  response ← client_request client 0
    {| method := method; url := url; content := body; headers := request_headers |};
  (* If not 402, return response directly *)
  if negb (status_code response =? 402) then
    if 400 <=? status_code response then
      mret (ErrorStatus (status_code response) (text response))
    else mret (Body (text response))
  else
  (* Handle 402 Payment Required *)
  let payment_header :=
    str_or (headers_get response "PAYMENT-REQUIRED")
           (headers_get response "X-PAYMENT-REQUIRED") in
  match payment_header with
  | None => mret MissingPaymentHeader
  | Some header_value =>
  if negb (str_truthy payment_header) then mret MissingPaymentHeader
  else
  match _parse_payment_requirements header_value with
  | inl (ValueError e) => mret (ErrorParsing e)
  | inl e => raise e
  | inr requirements =>
  (* Extract payment details *)
  amount_raw ← lift (get requirements "maxAmountRequired" (JInt 0));
  amount_units ← lift (int amount_raw);
  d ← lift_decimal (units_to_usd amount_units);
  let amount_usd := PyDecimal.to_float d in
  pay_to ← lift (get requirements "payTo" JNull);
  valid_raw ← lift (get requirements "validUntil" (JInt 0));
  valid_until ← lift (int valid_raw);
  network_required ← lift (get requirements "network" JNull);
  (* Check network compatibility *)
  w ← self;
  if truthy network_required && differs_from_str network_required (network w) then
    mret (NetworkMismatch network_required (network w))
  else
  (* Check price limit *)
  let effective_max := float_or max_price_usd (remaining_usd w) in
  if Float.gt amount_usd effective_max then
    mret (PriceRejected amount_usd pay_to effective_max)
  else
  (* Check budget *)
  if negb (can_afford w amount_usd) then
    mret (InsufficientBudget amount_usd (remaining_usd w))
  else
  if negb (auto_pay tool) then mret (PaymentDeclined amount_usd pay_to)
  else
  (* Sign the payment *)
  signed ← except_ValueError
    (r ← sign_payment pay_to amount_units valid_until url env; mret (inr r))
    (fun e => mret (inl (PaymentSigningFailed e)));
  match signed with
  | inl failed => mret failed
  | inr (signature, nonce) =>
  (* Build payment header *)
  payment_value ← _build_payment_header requirements signature nonce;
  (* Retry with payment *)
  let request_headers := <["PAYMENT-SIGNATURE" := payment_value]> request_headers in
  paid_response ← client_request client 1
    {| method := method; url := url; content := body; headers := request_headers |};
  if 400 <=? status_code paid_response then
    mret (ErrorAfterPayment (status_code paid_response) (text paid_response))
  else
  (* Log payment response if present *)
  _ ← log_payment_response paid_response run_manager;
  mret (Body (text paid_response))
  end
  end
  end.

Definition _arun (tool : X402PaymentTool) (client : transport) (env : environment)
    (url : string) (method : string) (body : option string)
    (headers : option (gmap string string)) (max_price_usd : option float)
    (run_manager : bool) : M reply :=
  let request_headers := headers_or_empty headers in
  (* Initial request *)
  response ← client_request client 0
    {| method := method; url := url; content := body; headers := request_headers |};
  (* If not 402, return response directly *)
  if negb (status_code response =? 402) then
    if 400 <=? status_code response then
      mret (ErrorStatus (status_code response) (text response))
    else mret (Body (text response))
  else
  (* Handle 402 Payment Required *)
  let payment_header :=
    str_or (headers_get response "PAYMENT-REQUIRED")
           (headers_get response "X-PAYMENT-REQUIRED") in
  match payment_header with
  | None => mret MissingPaymentHeader
  | Some header_value =>
  if negb (str_truthy payment_header) then mret MissingPaymentHeader
  else
  match _parse_payment_requirements header_value with
  | inl (ValueError e) => mret (ErrorParsing e)
  | inl e => raise e
  | inr requirements =>
  (* Extract payment details *)
  amount_raw ← lift (get requirements "maxAmountRequired" (JInt 0));
  amount_units ← lift (int amount_raw);
  d ← lift_decimal (units_to_usd amount_units);
  let amount_usd := PyDecimal.to_float d in
  pay_to ← lift (get requirements "payTo" JNull);
  valid_raw ← lift (get requirements "validUntil" (JInt 0));
  valid_until ← lift (int valid_raw);
  network_required ← lift (get requirements "network" JNull);
  (* Check network compatibility *)
  w ← self;
  if truthy network_required && differs_from_str network_required (network w) then
    mret (NetworkMismatch network_required (network w))
  else
  (* Check price limit *)
  let effective_max := float_or max_price_usd (remaining_usd w) in
  if Float.gt amount_usd effective_max then
    mret (PriceRejected amount_usd pay_to effective_max)
  else
  (* Check budget *)
  if negb (can_afford w amount_usd) then
    mret (InsufficientBudget amount_usd (remaining_usd w))
  else
  if negb (auto_pay tool) then mret (PaymentDeclined amount_usd pay_to)
  else
  (* Sign the payment *)
  signed ← except_ValueError
    (r ← sign_payment pay_to amount_units valid_until url env; mret (inr r))
    (fun e => mret (inl (PaymentSigningFailed e)));
  match signed with
  | inl failed => mret failed
  | inr (signature, nonce) =>
  (* Build payment header *)
  payment_value ← _build_payment_header requirements signature nonce;
  (* Retry with payment *)
  let request_headers := <["PAYMENT-SIGNATURE" := payment_value]> request_headers in
  paid_response ← client_request client 1
    {| method := method; url := url; content := body; headers := request_headers |};
  if 400 <=? status_code paid_response then
    mret (ErrorAfterPayment (status_code paid_response) (text paid_response))
  else
  mret (Body (text paid_response))
  end
  end
  end.

(** The tool is run through [_run], or through [_arun] from async code. *)
Definition invoke (async : bool) := if async then _arun else _run.

End Program.

(** ** The history list as a shared object *)

Module Aliasing.

(** [self._payments] is a reference to a list object; the [payments]
    property returns [self._payments.copy()], a reference to a new list
    object with the same items (the records themselves are shared).  The
    heap holds the wallet and the lists. *)

Definition loc := positive.

Record wallet_object := {
  obj_private_key : string;
  obj_network : string;
  obj_budget_usd : float;
  obj_spent_usd : float;
  obj_payments : loc;
  obj_address : option string;
}.

Inductive object :=
| ListObject (items : list PaymentRecord)
| WalletObject (w : wallet_object).

(** [l.copy()]. *)
Definition list_copy (l : loc) (h : gmap loc object) : option (loc * gmap loc object) :=
  match h !! l with
  | Some (ListObject items) =>
      let l' := fresh (dom h) in
      Some (l', <[l' := ListObject items]> h)
  | _ => None
  end.

(** The property [payments] of the wallet at [self]. *)
Definition payments (self : loc) (h : gmap loc object) : option (loc * gmap loc object) :=
  match h !! self with
  | Some (WalletObject w) => list_copy (obj_payments w) h
  | _ => None
  end.

(** What a holder of a list reference can do to the list: [append(r)],
    [pop(i)] (nothing changes when it raises [IndexError]), [clear()]. *)
Inductive mutation :=
| Append (r : PaymentRecord)
| Pop (i : nat)
| Clear.

Definition mutate (m : mutation) (items : list PaymentRecord) : list PaymentRecord :=
  match m with
  | Append r => items ++ [r]
  | Pop i => delete i items
  | Clear => []
  end.

Definition apply (l : loc) (h : gmap loc object) (m : mutation) : gmap loc object :=
  match h !! l with
  | Some (ListObject items) => <[l := ListObject (mutate m items)]> h
  | _ => h
  end.

(** What the wallet at [self] shows: [spent_usd], the recorded history and
    the [payment_count] of its summary. *)
Definition observed (self : loc) (h : gmap loc object)
    : option (float * list PaymentRecord * nat) :=
  match h !! self with
  | Some (WalletObject w) =>
      match h !! obj_payments w with
      | Some (ListObject items) => Some (obj_spent_usd w, items, length items)
      | _ => None
      end
  | _ => None
  end.

(** What the wallet itself does to its history: the end of [sign_payment]
    ([self._spent_usd += amount_usd], [self._payments.append(record)]) and
    [reset_budget] ([self._payments.clear()], in place). *)
Inductive wallet_step :=
| Record (amount_usd : float) (record : PaymentRecord)
| Reset (new_budget_usd : option float).

Definition perform (self : loc) (h : gmap loc object) (step : wallet_step)
    : gmap loc object :=
  match h !! self with
  | Some (WalletObject w) =>
      match step with
      | Record amount_usd record =>
          let h := <[self := WalletObject
                       {| obj_private_key := obj_private_key w;
                          obj_network := obj_network w;
                          obj_budget_usd := obj_budget_usd w;
                          obj_spent_usd := Float.add (obj_spent_usd w) amount_usd;
                          obj_payments := obj_payments w;
                          obj_address := obj_address w |}]> h in
          apply (obj_payments w) h (Append record)
      | Reset new_budget_usd =>
          let h := <[self := WalletObject
                       {| obj_private_key := obj_private_key w;
                          obj_network := obj_network w;
                          obj_budget_usd :=
                            match new_budget_usd with
                            | Some b => b
                            | None => obj_budget_usd w
                            end;
                          obj_spent_usd := Float.zero;
                          obj_payments := obj_payments w;
                          obj_address := obj_address w |}]> h in
          apply (obj_payments w) h Clear
      end
  | _ => h
  end.

End Aliasing.

(** ** Stand-ins for the outside, and concrete runs *)

Module Double.

(** A signer that returns one fixed signature, codecs that know one
    requirement header, a reader of plain digit strings. *)

Fixpoint digits_value (s : string) (acc : Z) : option Z :=
  match s with
  | EmptyString => Some acc
  | String c rest =>
      let n := Z.of_N (Ascii.N_of_ascii c) - 48 in
      if (0 <=? n) && (n <=? 9) then digits_value rest (10 * acc + n) else None
  end.

Definition read_int (s : string) : option Z :=
  match s with
  | EmptyString => None
  | _ => digits_value s 0
  end.

(** A requirement of $0.10 on the wallet's network. *)
Definition requirement_10c : json :=
  JObj [
    ("x402Version", JInt 1);
    ("scheme", JStr "exact");
    ("network", JStr "base-sepolia");
    ("payTo", JStr "0x1234567890123456789012345678901234567890");
    ("maxAmountRequired", JStr "100000");
    ("validUntil", JInt 9999999999)
  ]%string.

(** The same requirement for another chain. *)
Definition requirement_other_chain : json :=
  JObj [
    ("x402Version", JInt 1);
    ("scheme", JStr "exact");
    ("network", JStr "eip155:1");
    ("payTo", JStr "0x1234567890123456789012345678901234567890");
    ("maxAmountRequired", JStr "100000");
    ("validUntil", JInt 9999999999)
  ]%string.

Definition loads (s : string) : option json :=
  if String.eqb s "REQ-10C" then Some requirement_10c
  else if String.eqb s "REQ-OTHER-CHAIN" then Some requirement_other_chain
  else None.

Definition print (v : json) : string :=
  match v with
  | JStr s => s
  | JInt n => pretty n
  | _ => "?"
  end.

#[global] Instance ports : Ports := {|
  account_address := fun _ => "0xf39Fd6e51aad88F6F4ce6aB8827279cffFb92266"%string;
  account_sign_typed_data := fun _ _ => inr "0xsigned"%string;
  b64_json_loads := loads;
  b64_json_error := fun _ => "Incorrect padding"%string;
  b64_json_dumps := fun _ => "PROOF"%string;
  int_of_str := read_int;
  str_of := print;
|}.

Definition key : string := "0xac0974bec39a17e36ba4a6b4d238ff944bacb478cbed5efcae784d7bf4f2ff80".

Definition payee : json := JStr "0x1234567890123456789012345678901234567890".

Definition env : environment :=
  {| token_bytes := repeat Byte.x2a 32; time_now := Float.zero |}.

(** The float written [c * 10^e] in the source text. *)
Definition literal (c e : Z) : float := PyDecimal.to_float (PyDecimal.mk false c e).

(** A wallet on base-sepolia with the given budget, nothing spent. *)
Definition fresh (budget : float) : state :=
  {| wallet := new_wallet key "base-sepolia" budget; trace := [] |}.

(** A payment of [units] to the payee. *)
Definition pay (units : Z) : call :=
  {| call_to := payee; call_units := units; call_valid_before := 9999999999;
     call_url := ""; call_env := env |}.

(** A server that answers 402 with the given header value, and [retry] to
    the request that carries the proof. *)
Definition server (header_value : string) (retry : response) : transport :=
  fun k _ =>
    match k with
    | O => inr {| status_code := 402;
                  headers_get := fun name =>
                    if String.eqb name "PAYMENT-REQUIRED" then Some header_value else None;
                  text := "payment required" |}
    | _ => inr retry
    end.

Definition ok_response : response :=
  {| status_code := 200; headers_get := fun _ => None; text := "premium data" |}.

Definition forbidden_response : response :=
  {| status_code := 403; headers_get := fun _ => None; text := "forbidden" |}.

Definition tool : X402PaymentTool := {| timeout := literal 30 0; auto_pay := true |}.

(** A heap with one wallet, at 1, whose history, at 2, has one record. *)
Definition record_10c : PaymentRecord :=
  {| timestamp := Float.zero; pr_to_address := payee;
     amount_usd := PyDecimal.Finite (PyDecimal.mk false 1 (-1));
     amount_units := 100000; pr_network := "base-sepolia"; pr_nonce := "2a";
     signature := "0xsigned"; resource_url := "" |}.

Definition heap : gmap Aliasing.loc Aliasing.object :=
  <[1%positive := Aliasing.WalletObject
      {| Aliasing.obj_private_key := key;
         Aliasing.obj_network := "base-sepolia";
         Aliasing.obj_budget_usd := literal 1 0;
         Aliasing.obj_spent_usd := literal 1 (-1);
         Aliasing.obj_payments := 2%positive;
         Aliasing.obj_address := None |}]>
  (<[2%positive := Aliasing.ListObject [record_10c]]> ∅).

End Double.

(** More stand-ins: servers and requirements for the other ways a run ends. *)
Module Scenes.

(** A server that gives the same answer to every request. *)
Definition plain (answer : response) : transport := fun _ _ => inr answer.

(** A server that answers 402 with both header names set. *)
Definition both_headers (primary legacy : string) (retry : response) : transport :=
  fun k _ =>
    match k with
    | O => inr {| status_code := 402;
                  headers_get := fun name =>
                    if String.eqb name "PAYMENT-REQUIRED" then Some primary
                    else if String.eqb name "X-PAYMENT-REQUIRED" then Some legacy
                    else None;
                  text := "payment required" |}
    | _ => inr retry
    end.

(** A server that cannot be reached. *)
Definition unreachable : transport := fun _ _ => inl (OtherError "ConnectError").

(** A server that answers 402 and then fails to answer at all. *)
Definition drops_retry (header_value : string) : transport :=
  fun k r =>
    match k with
    | O => Double.server header_value Double.ok_response O r
    | _ => inl (OtherError "ConnectError")
    end.

(** A requirement of $0.10 without a deadline. *)
Definition requirement_no_deadline : json :=
  JObj [
    ("network", JStr "base-sepolia");
    ("payTo", JStr "0x1234567890123456789012345678901234567890");
    ("maxAmountRequired", JStr "100000")
  ]%string.

(** A requirement whose amount is spelled out. *)
Definition requirement_in_words : json :=
  JObj [
    ("network", JStr "base-sepolia");
    ("payTo", JStr "0x1234567890123456789012345678901234567890");
    ("maxAmountRequired", JStr "ten cents");
    ("validUntil", JInt 9999999999)
  ]%string.

(** A requirement for another chain whose amount is spelled out. *)
Definition requirement_other_chain_in_words : json :=
  JObj [
    ("network", JStr "eip155:1");
    ("payTo", JStr "0x1234567890123456789012345678901234567890");
    ("maxAmountRequired", JStr "ten cents");
    ("validUntil", JInt 9999999999)
  ]%string.

(** A requirement of $0.10 whose network is the empty string. *)
Definition requirement_empty_network : json :=
  JObj [
    ("network", JStr "");
    ("payTo", JStr "0x1234567890123456789012345678901234567890");
    ("maxAmountRequired", JStr "100000");
    ("validUntil", JInt 9999999999)
  ]%string.

Definition loads (s : string) : option json :=
  if String.eqb s "REQ-NO-DEADLINE" then Some requirement_no_deadline
  else if String.eqb s "REQ-IN-WORDS" then Some requirement_in_words
  else if String.eqb s "REQ-OTHER-CHAIN-IN-WORDS"
       then Some requirement_other_chain_in_words
  else if String.eqb s "REQ-EMPTY-NETWORK" then Some requirement_empty_network
  else if String.eqb s "REQ-LIST" then Some (JList [JInt 100000])
  else Double.loads s.

(** The codecs that also know the requirement without a deadline. *)
Definition ports : Ports := {|
  account_address := fun _ => "0xf39Fd6e51aad88F6F4ce6aB8827279cffFb92266"%string;
  account_sign_typed_data := fun _ _ => inr "0xsigned"%string;
  b64_json_loads := loads;
  b64_json_error := fun _ => "Incorrect padding"%string;
  b64_json_dumps := fun _ => "PROOF"%string;
  int_of_str := Double.read_int;
  str_of := Double.print;
|}.

(** A signer that refuses. *)
Definition refusing : Ports := {|
  account_address := fun _ => "0xf39Fd6e51aad88F6F4ce6aB8827279cffFb92266"%string;
  account_sign_typed_data := fun _ _ => inl (ValueError (OtherText "bad address"));
  b64_json_loads := Double.loads;
  b64_json_error := fun _ => "Incorrect padding"%string;
  b64_json_dumps := fun _ => "PROOF"%string;
  int_of_str := Double.read_int;
  str_of := Double.print;
|}.

Definition not_found : response :=
  {| status_code := 404; headers_get := fun _ => None; text := "not found" |}.

Definition manual : X402PaymentTool :=
  {| timeout := Double.literal 30 0; auto_pay := false |}.

(** A wallet on a network the tables do not know. *)
Definition elsewhere (budget : float) : state :=
  {| wallet := new_wallet Double.key "polygon-mainnet" budget; trace := [] |}.

End Scenes.

(** * Facts about the decimal context *)

Section Pow10.

Lemma p10_pos k : 0 <= k -> 0 < 10 ^ k.
Proof. intros. apply Z.pow_pos_nonneg; lia. Qed.

Lemma p10_split a b : 0 <= b <= a -> 10 ^ a = 10 ^ (a - b) * 10 ^ b.
Proof. intros. rewrite <- Z.pow_add_r by lia. f_equal. lia. Qed.

Lemma p10_div c a b : 0 <= b <= a -> (c * 10 ^ a) / 10 ^ b = c * 10 ^ (a - b).
Proof.
  intros. rewrite (p10_split a b) by lia. rewrite Z.mul_assoc.
  apply Z.div_mul. pose proof (p10_pos b). lia.
Qed.

Lemma p10_mod c a b : 0 <= b <= a -> (c * 10 ^ a) mod 10 ^ b = 0.
Proof.
  intros. rewrite (p10_split a b) by lia. rewrite Z.mul_assoc.
  apply Z.mod_mul. pose proof (p10_pos b). lia.
Qed.

Lemma p10_le a b : 0 <= a <= b -> 10 ^ a <= 10 ^ b.
Proof. intros. apply Z.pow_le_mono_r; lia. Qed.

Lemma p10_succ k : 0 <= k -> 10 ^ (k + 1) = 10 * 10 ^ k.
Proof. intros. rewrite Z.pow_add_r by lia. lia. Qed.

Lemma div_eucl_pair a b : Z.div_eucl a b = (a / b, a mod b).
Proof. unfold Z.div, Z.modulo. destruct (Z.div_eucl a b); reflexivity. Qed.

End Pow10.

Section Digits.
Import PyDecimal.

Lemma ndigits_aux_spec fuel : forall n,
  0 < n -> n < 2 ^ (Z.of_nat fuel + 1) ->
  1 <= ndigits_aux fuel n /\
  10 ^ (ndigits_aux fuel n - 1) <= n < 10 ^ ndigits_aux fuel n.
Proof.
  induction fuel as [|f IH]; intros n Hpos Hlt.
  - simpl in *. change (2 ^ 1) with 2 in Hlt. lia.
  - cbn [ndigits_aux]. destruct (Z.ltb_spec n 10) as [Hs|Hs].
    + change (10 ^ (1 - 1)) with 1. change (10 ^ 1) with 10. lia.
    + assert (Hq : 0 < n / 10) by (apply Z.div_str_pos; lia).
      assert (Hb : n / 10 < 2 ^ (Z.of_nat f + 1)).
      { apply Z.div_lt_upper_bound; [lia|].
        replace (Z.of_nat (S f) + 1) with (Z.of_nat f + 1 + 1) in Hlt by lia.
        rewrite (Z.pow_add_r 2 (Z.of_nat f + 1) 1) in Hlt by lia.
        change (2 ^ 1) with 2 in Hlt. lia. }
      destruct (IH _ Hq Hb) as (H1 & Hlo & Hhi).
      set (k := ndigits_aux f (n / 10)) in *.
      split; [lia|].
      replace (1 + k - 1) with (k - 1 + 1) by lia.
      replace (1 + k) with (k + 1) by lia.
      rewrite !p10_succ by lia.
      pose proof (Z.div_mod n 10 ltac:(lia)) as Hdm.
      pose proof (Z.mod_pos_bound n 10 ltac:(lia)).
      lia.
Qed.

Lemma ndigits_spec n :
  0 < n -> 1 <= ndigits n /\ 10 ^ (ndigits n - 1) <= n < 10 ^ ndigits n.
Proof.
  intros Hpos. unfold ndigits. apply ndigits_aux_spec; [lia|].
  rewrite Z2Nat.id by apply Z.log2_nonneg.
  replace (Z.log2 n + 1) with (Z.succ (Z.log2 n)) by lia.
  apply Z.log2_spec; lia.
Qed.

Lemma ndigits_unique n k :
  0 < n -> 10 ^ (k - 1) <= n < 10 ^ k -> ndigits n = k.
Proof.
  intros Hpos [Hlo Hhi].
  destruct (ndigits_spec n Hpos) as (H1 & Hl & Hh).
  assert (1 <= k).
  { destruct (Z.le_gt_cases 1 k); [lia|].
    assert (10 ^ k <= 1); [|lia].
    destruct (Z.eq_dec k 0) as [->|]; [reflexivity|].
    rewrite Z.pow_neg_r by lia. lia. }
  destruct (Z.lt_trichotomy (ndigits n) k) as [Hc|[Hc|Hc]]; [|lia|].
  - pose proof (p10_le (ndigits n) (k - 1) ltac:(lia)). lia.
  - pose proof (p10_le k (ndigits n - 1) ltac:(lia)). lia.
Qed.

Lemma ndigits_le n k : 0 < n -> 0 <= k -> n < 10 ^ k -> ndigits n <= k.
Proof.
  intros Hpos Hk Hlt. destruct (ndigits_spec n Hpos) as (H1 & Hl & Hh).
  destruct (Z.le_gt_cases (ndigits n) k); [lia|].
  pose proof (p10_le k (ndigits n - 1) ltac:(lia)). lia.
Qed.

Lemma ndigits_shift n k : 0 < n -> 0 <= k -> ndigits (n * 10 ^ k) = ndigits n + k.
Proof.
  intros Hpos Hk. destruct (ndigits_spec n Hpos) as (H1 & Hl & Hh).
  pose proof (p10_pos k Hk).
  apply ndigits_unique; [nia|].
  replace (ndigits n + k - 1) with (ndigits n - 1 + k) by lia.
  rewrite !Z.pow_add_r by lia. nia.
Qed.

Lemma ndigits_million : ndigits 1000000 = 7.
Proof. reflexivity. Qed.

End Digits.

Section Context28.
Import PyDecimal.

Lemma strip_zeros_spec fuel : forall c e ideal c' e',
  strip_zeros fuel c e ideal = (c', e') ->
  e <= e' /\ c = c' * 10 ^ (e' - e) /\ (e <= ideal -> e' <= ideal) /\
  (ideal - e <= Z.of_nat fuel -> e' < ideal -> c' mod 10 <> 0).
Proof.
  induction fuel as [|f IH]; intros c e ideal c' e' Hs.
  - simpl in Hs. injection Hs as <- <-. rewrite Z.sub_diag.
    change (10 ^ 0) with 1. lia.
  - cbn [strip_zeros] in Hs.
    destruct (Z.ltb_spec e ideal) as [Hlt|Hge]; cbn [andb] in Hs.
    + destruct (Z.eqb_spec (c mod 10) 0) as [Hz|Hnz].
      * apply IH in Hs. destruct Hs as (Hle & Hc & Hid & Hm).
        repeat split; try lia.
        rewrite (Z.div_mod c 10) by lia. rewrite Hz, Z.add_0_r.
        rewrite Hc at 1.
        replace (e' - e) with (e' - (e + 1) + 1) by lia.
        rewrite p10_succ by lia. lia.
      * injection Hs as <- <-. rewrite Z.sub_diag. change (10 ^ 0) with 1. lia.
    + injection Hs as <- <-. rewrite Z.sub_diag. change (10 ^ 0) with 1. lia.
Qed.

(** An exact quotient that ends in [k] zeros loses at least [k] of them. *)
Lemma strip_zeros_drops fuel c e ideal c' e' m k :
  strip_zeros fuel c e ideal = (c', e') ->
  ideal - e <= Z.of_nat fuel -> 0 <= k <= ideal - e ->
  c = m * 10 ^ k -> e + k <= e'.
Proof.
  intros Hs Hfuel Hk Hc.
  destruct (strip_zeros_spec _ _ _ _ _ _ Hs) as (Hle & Hcc & Hid & Hm).
  destruct (Z.le_gt_cases (e + k) e') as [|Hlt]; [lia|].
  exfalso. apply Hm; [lia | lia |].
  assert (Hc' : c' = m * 10 ^ (k - (e' - e))).
  { apply (Z.mul_cancel_r _ _ (10 ^ (e' - e))).
    - pose proof (p10_pos (e' - e)). lia.
    - rewrite <- Hcc, Hc, <- Z.mul_assoc, <- Z.pow_add_r by lia.
      do 2 f_equal. lia. }
  rewrite Hc'. replace (k - (e' - e)) with (k - (e' - e) - 1 + 1) by lia.
  rewrite p10_succ by lia.
  rewrite (Z.mul_comm 10), Z.mul_assoc. apply Z.mod_mul. lia.
Qed.

(** A coefficient of at most 28 digits with an exponent in range is kept. *)
Lemma fix_keeps s c e :
  0 < c < 10 ^ 28 -> Etiny <= e -> ndigits c + e - 28 <= Etop ->
  fix_ (mk s c e) = inr (mk s c e).
Proof.
  intros Hc He Htop. unfold fix_. cbn [coeff exp sign].
  destruct (Z.eqb_spec c 0); [lia|].
  pose proof (ndigits_le c 28 ltac:(lia) ltac:(lia) ltac:(lia)) as Hn.
  destruct (ndigits_spec c ltac:(lia)) as (H1 & _).
  unfold ctx_prec, Etop, Etiny, Emax, Emin, ctx_prec in *.
  destruct (Z.ltb_spec (999999 - 28 + 1) (ndigits c + e - 28)); [lia|].
  destruct (Z.ltb_spec (ndigits c + e - 28) (-999999 - 28 + 1)).
  - destruct (Z.ltb_spec e (-999999 - 28 + 1)); [lia|]. reflexivity.
  - destruct (Z.ltb_spec e (ndigits c + e - 28)); [lia|]. reflexivity.
Qed.

Lemma round_up_exact c k : 0 <= k -> c mod 10 ^ k = 0 -> round_up c k = false.
Proof.
  intros Hk Hm. unfold round_up. rewrite Hm. pose proof (p10_pos k Hk).
  destruct (Z.ltb_spec (10 ^ k) (2 * 0)); [lia|].
  destruct (Z.eqb_spec (10 ^ k) (2 * 0)); [lia|]. reflexivity.
Qed.

(** A longer coefficient whose extra digits are zeros is shortened to 28
    digits without a change of value. *)
Lemma fix_drops_zeros s c e :
  0 < c -> 28 < ndigits c -> c mod 10 ^ (ndigits c - 28) = 0 ->
  Etiny <= e -> ndigits c + e - 28 <= Etop ->
  fix_ (mk s c e) = inr (mk s (c / 10 ^ (ndigits c - 28)) (e + (ndigits c - 28))).
Proof.
  intros Hc Hn Hm He Htop. unfold fix_. cbn [coeff exp sign].
  destruct (Z.eqb_spec c 0); [lia|].
  unfold ctx_prec, Etop, Etiny, Emax, Emin, ctx_prec in *.
  destruct (Z.ltb_spec (999999 - 28 + 1) (ndigits c + e - 28)); [lia|].
  destruct (Z.ltb_spec (ndigits c + e - 28) (-999999 - 28 + 1)); [lia|].
  destruct (Z.ltb_spec e (ndigits c + e - 28)); [|lia].
  destruct (Z.ltb_spec (ndigits c + e - (ndigits c + e - 28)) 0); [lia|].
  replace (ndigits c + e - 28 - e) with (ndigits c - 28) by lia.
  rewrite round_up_exact by (assumption || lia).
  destruct (Z.ltb_spec (999999 - 28 + 1) (ndigits c + e - 28)); [lia|].
  do 2 f_equal. lia.
Qed.

(** A coefficient [m * 10^j] of at most 28 significant digits is brought
    to 28 digits by dropping zeros: the value is kept. *)
Lemma fix_exact s m j e :
  0 < m < 10 ^ 28 -> 0 <= j -> Etiny <= e -> ndigits m + j + e - 28 <= Etop ->
  let k := Z.max 0 (ndigits m + j - 28) in
  fix_ (mk s (m * 10 ^ j) e) = inr (mk s (m * 10 ^ (j - k)) (e + k)).
Proof.
  intros Hm Hj He Htop k.
  pose proof (p10_pos j Hj) as Hp.
  pose proof (ndigits_shift m j ltac:(lia) Hj) as Hnd.
  pose proof (ndigits_le m 28 ltac:(lia) ltac:(lia) ltac:(lia)) as Hn.
  assert (Hc : 0 < m * 10 ^ j) by nia.
  destruct (ndigits_spec (m * 10 ^ j) Hc) as (H1 & _ & Hhi).
  destruct (Z.le_gt_cases (ndigits m + j) 28) as [Hle|Hgt].
  - replace k with 0 by (unfold k; lia). rewrite Z.sub_0_r, Z.add_0_r.
    apply fix_keeps; [|lia|lia].
    split; [exact Hc|]. rewrite Hnd in Hhi.
    pose proof (p10_le (ndigits m + j) 28 ltac:(lia)). lia.
  - replace k with (ndigits (m * 10 ^ j) - 28) by (unfold k; lia).
    rewrite fix_drops_zeros by (first [lia | apply p10_mod; lia]).
    rewrite p10_div by lia. reflexivity.
Qed.

(** Dividing by 10^6 an integer of at most 28 significant digits is exact. *)
Lemma truediv_million s m z :
  0 < m < 10 ^ 28 -> 0 <= z <= 950000 ->
  exists c e m' j',
    truediv (mk s (m * 10 ^ z) 0) (mk false 1000000 0) = inr (mk s c e) /\
    -6 <= e <= z + 2 /\ c * 10 ^ (e + 6) = m * 10 ^ z /\
    c = m' * 10 ^ j' /\ 0 < m' < 10 ^ 28 /\ 0 <= j' <= 30.
Proof.
  intros Hm Hz. unfold truediv. cbn [coeff exp sign].
  rewrite xorb_false_r.
  change (1000000 =? 0) with false. cbv iota.
  pose proof (p10_pos z ltac:(lia)) as Hpz.
  destruct (Z.eqb_spec (m * 10 ^ z) 0) as [Hz0|_]; [nia|].
  rewrite ndigits_million, ndigits_shift by lia.
  pose proof (ndigits_le m 28 ltac:(lia) ltac:(lia) ltac:(lia)) as Hn.
  destruct (ndigits_spec m ltac:(lia)) as (H1 & _).
  unfold ctx_prec. set (n := ndigits m) in *.
  set (shift := 7 - (n + z) + 28 + 1).
  change 1000000 with (10 ^ 6).
  assert (Hc0 : forall q, q = 30 - n -> 0 < m * 10 ^ q).
  { intros q ->. pose proof (p10_pos (30 - n) ltac:(lia)). nia. }
  destruct (Z.leb_spec 0 shift) as [Hs|Hs].
  - (* the dividend is scaled up *)
    rewrite div_eucl_pair, <- Z.mul_assoc, <- Z.pow_add_r by lia.
    rewrite p10_div, p10_mod by lia.
    change (0 =? 0) with true. cbv iota.
    replace (z + shift - 6) with (30 - n) by (unfold shift; lia).
    destruct (strip_zeros _ _ _ _) as [c1 e1] eqn:Hstrip.
    pose proof (strip_zeros_spec _ _ _ _ _ _ Hstrip) as (Hle & Hcc & Hid & _).
    pose proof (strip_zeros_drops _ _ _ _ _ _
                  (m * 10 ^ (30 - n - Z.min shift (30 - n))) (Z.min shift (30 - n)) Hstrip
                  ltac:(lia) ltac:(lia)) as Hdrop.
    assert (He1 : -6 <= e1 <= 0).
    { split; [|lia]. etransitivity; [|apply Hdrop].
      - unfold shift. lia.
      - rewrite <- Z.mul_assoc, <- Z.pow_add_r by lia. do 2 f_equal. lia. }
    set (t := e1 - (0 - 0 - shift)) in *.
    assert (Ht : 0 <= t) by (unfold t; lia).
    pose proof (p10_pos t Ht) as Hpt.
    assert (Hc1 : 0 < c1) by (specialize (Hc0 _ eq_refl); nia).
    assert (Hval : c1 * 10 ^ (e1 + 6) = m * 10 ^ z).
    { apply (Z.mul_cancel_r _ _ (10 ^ shift)); [pose proof (p10_pos shift); lia|].
      rewrite <- !Z.mul_assoc, <- !Z.pow_add_r by lia.
      replace (z + shift) with (30 - n + 6) by (unfold shift; lia).
      replace (e1 + 6 + shift) with (t + 6) by (unfold t; lia).
      rewrite !Z.pow_add_r, !Z.mul_assoc by lia. rewrite <- Hcc. reflexivity. }
    assert (Hform : exists m' j', c1 = m' * 10 ^ j' /\ 0 < m' < 10 ^ 28 /\
                                 0 <= j' <= 30 /\ ndigits m' + j' <= 30).
    { destruct (Z.le_gt_cases t (30 - n)) as [Hsmall|Hbig].
      - exists m, (30 - n - t). repeat split; try lia.
        apply (Z.mul_cancel_r _ _ (10 ^ t)); [lia|].
        rewrite <- Hcc, <- Z.mul_assoc, <- Z.pow_add_r by lia. do 2 f_equal. lia.
      - exists c1, 0. change (10 ^ 0) with 1.
        assert (Hm1 : c1 * 10 ^ (t - (30 - n)) = m).
        { apply (Z.mul_cancel_r _ _ (10 ^ (30 - n)));
            [pose proof (p10_pos (30 - n)); lia|].
          rewrite Hcc, <- Z.mul_assoc, <- Z.pow_add_r by lia. do 2 f_equal. lia. }
        pose proof (p10_pos (t - (30 - n)) ltac:(lia)).
        assert (c1 < 10 ^ 28) by nia.
        pose proof (ndigits_le c1 28 ltac:(lia) ltac:(lia) ltac:(lia)).
        repeat split; lia. }
    destruct Hform as (m' & j' & -> & Hm' & Hj' & Hnd').
    pose proof (fix_exact s m' j' e1 Hm' ltac:(lia)
                  ltac:(unfold Etiny, Emin, ctx_prec; lia)
                  ltac:(unfold Etop, Emax, ctx_prec; lia)) as Hfix.
    cbv zeta in Hfix. rewrite Hfix.
    set (k := Z.max 0 (ndigits m' + j' - 28)) in *.
    assert (Hk : 0 <= k <= j').
    { pose proof (ndigits_le m' 28 ltac:(lia) ltac:(lia) ltac:(lia)). unfold k. lia. }
    exists (m' * 10 ^ (j' - k)), (e1 + k), m', (j' - k).
    split; [reflexivity|]. split; [unfold k in *; lia|]. split; [|repeat split; lia].
    rewrite <- Hval, <- !Z.mul_assoc, <- !Z.pow_add_r by lia. do 2 f_equal. lia.
  - (* the divisor is scaled up *)
    rewrite div_eucl_pair, <- Z.pow_add_r by lia.
    rewrite p10_div, p10_mod by (unfold shift in *; lia).
    change (0 =? 0) with true. cbv iota.
    replace (Z.to_nat (0 - 0 - (0 - 0 - shift))) with O by lia.
    cbn [strip_zeros].
    replace (z - (6 + - shift)) with (30 - n) by (unfold shift; lia).
    pose proof (fix_exact s m (30 - n) (0 - 0 - shift) Hm ltac:(lia)
                  ltac:(unfold Etiny, Emin, ctx_prec; lia)
                  ltac:(unfold Etop, Emax, ctx_prec, shift; fold n; lia)) as Hfix.
    cbv zeta in Hfix. fold n in Hfix. rewrite Hfix.
    replace (Z.max 0 (n + (30 - n) - 28)) with 2 by lia.
    exists (m * 10 ^ (30 - n - 2)), (0 - 0 - shift + 2), m, (30 - n - 2).
    split; [reflexivity|]. split; [unfold shift; lia|]. split; [|repeat split; lia].
    rewrite <- Z.mul_assoc, <- Z.pow_add_r by (unfold shift; lia).
    do 2 f_equal. unfold shift. lia.
Qed.

(** Multiplying by 10^6 a decimal of at most 6 decimal places and at most
    28 significant digits, and truncating, gives the exact product. *)
Lemma mul_million s m j e :
  0 < m < 10 ^ 28 -> 0 <= j -> -6 <= e -> j + e <= 950000 ->
  exists d, mul (mk s (m * 10 ^ j) e) (mk false 1000000 0) = inr d /\
    to_int d = if s then - (m * 10 ^ (j + e + 6)) else m * 10 ^ (j + e + 6).
Proof.
  intros Hm Hj He Hje. unfold mul. cbn [coeff exp sign].
  rewrite xorb_false_r, Z.add_0_r.
  change 1000000 with (10 ^ 6).
  rewrite <- Z.mul_assoc, <- Z.pow_add_r by lia.
  pose proof (ndigits_le m 28 ltac:(lia) ltac:(lia) ltac:(lia)) as Hn.
  destruct (ndigits_spec m ltac:(lia)) as (H1 & _).
  pose proof (fix_exact s m (j + 6) e Hm ltac:(lia)
                ltac:(unfold Etiny, Emin, ctx_prec; lia)
                ltac:(unfold Etop, Emax, ctx_prec; lia)) as Hfix.
  cbv zeta in Hfix. rewrite Hfix.
  set (k := Z.max 0 (ndigits m + (j + 6) - 28)) in *.
  assert (Hk : 0 <= k <= j + 6) by (unfold k; lia).
  eexists; split; [reflexivity|]. unfold to_int. cbn [coeff exp sign].
  assert (Hv : (if 0 <=? e + k then m * 10 ^ (j + 6 - k) * 10 ^ (e + k)
                else m * 10 ^ (j + 6 - k) / 10 ^ (- (e + k))) = m * 10 ^ (j + e + 6)).
  { destruct (Z.leb_spec 0 (e + k)).
    - rewrite <- Z.mul_assoc, <- Z.pow_add_r by lia. do 2 f_equal. lia.
    - rewrite p10_div by lia. do 2 f_equal. lia. }
  rewrite Hv. reflexivity.
Qed.

End Context28.

(** * The unit conversions *)

Section Conversions.

Lemma units_to_usd_exact (negative : bool) (m z : Z) :
  0 < m < 10 ^ 28 -> 0 <= z <= 950000 ->
  exists c e m' j',
    units_to_usd (if negative then - (m * 10 ^ z) else m * 10 ^ z) =
      inr (PyDecimal.mk negative c e) /\
    -6 <= e <= z + 2 /\ c * 10 ^ (e + 6) = m * 10 ^ z /\
    c = m' * 10 ^ j' /\ 0 < m' < 10 ^ 28 /\ 0 <= j' <= 30.
Proof.
  intros Hm Hz. unfold units_to_usd, PyDecimal.of_int.
  change (1000000 <? 0) with false. change (Z.abs 1000000) with 1000000.
  pose proof (p10_pos z ltac:(lia)) as Hp.
  assert (Hpos : 0 < m * 10 ^ z) by nia.
  replace ((if negative then - (m * 10 ^ z) else m * 10 ^ z) <? 0) with negative
    by (destruct negative; symmetry; [apply Z.ltb_lt | apply Z.ltb_ge]; lia).
  replace (Z.abs (if negative then - (m * 10 ^ z) else m * 10 ^ z)) with (m * 10 ^ z)
    by (destruct negative; lia).
  apply truediv_million; assumption.
Qed.

(** Below 28 digits the quotient is the exact value [units / 10^6]. *)
Lemma units_to_usd_value n d :
  Z.abs n < 10 ^ 28 -> units_to_usd n = inr d ->
  PyDecimal.sign d = (n <? 0) /\ -6 <= PyDecimal.exp d /\
  PyDecimal.coeff d * 10 ^ (PyDecimal.exp d + 6) = Z.abs n.
Proof.
  intros Hn Hd. destruct (Z.eq_dec n 0) as [->|Hnz].
  - change (units_to_usd 0) with (@inr PyDecimal.signal _ (PyDecimal.mk false 0 0)) in Hd.
    injection Hd as <-. split; [reflexivity | split; [cbn; lia | reflexivity]].
  - destruct (units_to_usd_exact (n <? 0) (Z.abs n) 0 ltac:(lia) ltac:(lia))
      as (c & e & _ & _ & Hu & He & Hv & _).
    change (10 ^ 0) with 1 in *. rewrite Z.mul_1_r in *.
    replace (if n <? 0 then - Z.abs n else Z.abs n) with n in Hu
      by (destruct (Z.ltb_spec n 0); lia).
    rewrite Hu in Hd. injection Hd as <-. cbn. repeat split; lia.
Qed.

Lemma eqb_same_value s c e c' e' :
  -6 <= e -> -6 <= e' -> c' * 10 ^ (e' + 6) = c * 10 ^ (e + 6) ->
  PyDecimal.eqb (PyDecimal.mk s c' e') (PyDecimal.mk s c e) = true.
Proof.
  intros He He' Hv. unfold PyDecimal.eqb.
  cbn [PyDecimal.coeff PyDecimal.exp PyDecimal.sign].
  set (m := Z.min e' e).
  assert (Hm : -6 <= m /\ m <= e /\ m <= e') by (unfold m; lia).
  assert (Heq : c' * 10 ^ (e' - m) = c * 10 ^ (e - m)).
  { apply (Z.mul_cancel_r _ _ (10 ^ (m + 6))).
    - pose proof (p10_pos (m + 6)). lia.
    - rewrite <- !Z.mul_assoc, <- !Z.pow_add_r by lia.
      replace (e' - m + (m + 6)) with (e' + 6) by lia.
      replace (e - m + (m + 6)) with (e + 6) by lia. exact Hv. }
  rewrite Heq. apply Z.eqb_refl.
Qed.

Lemma usd_round_trip (x : usd_value) (s : bool) (m j e : Z) :
  decimal_of_str x = PyDecimal.Finite (PyDecimal.mk s (m * 10 ^ j) e) ->
  0 <= m < 10 ^ 28 -> 0 <= j -> -6 <= e -> j + e <= 900000 ->
  exists n d', usd_to_units x = inr n /\ units_to_usd n = inr d' /\
    PyDecimal.eqb d' (PyDecimal.mk s (m * 10 ^ j) e) = true.
Proof.
  intros Hx Hm Hj He Hje. unfold usd_to_units. rewrite Hx.
  unfold PyDecimal.of_int.
  change (1000000 <? 0) with false. change (Z.abs 1000000) with 1000000.
  destruct (Z.eq_dec m 0) as [->|Hnz].
  - exists 0, (PyDecimal.mk false 0 0). rewrite Z.mul_0_l.
    unfold PyDecimal.mul, PyDecimal.fix_, PyDecimal.to_int.
    cbn [PyDecimal.coeff PyDecimal.exp PyDecimal.sign].
    rewrite Z.mul_0_l. change (0 =? 0) with true. cbv iota.
    cbn [PyDecimal.coeff PyDecimal.exp PyDecimal.sign].
    rewrite Z.mul_0_l, Zdiv_0_l.
    split; [|split].
    + destruct (0 <=? _), s; reflexivity.
    + reflexivity.
    + unfold PyDecimal.eqb. cbn [PyDecimal.coeff PyDecimal.exp PyDecimal.sign].
      rewrite !Z.mul_0_l. destruct s; reflexivity.
  - destruct (mul_million s m j e ltac:(lia) Hj He ltac:(lia)) as (d1 & Hmul & Hint).
    rewrite Hmul.
    destruct (units_to_usd_exact s m (j + e + 6) ltac:(lia) ltac:(lia))
      as (c' & e' & _ & _ & Hu & He' & Hv & _).
    rewrite <- Hint in Hu.
    exists (PyDecimal.to_int d1), (PyDecimal.mk s c' e').
    split; [reflexivity|]. split; [exact Hu|].
    apply eqb_same_value; [lia | lia |].
    rewrite Hv, <- Z.mul_assoc, <- Z.pow_add_r by lia. do 2 f_equal. lia.
Qed.

Lemma units_round_trip (m z : Z) :
  0 <= m < 10 ^ 28 -> 0 <= z <= 900000 ->
  exists d, units_to_usd (m * 10 ^ z) = inr d /\
    usd_to_units (UsdDecimal (PyDecimal.Finite d)) = inr (m * 10 ^ z).
Proof.
  intros Hm Hz. destruct (Z.eq_dec m 0) as [->|Hnz].
  - exists (PyDecimal.mk false 0 0). rewrite Z.mul_0_l. split; reflexivity.
  - destruct (units_to_usd_exact false m z ltac:(lia) ltac:(lia))
      as (c & e & m' & j' & Hd & He & Hv & -> & Hm' & Hj').
    exists (PyDecimal.mk false (m' * 10 ^ j') e). split; [exact Hd|].
    unfold usd_to_units, decimal_of_str, PyDecimal.of_int.
    change (1000000 <? 0) with false. change (Z.abs 1000000) with 1000000.
    destruct (mul_million false m' j' e Hm' ltac:(lia) ltac:(lia) ltac:(lia))
      as (d1 & Hmul & Hint).
    rewrite Hmul, Hint. f_equal. rewrite <- Hv.
    rewrite <- Z.mul_assoc, <- Z.pow_add_r by lia. do 2 f_equal. lia.
Qed.

End Conversions.

(** C4, as the code has it.  [usd_to_units(x)] reads [x] through its text:
    it works on the decimal [Decimal(str(x))].  Under the default decimal
    context (28 significant digits), whenever that decimal has at most 6
    decimal places and at most 28 significant digits,
    [units_to_usd(usd_to_units(x))] is a [Decimal] equal to
    [Decimal(str(x))]; for a [Decimal] argument that is [x] itself, for a
    float it is the shortest decimal that reads back as the float, not the
    float's exact value.  And a non-negative integer of at most 28
    significant digits is reproduced exactly by
    [usd_to_units(units_to_usd(u))].  The digits are [m], followed by [j]
    or [z] zeros; the exponents stay far below the context's limit. *)
Theorem conversions_round_trip (x : usd_value) (s : bool) (m j e : Z) (m' z : Z) :
  decimal_of_str x = PyDecimal.Finite (PyDecimal.mk s (m * 10 ^ j) e) ->
  0 <= m < 10 ^ 28 -> 0 <= j -> -6 <= e -> j + e <= 900000 ->
  0 <= m' < 10 ^ 28 -> 0 <= z <= 900000 ->
  (exists n d', usd_to_units x = inr n /\ units_to_usd n = inr d' /\
     (exists printed, decimal_of_str x = PyDecimal.Finite printed /\
        PyDecimal.eqb d' printed = true) /\
     (forall d, x = UsdDecimal (PyDecimal.Finite d) -> PyDecimal.eqb d' d = true)) /\
  (exists d', units_to_usd (m' * 10 ^ z) = inr d' /\
     usd_to_units (UsdDecimal (PyDecimal.Finite d')) = inr (m' * 10 ^ z)).
Proof.
  intros Hx Hm Hj He Hje Hm' Hz. split.
  - destruct (usd_round_trip x s m j e Hx Hm Hj He Hje) as (n & d' & Hn & Hd' & Heq).
    exists n, d'. split; [exact Hn|]. split; [exact Hd'|]. split.
    + exists (PyDecimal.mk s (m * 10 ^ j) e). split; [exact Hx | exact Heq].
    + intros d ->. cbn [decimal_of_str] in Hx. injection Hx as ->. exact Heq.
  - exact (units_round_trip m' z Hm' Hz).
Qed.

(** The float [0.01] and the amount 10000, as in [test_units_conversion]. *)
Lemma conversions_round_trip_witness :
  let x := UsdFloat (Double.literal 1 (-2)) in
  (exists n d', usd_to_units x = inr n /\ units_to_usd n = inr d' /\
     (exists printed, decimal_of_str x = PyDecimal.Finite printed /\
        PyDecimal.eqb d' printed = true) /\
     (forall d, x = UsdDecimal (PyDecimal.Finite d) -> PyDecimal.eqb d' d = true)) /\
  (exists d', units_to_usd (1 * 10 ^ 4) = inr d' /\
     usd_to_units (UsdDecimal (PyDecimal.Finite d')) = inr (1 * 10 ^ 4)).
Proof.
  intros x.
  apply (conversions_round_trip x false 1 0 (-2) 1 4).
  - vm_compute. reflexivity.
  - split; [lia | vm_compute; reflexivity].
  - lia.
  - lia.
  - lia.
  - split; [lia | vm_compute; reflexivity].
  - lia.
Defined.

(** What comes back for a float is its printed decimal: the float [2^60]
    prints as [1.152921504606847e+18], and the round trip returns
    1152921504606847000, which is not [2^60]. *)
Lemma float_comes_back_as_printed :
  let x := Double.literal (2 ^ 60) 0 in
  Float.exact x = Some (2 ^ 60, 0) /\
  decimal_of_str (UsdFloat x) =
    PyDecimal.Finite (PyDecimal.mk false 1152921504606847 3) /\
  usd_to_units (UsdFloat x) = inr (1152921504606847000 * 10 ^ 6) /\
  units_to_usd (1152921504606847000 * 10 ^ 6) =
    inr (PyDecimal.mk false 1152921504606847000 0) /\
  1152921504606847000 <> 2 ^ 60.
Proof.
  vm_compute. repeat split. discriminate.
Qed.

(** C4 as stated fails on an integer of 29 digits: the quotient by 10^6
    is rounded to 28 digits, and coming back gives 10^28, not 10^28 + 1. *)
Lemma round_trip_loses_the_29th_digit :
  exists d, units_to_usd (10 ^ 28 + 1) = inr d /\
    usd_to_units (UsdDecimal (PyDecimal.Finite d)) = inr (10 ^ 28) /\
    usd_to_units (UsdDecimal (PyDecimal.Finite d)) <> inr (10 ^ 28 + 1).
Proof.
  exists (PyDecimal.mk false (10 ^ 27) (-5)).
  split; [vm_compute; reflexivity|].
  split; [vm_compute; reflexivity|].
  vm_compute. discriminate.
Qed.

(** * The ledger *)

Ltac unfold_M :=
  unfold mbind, M_bind, mret, M_ret, except_ValueError, except_pass,
    lift, lift_decimal, self, set_self, emit in *;
  unfold bind, ret, raise in *; cbv beta in *.

Ltac proj :=
  cbn [wallet trace private_key network budget_usd _spent_usd _payments _address
       fst snd] in *.

(** Split on the first scrutinee of a hypothesis about a run. *)
Ltac split_run H :=
  match type of H with
  | context [match ?x with _ => _ end] =>
      lazymatch x with
      | context [match _ with _ => _ end] => fail
      | _ => destruct x eqn:?
      end
  | context [if ?x then _ else _] =>
      lazymatch x with
      | context [match _ with _ => _ end] => fail
      | context [if _ then _ else _] => fail
      | _ => destruct x eqn:?
      end
  end; proj; try discriminate H.

Section Ledger.
Context `{Ports}.

(** What a call of [sign_payment] that returns has done. *)
Lemma sign_payment_returned to units vb url env st r st' :
  sign_payment to units vb url env st = (Returned r, st') ->
  exists d typed sig,
    units_to_usd units = inr d /\
    can_afford (wallet st) (PyDecimal.to_float d) = true /\
    r = (sig, token_bytes env) /\
    private_key (wallet st') = private_key (wallet st) /\
    network (wallet st') = network (wallet st) /\
    budget_usd (wallet st') = budget_usd (wallet st) /\
    _spent_usd (wallet st') = Float.add (_spent_usd (wallet st)) (PyDecimal.to_float d) /\
    _payments (wallet st') = _payments (wallet st) ++ [
      {| timestamp := time_now env;
         pr_to_address := to;
         amount_usd := PyDecimal.of_float_str (PyDecimal.to_float d);
         amount_units := units;
         pr_network := network (wallet st);
         pr_nonce := hex (token_bytes env);
         signature := sig;
         resource_url := url |} ] /\
    trace st' = trace st ++ [Signing (normalize_key (private_key (wallet st))) typed].
Proof.
  unfold sign_payment, sign_transfer_authorization, address, generate_nonce.
  unfold_M. intros Hrun.
  repeat split_run Hrun.
  all: injection Hrun as <- <-; proj.
  all: repeat match goal with
       | E : (_, _) = (_, _) |- _ => injection E as ? ?; subst
       end; proj.
  all: do 3 eexists; repeat split; try reflexivity.
  all: try (apply negb_false_iff; assumption).
Qed.

Lemma remaining_never_negative w : Float.ge (remaining_usd w) Float.zero = true.
Proof.
  unfold remaining_usd, Float.max, Float.gt, Float.ge.
  destruct (SFcompare (Float.sub (budget_usd w) (_spent_usd w)) Float.zero)
    as [[]|] eqn:E; try reflexivity.
  rewrite E. reflexivity.
Qed.

(** The running sum of a sequence of calls that all return. *)
Lemma sign_each_returned calls : forall st st',
  sign_each calls st = (Returned tt, st') ->
  exists amounts,
    Forall2 (fun c a => exists d,
               units_to_usd (call_units c) = inr d /\ a = PyDecimal.to_float d)
            calls amounts /\
    _spent_usd (wallet st') = fold_left Float.add amounts (_spent_usd (wallet st)) /\
    budget_usd (wallet st') = budget_usd (wallet st).
Proof.
  induction calls as [|c rest IH]; intros st st' Hrun.
  - injection Hrun as <-. exists []. repeat split. constructor.
  - cbn [sign_each] in Hrun. unfold mbind, M_bind, bind in Hrun.
    destruct (sign_payment _ _ _ _ _ st) as [[r|e] st1] eqn:Hfirst; [|discriminate].
    destruct (sign_payment_returned _ _ _ _ _ _ _ _ Hfirst)
      as (d & typed & sig & Hd & _ & _ & _ & _ & Hb & Hs & _).
    destruct (IH _ _ Hrun) as (amounts & Hall & Hsum & Hbudget).
    exists (PyDecimal.to_float d :: amounts). split; [|split].
    + constructor; [exists d; split; [exact Hd | reflexivity] | exact Hall].
    + cbn [fold_left]. rewrite Hsum, Hs. reflexivity.
    + rewrite Hbudget, Hb. reflexivity.
Qed.

End Ledger.

(** C1, as the code has it.  After every call of [sign_payment] that
    returns, the amount in USD (the binary64 value of [units / 10^6]) was at
    most [remaining_usd] before the call, [spent_usd] is the binary64 sum of
    the spend before and the amount, the budget is unchanged, and
    [remaining_usd] is [max(0.0, budget_usd - spent_usd)] in binary64, which
    is never negative. *)
Theorem sign_payment_keeps_the_ledger `{Ports} to units vb url env st r st' :
  sign_payment to units vb url env st = (Returned r, st') ->
  exists d,
    units_to_usd units = inr d /\
    Float.ge (remaining_usd (wallet st)) (PyDecimal.to_float d) = true /\
    spent_usd (wallet st') = Float.add (spent_usd (wallet st)) (PyDecimal.to_float d) /\
    budget_usd (wallet st') = budget_usd (wallet st) /\
    remaining_usd (wallet st') =
      Float.max Float.zero (Float.sub (budget_usd (wallet st')) (spent_usd (wallet st'))) /\
    Float.ge (remaining_usd (wallet st')) Float.zero = true.
Proof.
  intros Hrun.
  destruct (sign_payment_returned _ _ _ _ _ _ _ _ Hrun)
    as (d & typed & sig & Hd & Hafford & _ & _ & _ & Hb & Hs & _).
  exists d. repeat split; try assumption.
  apply remaining_never_negative.
Qed.

(** The payment of [test_sign_payment_tracks_spending]. *)
Lemma sign_payment_keeps_the_ledger_witness :
  let st := Double.fresh (Double.literal 1 0) in
  let st' := snd (sign_payment Double.payee 100000 9999999999 "" Double.env st) in
  exists d,
    units_to_usd 100000 = inr d /\
    Float.ge (remaining_usd (wallet st)) (PyDecimal.to_float d) = true /\
    spent_usd (wallet st') = Float.add (spent_usd (wallet st)) (PyDecimal.to_float d) /\
    budget_usd (wallet st') = budget_usd (wallet st) /\
    remaining_usd (wallet st') =
      Float.max Float.zero (Float.sub (budget_usd (wallet st')) (spent_usd (wallet st'))) /\
    Float.ge (remaining_usd (wallet st')) Float.zero = true.
Proof.
  intros st st'.
  apply (sign_payment_keeps_the_ledger Double.payee 100000 9999999999 "" Double.env st
           ("0xsigned"%string, token_bytes Double.env) st').
  vm_compute. reflexivity.
Defined.

(** C1 as stated fails: with a budget of $0.30, a payment of $0.03 and then
    one of $0.27 both pass the check and both return, and the spend is then
    0.30000000000000004, above the budget. *)
Lemma spend_can_exceed_budget :
  let st0 := Double.fresh (Double.literal 3 (-1)) in
  let first := sign_payment Double.payee 30000 9999999999 "" Double.env st0 in
  let second := sign_payment Double.payee 270000 9999999999 "" Double.env (snd first) in
  fst first = Returned ("0xsigned"%string, token_bytes Double.env) /\
  fst second = Returned ("0xsigned"%string, token_bytes Double.env) /\
  budget_usd (wallet (snd second)) = S754_finite false 5404319552844595 (-54) /\
  spent_usd (wallet (snd second)) = S754_finite false 5404319552844596 (-54) /\
  Float.le (spent_usd (wallet (snd second))) (budget_usd (wallet (snd second))) = false.
Proof. vm_compute. repeat split. Qed.

(** C2, as the code has it.  For a sequence of [sign_payment] calls that
    all return, each amount is the binary64 value nearest to the decimal
    quotient [units / 10^6], a quotient that is exact for amounts of at most
    28 digits; [spent_usd] is the binary64 running sum of these amounts, and
    [remaining_usd] is [max(0.0, budget_usd - spent_usd)] in binary64. *)
Theorem remaining_after_payments `{Ports} calls st st' :
  sign_each calls st = (Returned tt, st') ->
  exists amounts,
    Forall2 (fun c a => exists d,
               units_to_usd (call_units c) = inr d /\
               a = PyDecimal.to_float d /\
               (Z.abs (call_units c) < 10 ^ 28 ->
                PyDecimal.sign d = (call_units c <? 0) /\
                -6 <= PyDecimal.exp d /\
                PyDecimal.coeff d * 10 ^ (PyDecimal.exp d + 6) = Z.abs (call_units c)))
            calls amounts /\
    spent_usd (wallet st') = fold_left Float.add amounts (spent_usd (wallet st)) /\
    remaining_usd (wallet st') =
      Float.max Float.zero
        (Float.sub (budget_usd (wallet st))
                   (fold_left Float.add amounts (spent_usd (wallet st)))).
Proof.
  intros Hrun.
  destruct (sign_each_returned calls st st' Hrun) as (amounts & Hall & Hsum & Hbudget).
  exists amounts. split; [|split].
  - eapply Forall2_impl; [exact Hall|].
    intros c a (d & Hd & Ha). exists d.
    split; [exact Hd|]. split; [exact Ha|]. intros Hsmall.
    destruct (units_to_usd_value _ _ Hsmall Hd) as (Hsign & Hexp & Hval).
    split; [exact Hsign|]. split; [exact Hexp | exact Hval].
  - exact Hsum.
  - unfold remaining_usd. rewrite Hbudget. unfold spent_usd. rewrite Hsum. reflexivity.
Qed.

(** Two payments of $0.10 from a budget of $1.00. *)
Lemma remaining_after_payments_witness :
  let calls := [Double.pay 100000; Double.pay 100000] in
  let st := Double.fresh (Double.literal 1 0) in
  let st' := snd (sign_each calls st) in
  exists amounts,
    Forall2 (fun c a => exists d,
               units_to_usd (call_units c) = inr d /\
               a = PyDecimal.to_float d /\
               (Z.abs (call_units c) < 10 ^ 28 ->
                PyDecimal.sign d = (call_units c <? 0) /\
                -6 <= PyDecimal.exp d /\
                PyDecimal.coeff d * 10 ^ (PyDecimal.exp d + 6) = Z.abs (call_units c)))
            calls amounts /\
    spent_usd (wallet st') = fold_left Float.add amounts (spent_usd (wallet st)) /\
    remaining_usd (wallet st') =
      Float.max Float.zero
        (Float.sub (budget_usd (wallet st))
                   (fold_left Float.add amounts (spent_usd (wallet st)))).
Proof.
  intros calls st st'.
  apply (remaining_after_payments calls st st').
  vm_compute. reflexivity.
Defined.

(** C2 as stated fails: ten payments of $0.10 from a budget of $1.00 all
    return, their sum is the budget, and [remaining_usd] is then 2^-53, not
    the difference 0. *)
Lemma ten_dimes_leave_a_remainder :
  let st := Double.fresh (Double.literal 1 0) in
  let run := sign_each (repeat (Double.pay 100000) 10) st in
  fst run = Returned tt /\
  Float.denotes (budget_usd (wallet st)) 1000000 1000000 /\
  spent_usd (wallet (snd run)) = S754_finite false 9007199254740991 (-53) /\
  remaining_usd (wallet (snd run)) = S754_finite false 4503599627370496 (-105) /\
  ~ Float.denotes (remaining_usd (wallet (snd run))) (1000000 - 10 * 100000) 1000000.
Proof.
  vm_compute. repeat split. discriminate.
Qed.

(** C3.  A call of [sign_payment] whose amount fails the affordability
    check raises the budget-exceeded [ValueError], which carries the amount
    needed and the remaining budget, and leaves the state as it was: the
    spend, the history and everything else of the wallet, and nothing was
    signed. *)
Theorem sign_payment_refusal_changes_nothing `{Ports} to units vb url env st d :
  units_to_usd units = inr d ->
  can_afford (wallet st) (PyDecimal.to_float d) = false ->
  sign_payment to units vb url env st =
    (Raised (ValueError (BudgetExceededText (PyDecimal.to_float d)
                                            (remaining_usd (wallet st)))),
     st).
Proof.
  intros Hd Hc. unfold sign_payment. unfold_M. rewrite Hd. proj.
  rewrite Hc. reflexivity.
Qed.

(** The refusal of [test_sign_payment_exceeds_budget]: $0.10 from a budget
    of $0.05. *)
Lemma sign_payment_refusal_changes_nothing_witness :
  let st := Double.fresh (Double.literal 5 (-2)) in
  let d := PyDecimal.mk false 1 (-1) in
  sign_payment Double.payee 100000 9999999999 "" Double.env st =
    (Raised (ValueError (BudgetExceededText (PyDecimal.to_float d)
                                            (remaining_usd (wallet st)))),
     st).
Proof.
  intros st d.
  apply (sign_payment_refusal_changes_nothing Double.payee 100000 9999999999 ""
           Double.env st d).
  - vm_compute. reflexivity.
  - vm_compute. reflexivity.
Defined.

(** C8.  [reset_budget] sets the spend to zero and empties the history; the
    budget becomes the new value when one is given and stays otherwise;
    the private key, the network and the address are unchanged. *)
Theorem reset_budget_clears_the_ledger `{Ports} (new_budget_usd : option float) (st : state) :
  exists st',
    reset_budget new_budget_usd st = (Returned tt, st') /\
    spent_usd (wallet st') = Float.zero /\
    payments (wallet st') = [] /\
    budget_usd (wallet st') =
      match new_budget_usd with
      | Some b => b
      | None => budget_usd (wallet st)
      end /\
    private_key (wallet st') = private_key (wallet st) /\
    network (wallet st') = network (wallet st) /\
    _address (wallet st') = _address (wallet st) /\
    fst (address st') = fst (address st) /\
    trace st' = trace st.
Proof.
  exists {| wallet :=
              {| private_key := private_key (wallet st);
                 network := network (wallet st);
                 budget_usd := match new_budget_usd with
                               | Some b => b
                               | None => budget_usd (wallet st)
                               end;
                 _spent_usd := Float.zero;
                 _payments := [];
                 _address := _address (wallet st) |};
            trace := trace st |}.
  split; [reflexivity|]. proj. repeat split.
  unfold address. unfold_M. proj. destruct (_address (wallet st)); reflexivity.
Qed.

(** * The negotiation *)

(** Split on the first scrutinee of the goal. *)
Ltac split_goal :=
  match goal with
  | |- context [match ?x with _ => _ end] =>
      lazymatch x with
      | context [match _ with _ => _ end] => fail
      | context [if _ then _ else _] => fail
      | _ => destruct x eqn:?
      end
  | |- context [if ?x then _ else _] =>
      lazymatch x with
      | context [match _ with _ => _ end] => fail
      | context [if _ then _ else _] => fail
      | _ => destruct x eqn:?
      end
  end; proj.

Section Negotiation.
Context `{Ports}.

(** Building the proof header reads the wallet's address and nothing else. *)
Lemma build_payment_header_frame requirements sig nonce st o st' :
  _build_payment_header requirements sig nonce st = (o, st') ->
  trace st' = trace st /\
  private_key (wallet st') = private_key (wallet st) /\
  network (wallet st') = network (wallet st) /\
  budget_usd (wallet st') = budget_usd (wallet st) /\
  _spent_usd (wallet st') = _spent_usd (wallet st) /\
  _payments (wallet st') = _payments (wallet st).
Proof.
  unfold _build_payment_header, address. unfold_M. intros Hrun.
  repeat split_run Hrun.
  all: injection Hrun as <- <-; proj; repeat split; reflexivity.
Qed.

(** The logging of the settlement header returns and leaves the wallet. *)
Lemma log_payment_response_frame paid run_manager st :
  exists tr, log_payment_response paid run_manager st =
    (Returned tt, {| wallet := wallet st; trace := tr |}).
Proof.
  destruct st as [w tr0]. unfold log_payment_response. unfold_M.
  repeat split_goal.
  all: eexists; reflexivity.
Qed.

End Negotiation.

(** C10.  On every first and second answer of the transport, [_run] and
    [_arun] end the same way, with the same string returned or the same
    exception raised, and leave the same wallet. *)
Theorem run_and_arun_agree `{Ports} tool client env url method body headers
    max_price_usd run_manager st :
  fst (_run tool client env url method body headers max_price_usd run_manager st) =
  fst (_arun tool client env url method body headers max_price_usd run_manager st) /\
  wallet (snd (_run tool client env url method body headers max_price_usd run_manager st)) =
  wallet (snd (_arun tool client env url method body headers max_price_usd run_manager st)).
Proof.
  unfold _run, _arun, client_request. unfold_M. proj.
  repeat (split_goal; try (split; reflexivity)).
  all: match goal with
       | E : log_payment_response ?p ?r ?s = _ |- _ =>
           destruct (log_payment_response_frame p r s) as [tr Hlog];
           rewrite Hlog in E; injection E as ? ?; subst
       end.
  all: try discriminate.
  all: proj; split; reflexivity.
Qed.

Section Negotiation2.
Context `{Ports}.

(** The signer is asked at most once by [sign_payment], and only a call that
    returns changes the wallet. *)
Lemma sign_payment_trace to units vb url env st o st' :
  sign_payment to units vb url env st = (o, st') ->
  trace st' = trace st \/ exists key typed, trace st' = trace st ++ [Signing key typed].
Proof.
  unfold sign_payment, sign_transfer_authorization, address, generate_nonce.
  unfold_M. intros Hrun.
  repeat split_run Hrun.
  all: injection Hrun as <- <-; proj.
  all: repeat match goal with
       | E : (_, _) = (_, _) |- _ => injection E as ? ?; subst
       end; proj.
  all: try (left; reflexivity).
  all: right; eauto.
Qed.

Lemma log_payment_response_extends paid run_manager st :
  exists extra, log_payment_response paid run_manager st =
    (Returned tt, {| wallet := wallet st; trace := trace st ++ extra |}).
Proof.
  destruct st as [w tr0]. unfold log_payment_response. unfold_M.
  repeat split_goal.
  all: try (eexists; reflexivity).
  all: exists []; rewrite app_nil_r; reflexivity.
Qed.

End Negotiation2.

(** C7.  Whenever a run of [_run] has sent the request, had the payment
    signed and sent the request again, and the answer to the retried request
    has a status of 400 or more, the run returns the error-after-payment
    string with that status and body, and the payment stays in the wallet:
    [spent_usd] is the spend before plus the amount, and one record, for
    this URL, was appended to the history. *)
Theorem post_payment_error_keeps_the_payment `{Ports} tool client env url method body
    headers max_price_usd run_manager st out st' first key typed retry paid :
  _run tool client env url method body headers max_price_usd run_manager st = (out, st') ->
  trace st' = trace st ++ [Sending first; Signing key typed; Sending retry] ->
  client 1%nat retry = inr paid ->
  400 <= status_code paid ->
  out = Returned (ErrorAfterPayment (status_code paid) (text paid)) /\
  exists record d,
    units_to_usd (amount_units record) = inr d /\
    spent_usd (wallet st') = Float.add (spent_usd (wallet st)) (PyDecimal.to_float d) /\
    payments (wallet st') = payments (wallet st) ++ [record] /\
    resource_url record = url /\
    budget_usd (wallet st') = budget_usd (wallet st).
Proof.
  intros Hrun Htrace Hpaid Hstatus.
  unfold _run, client_request in Hrun. unfold_M. proj.
  repeat split_run Hrun.
  all: try (injection Hrun as <- <-; proj; apply app_inv_head in Htrace; discriminate Htrace).
  all: match goal with
       | Hsp : sign_payment _ _ _ _ _ _ = (_, _) |- _ =>
           pose proof (sign_payment_trace _ _ _ _ _ _ _ _ Hsp) as Htr
       end.
  all: try match goal with
       | Hbh : _build_payment_header _ _ _ _ = _ |- _ =>
           destruct (build_payment_header_frame _ _ _ _ _ _ Hbh)
             as (Hbt & _ & _ & Hbb & Hbs & Hbp)
       end.
  all: try match goal with
       | Hlog : log_payment_response ?p ?r ?s = _ |- _ =>
           destruct (log_payment_response_extends p r s) as [extra Hext];
           rewrite Hext in Hlog; injection Hlog as ? ?; subst
       end.
  all: injection Hrun as ? ?; subst out st'; proj.
  all: destruct Htr as [Htr | (? & ? & Htr)].
  all: rewrite ?Hbt, ?Htr in Htrace; proj.
  all: rewrite <- ?app_assoc in Htrace; apply app_inv_head in Htrace.
  all: cbn [app] in Htrace; try discriminate Htrace.
  all: injection Htrace as ? ? ?; subst.
  all: try congruence.
  all: match goal with
       | Hc : _ 1%nat _ = inr _ |- _ =>
           rewrite Hpaid in Hc; injection Hc as ->
       end.
  all: try (apply Z.leb_gt in Heqb5; lia).
  all: split; [reflexivity|].
  all: match goal with
       | Hsp : sign_payment _ _ _ _ _ _ = (Returned _, _) |- _ =>
           destruct (sign_payment_returned _ _ _ _ _ _ _ _ Hsp)
             as (d & ty & sg & Hd & _ & _ & _ & _ & Hb & Hs & Hp & _)
       end.
  all: proj; eexists _, d; unfold spent_usd, payments.
  all: rewrite Hbs, Hbp, Hbb, Hs, Hp, Hb.
  all: repeat split; exact Hd.
Qed.

(** The run of the spec's example: a payment of $0.10, then 403. *)
Lemma post_payment_error_keeps_the_payment_witness :
  let client := Double.server "REQ-10C" Double.forbidden_response in
  let st := Double.fresh (Double.literal 1 0) in
  let run := _run Double.tool client Double.env "https://api.example.com/premium" "GET"
               None None None false st in
  fst run = Returned (ErrorAfterPayment 403 "forbidden") /\
  exists record d,
    units_to_usd (amount_units record) = inr d /\
    spent_usd (wallet (snd run)) = Float.add (spent_usd (wallet st)) (PyDecimal.to_float d) /\
    payments (wallet (snd run)) = payments (wallet st) ++ [record] /\
    resource_url record = "https://api.example.com/premium"%string /\
    budget_usd (wallet (snd run)) = budget_usd (wallet st).
Proof.
  intros client st run.
  apply (post_payment_error_keeps_the_payment Double.tool client Double.env
           "https://api.example.com/premium" "GET" None None None false st
           (fst run) (snd run)
           {| method := "GET"; url := "https://api.example.com/premium";
              content := None; headers := ∅ |}
           Double.key
           {| domain_name := "USD Coin"; domain_version := "2"; chainId := 84532;
              verifyingContract := "0x036CbD53842c5426634e7929541eC2318f3dCF7e";
              msg_from := "0xf39Fd6e51aad88F6F4ce6aB8827279cffFb92266";
              msg_to := Double.payee; msg_value := 100000; msg_validAfter := 0;
              msg_validBefore := 9999999999;
              msg_nonce := ("0x" ++ hex (token_bytes Double.env))%string |}
           {| method := "GET"; url := "https://api.example.com/premium";
              content := None; headers := {["PAYMENT-SIGNATURE" := "PROOF"%string]} |}
           Double.forbidden_response).
  - exact (surjective_pairing run).
  - vm_compute. reflexivity.
  - reflexivity.
  - cbn. lia.
Defined.

(** C6, as the code has it.  When the answer is a 402 whose requirement
    decodes to an object, whose amount and deadline are read ([int] of
    [maxAmountRequired] and of [validUntil] return, and the amount converts
    to USD), and whose network is a truthy value (not null, not the empty
    string) that differs from the wallet's network, both [_run] and [_arun]
    return the network-mismatch string; the wallet is unchanged, and the
    first request is all that happened: the signer was not asked. *)
Theorem network_mismatch_stops_before_signing `{Ports} tool client env url method body
    headers max_price_usd run_manager st
    challenge header_value fields units d valid_until required :
  let first := {| method := method; url := url; content := body;
                  headers := headers_or_empty headers |} in
  let stopped := (Returned (NetworkMismatch required (network (wallet st))),
                  {| wallet := wallet st; trace := trace st ++ [Sending first] |}) in
  client 0%nat first = inr challenge ->
  status_code challenge = 402 ->
  str_or (headers_get challenge "PAYMENT-REQUIRED")
         (headers_get challenge "X-PAYMENT-REQUIRED") = Some header_value ->
  str_truthy (Some header_value) = true ->
  b64_json_loads header_value = Some (JObj fields) ->
  int (default (JInt 0) (dict_lookup fields "maxAmountRequired")) = inr units ->
  units_to_usd units = inr d ->
  int (default (JInt 0) (dict_lookup fields "validUntil")) = inr valid_until ->
  dict_lookup fields "network" = Some required ->
  truthy required = true ->
  differs_from_str required (network (wallet st)) = true ->
  _run tool client env url method body headers max_price_usd run_manager st = stopped /\
  _arun tool client env url method body headers max_price_usd run_manager st = stopped.
Proof.
  intros first stopped Hclient Hstatus Hheader Hnonempty Hloads Hunits Hd Hvalid
    Hnetwork Htruthy Hdiffers.
  unfold _run, _arun, client_request, _parse_payment_requirements, get.
  unfold_M. fold first.
  rewrite Hclient, Hstatus, Hheader, Hnonempty, Hloads, Hunits, Hd, Hvalid, Hnetwork.
  change (402 =? 402) with true. cbn [negb from_option id andb].
  cbv beta iota. proj. rewrite Htruthy, Hdiffers.
  split; reflexivity.
Qed.

(** A requirement for [eip155:1] meets a wallet on [base-sepolia]. *)
Lemma network_mismatch_stops_before_signing_witness :
  let client := Double.server "REQ-OTHER-CHAIN" Double.ok_response in
  let st := Double.fresh (Double.literal 1 0) in
  let first := {| method := "GET"; url := "https://api.example.com/premium";
                  content := None; headers := ∅ |} in
  let stopped := (Returned (NetworkMismatch (JStr "eip155:1") "base-sepolia"),
                  {| wallet := wallet st; trace := trace st ++ [Sending first] |}) in
  _run Double.tool client Double.env "https://api.example.com/premium" "GET"
    None None None false st = stopped /\
  _arun Double.tool client Double.env "https://api.example.com/premium" "GET"
    None None None false st = stopped.
Proof.
  intros client st first stopped.
  apply (network_mismatch_stops_before_signing Double.tool client Double.env
           "https://api.example.com/premium" "GET" None None None false st
           {| status_code := 402;
              headers_get := fun name =>
                if String.eqb name "PAYMENT-REQUIRED" then Some "REQ-OTHER-CHAIN"%string
                else None;
              text := "payment required" |}
           "REQ-OTHER-CHAIN"
           [("x402Version", JInt 1); ("scheme", JStr "exact");
            ("network", JStr "eip155:1");
            ("payTo", JStr "0x1234567890123456789012345678901234567890");
            ("maxAmountRequired", JStr "100000");
            ("validUntil", JInt 9999999999)]%string
           100000 (PyDecimal.mk false 1 (-1)) 9999999999 (JStr "eip155:1")).
  all: vm_compute; reflexivity.
Defined.

(** C6 as stated fails on two requirements that name a network other
    than the wallet's.  The amount and the deadline are read before the
    network is compared: a requirement for [eip155:1] whose amount is
    [ten cents] makes the run raise the [ValueError] of [int], it does not
    return the network-mismatch string.  And a network that is the empty
    string counts as absent: the wallet on [base-sepolia] pays. *)
Lemma network_is_compared_after_the_amount_is_read :
  let st := Double.fresh (Double.literal 1 0) in
  let unread := @_run Scenes.ports Double.tool
                  (Double.server "REQ-OTHER-CHAIN-IN-WORDS" Double.ok_response)
                  Double.env "https://api.example.com/premium" "GET" None None None
                  false st in
  let unnamed := @_run Scenes.ports Double.tool
                   (Double.server "REQ-EMPTY-NETWORK" Double.ok_response)
                   Double.env "https://api.example.com/premium" "GET" None None None
                   false st in
  @b64_json_loads Scenes.ports "REQ-OTHER-CHAIN-IN-WORDS" =
    Some Scenes.requirement_other_chain_in_words /\
  dict_lookup [("network", JStr "eip155:1");
               ("payTo", JStr "0x1234567890123456789012345678901234567890");
               ("maxAmountRequired", JStr "ten cents");
               ("validUntil", JInt 9999999999)]%string "network" =
    Some (JStr "eip155:1") /\
  differs_from_str (JStr "eip155:1") (network (wallet st)) = true /\
  fst unread = Raised (ValueError (InvalidLiteralText "ten cents")) /\
  fst unread <> Returned (NetworkMismatch (JStr "eip155:1") (network (wallet st))) /\
  differs_from_str (JStr "") (network (wallet st)) = true /\
  fst unnamed = Returned (Body "premium data") /\
  spent_usd (wallet (snd unnamed)) = Double.literal 1 (-1) /\
  length (payments (wallet (snd unnamed))) = 1%nat.
Proof.
  vm_compute. repeat split. discriminate.
Qed.

(** What holds of the price ceiling: a given maximum that is not zero is
    the ceiling, without a maximum the remaining budget is, and a price above
    the ceiling ends both [_run] and [_arun] with the price-rejected string
    before anything is signed or written. *)
Lemma float_or_given (x fallback : float) :
  Float.truthy x = true -> float_or (Some x) fallback = x.
Proof. intros Hx. unfold float_or. rewrite Hx. reflexivity. Qed.

Lemma float_or_absent (fallback : float) : float_or None fallback = fallback.
Proof. reflexivity. Qed.

Lemma price_above_ceiling_stops_before_signing `{Ports} tool client env url method body
    headers max_price_usd run_manager st
    challenge header_value fields units d valid_until :
  let first := {| method := method; url := url; content := body;
                  headers := headers_or_empty headers |} in
  let required := default JNull (dict_lookup fields "network") in
  let ceiling := float_or max_price_usd (remaining_usd (wallet st)) in
  let stopped := (Returned (PriceRejected (PyDecimal.to_float d)
                              (default JNull (dict_lookup fields "payTo")) ceiling),
                  {| wallet := wallet st; trace := trace st ++ [Sending first] |}) in
  client 0%nat first = inr challenge ->
  status_code challenge = 402 ->
  str_or (headers_get challenge "PAYMENT-REQUIRED")
         (headers_get challenge "X-PAYMENT-REQUIRED") = Some header_value ->
  str_truthy (Some header_value) = true ->
  b64_json_loads header_value = Some (JObj fields) ->
  int (default (JInt 0) (dict_lookup fields "maxAmountRequired")) = inr units ->
  units_to_usd units = inr d ->
  int (default (JInt 0) (dict_lookup fields "validUntil")) = inr valid_until ->
  truthy required && differs_from_str required (network (wallet st)) = false ->
  Float.gt (PyDecimal.to_float d) ceiling = true ->
  _run tool client env url method body headers max_price_usd run_manager st = stopped /\
  _arun tool client env url method body headers max_price_usd run_manager st = stopped.
Proof.
  intros first required ceiling stopped Hclient Hstatus Hheader Hnonempty Hloads Hunits
    Hd Hvalid Hnetwork Hprice.
  unfold _run, _arun, client_request, _parse_payment_requirements, get.
  unfold_M. fold first.
  rewrite Hclient, Hstatus, Hheader, Hnonempty, Hloads, Hunits, Hd, Hvalid.
  change (402 =? 402) with true. cbn [negb].
  cbv beta iota. proj. fold required. rewrite Hnetwork. fold ceiling. rewrite Hprice.
  split; reflexivity.
Qed.

(** C5, at the input on which the code departs from it.  With
    [max_price_usd = 0.0], a budget of $1.00 and a requirement of $0.10, the
    ceiling is the remaining budget and not zero: [_run] and [_arun] sign,
    record the payment and return the paid body. *)
Theorem zero_max_price_is_taken_as_absent :
  let client := Double.server "REQ-10C" Double.ok_response in
  let st := Double.fresh (Double.literal 1 0) in
  let run := _run Double.tool client Double.env "https://api.example.com/premium" "GET"
               None None (Some Float.zero) false st in
  let arun := _arun Double.tool client Double.env "https://api.example.com/premium" "GET"
               None None (Some Float.zero) false st in
  float_or (Some Float.zero) (remaining_usd (wallet st)) = Double.literal 1 0 /\
  fst run = Returned (Body "premium data") /\
  fst arun = Returned (Body "premium data") /\
  spent_usd (wallet (snd run)) = Double.literal 1 (-1) /\
  length (payments (wallet (snd run))) = 1%nat /\
  (exists key typed, In (Signing key typed) (trace (snd run))).
Proof.
  vm_compute. repeat split. do 2 eexists. right. left. reflexivity.
Qed.

(** * The history handed out by [payments] *)

Section Copy.
Import Aliasing.

Lemma apply_elsewhere (l k : loc) (h : gmap loc object) (m : mutation) :
  l <> k -> apply l h m !! k = h !! k.
Proof.
  intros Hne. unfold apply.
  destruct (h !! l) as [[items|w]|]; try reflexivity.
  apply lookup_insert_ne. exact Hne.
Qed.

Lemma mutations_elsewhere (l k : loc) (ms : list mutation) : forall h : gmap loc object,
  l <> k -> foldl (apply l) h ms !! k = h !! k.
Proof.
  induction ms as [|m ms IH]; intros h Hne; [reflexivity|].
  cbn [foldl]. rewrite IH by exact Hne. apply apply_elsewhere. exact Hne.
Qed.

Lemma list_copy_fresh (l l' : loc) (h h' : gmap loc object) :
  list_copy l h = Some (l', h') ->
  h !! l' = None /\ exists items,
    h !! l = Some (ListObject items) /\ h' = <[l' := ListObject items]> h.
Proof.
  unfold list_copy. destruct (h !! l) as [[items|w]|] eqn:Hl; try discriminate.
  intros [= <- <-]. split.
  - apply not_elem_of_dom. apply is_fresh.
  - exists items. split; reflexivity.
Qed.

End Copy.

(** C9.  The list that [payments] returns is a new list object with the
    items of the history: whatever is appended to it, popped from it or
    cleared in it, the wallet shows the same [spent_usd], the same history
    and the same payment count as before the call. *)
Theorem payments_returns_a_copy (self l : Aliasing.loc)
    (h h' : gmap Aliasing.loc Aliasing.object) (ms : list Aliasing.mutation) :
  Aliasing.payments self h = Some (l, h') ->
  h !! l = None /\
  (exists spent items,
     Aliasing.observed self h = Some (spent, items, length items) /\
     h' !! l = Some (Aliasing.ListObject items)) /\
  Aliasing.observed self (foldl (Aliasing.apply l) h' ms) = Aliasing.observed self h.
Proof.
  unfold Aliasing.payments.
  destruct (h !! self) as [[items0|w]|] eqn:Hself; try discriminate.
  intros Hcopy.
  destruct (list_copy_fresh _ _ _ _ Hcopy) as (Hfresh & items & Hlist & ->).
  assert (Hne_self : l <> self) by congruence.
  assert (Hne_list : l <> Aliasing.obj_payments w) by congruence.
  split; [exact Hfresh|]. split.
  - exists (Aliasing.obj_spent_usd w), items. split.
    + unfold Aliasing.observed. rewrite Hself, Hlist. reflexivity.
    + apply lookup_insert_eq.
  - unfold Aliasing.observed.
    rewrite !mutations_elsewhere by assumption.
    rewrite !lookup_insert_ne by assumption.
    rewrite Hself.
    rewrite !mutations_elsewhere by assumption.
    rewrite !lookup_insert_ne by assumption.
    reflexivity.
Qed.

(** The copy of a history of one record is cleared, then appended to. *)
Lemma payments_returns_a_copy_witness :
  let l := 3%positive in
  let h' := <[l := Aliasing.ListObject [Double.record_10c]]> Double.heap in
  let ms := [Aliasing.Clear; Aliasing.Append Double.record_10c; Aliasing.Pop 0] in
  Double.heap !! l = None /\
  (exists spent items,
     Aliasing.observed 1%positive Double.heap = Some (spent, items, length items) /\
     h' !! l = Some (Aliasing.ListObject items)) /\
  Aliasing.observed 1%positive (foldl (Aliasing.apply l) h' ms) =
    Aliasing.observed 1%positive Double.heap.
Proof.
  intros l h' ms.
  apply (payments_returns_a_copy 1%positive l Double.heap h' ms).
  vm_compute. reflexivity.
Defined.

(** * The ways a run ends before any payment *)

(** X1.  An answer to the first request whose status is not 402 is handed
    back by [_run] and [_arun] as it is: its body when the status is below
    400, the error string with status and body otherwise.  One request was
    sent, the wallet is as it was, nothing was signed. *)
Theorem other_status_is_passed_through `{Ports} async tool client env url method body
    headers max_price_usd run_manager st answer :
  let first := {| method := method; url := url; content := body;
                  headers := headers_or_empty headers |} in
  client 0%nat first = inr answer ->
  status_code answer <> 402 ->
  invoke async tool client env url method body headers max_price_usd run_manager st =
    (Returned (if 400 <=? status_code answer
               then ErrorStatus (status_code answer) (text answer)
               else Body (text answer)),
     {| wallet := wallet st; trace := trace st ++ [Sending first] |}).
Proof.
  intros first Hclient Hstatus.
  destruct async; unfold invoke, _run, _arun, client_request; unfold_M; fold first.
  all: rewrite Hclient.
  all: destruct (Z.eqb_spec (status_code answer) 402) as [|_]; [contradiction|].
  all: cbn [negb]; destruct (400 <=? status_code answer); reflexivity.
Qed.

(** A 404 comes back as an error string. *)
Lemma other_status_is_passed_through_witness :
  let st := Double.fresh (Double.literal 1 0) in
  let first := {| method := "GET"; url := "https://api.example.com/premium";
                  content := None; headers := ∅ |} in
  _run Double.tool (Scenes.plain Scenes.not_found) Double.env
    "https://api.example.com/premium" "GET" None None None false st =
    (Returned (ErrorStatus 404 "not found"),
     {| wallet := wallet st; trace := trace st ++ [Sending first] |}).
Proof.
  intros st first.
  apply (other_status_is_passed_through false Double.tool (Scenes.plain Scenes.not_found)
           Double.env "https://api.example.com/premium" "GET" None None None false st
           Scenes.not_found).
  - reflexivity.
  - cbn. lia.
Defined.

(** X2.  A 402 that carries neither [PAYMENT-REQUIRED] nor
    [X-PAYMENT-REQUIRED] with a value that is not empty ends [_run] and
    [_arun] with the missing-header string; the wallet is as it was and
    nothing was signed. *)
Theorem challenge_without_header_is_reported `{Ports} async tool client env url method
    body headers max_price_usd run_manager st challenge :
  let first := {| method := method; url := url; content := body;
                  headers := headers_or_empty headers |} in
  client 0%nat first = inr challenge ->
  status_code challenge = 402 ->
  str_truthy (headers_get challenge "PAYMENT-REQUIRED") = false ->
  str_truthy (headers_get challenge "X-PAYMENT-REQUIRED") = false ->
  invoke async tool client env url method body headers max_price_usd run_manager st =
    (Returned MissingPaymentHeader,
     {| wallet := wallet st; trace := trace st ++ [Sending first] |}).
Proof.
  intros first Hclient Hstatus Hprimary Hlegacy.
  destruct async; unfold invoke, _run, _arun, client_request, str_or; unfold_M;
    fold first.
  all: rewrite Hclient, Hstatus, Hprimary.
  all: change (402 =? 402) with true; cbn [negb].
  all: destruct (headers_get challenge "X-PAYMENT-REQUIRED") as [legacy|];
         [rewrite Hlegacy|]; reflexivity.
Qed.

(** A 402 whose only payment header is empty. *)
Lemma challenge_without_header_is_reported_witness :
  let st := Double.fresh (Double.literal 1 0) in
  let first := {| method := "GET"; url := "https://api.example.com/premium";
                  content := None; headers := ∅ |} in
  _arun Double.tool (Double.server "" Double.ok_response) Double.env
    "https://api.example.com/premium" "GET" None None None false st =
    (Returned MissingPaymentHeader,
     {| wallet := wallet st; trace := trace st ++ [Sending first] |}).
Proof.
  intros st first.
  apply (challenge_without_header_is_reported true Double.tool
           (Double.server "" Double.ok_response) Double.env
           "https://api.example.com/premium" "GET" None None None false st
           {| status_code := 402;
              headers_get := fun name =>
                if String.eqb name "PAYMENT-REQUIRED" then Some ""%string else None;
              text := "payment required" |}).
  all: reflexivity.
Defined.

(** X3.  Of a 402 answer the run uses the status and the payment header it
    selects, [PAYMENT-REQUIRED] when that is present and not empty and
    [X-PAYMENT-REQUIRED] otherwise, and nothing else: two servers whose
    first answers are 402s that select the same header value, and that
    answer the retried request alike, give the same run. *)
Theorem run_reads_the_selected_header `{Ports} async tool client client' env url method
    body headers max_price_usd run_manager st challenge challenge' :
  let first := {| method := method; url := url; content := body;
                  headers := headers_or_empty headers |} in
  client 0%nat first = inr challenge ->
  client' 0%nat first = inr challenge' ->
  status_code challenge = 402 ->
  status_code challenge' = 402 ->
  str_or (headers_get challenge "PAYMENT-REQUIRED")
         (headers_get challenge "X-PAYMENT-REQUIRED") =
  str_or (headers_get challenge' "PAYMENT-REQUIRED")
         (headers_get challenge' "X-PAYMENT-REQUIRED") ->
  (forall retry, client' 1%nat retry = client 1%nat retry) ->
  invoke async tool client' env url method body headers max_price_usd run_manager st =
  invoke async tool client env url method body headers max_price_usd run_manager st.
Proof.
  intros first Hclient Hclient' Hstatus Hstatus' Hheader Hretry.
  destruct async; unfold invoke, _run, _arun, client_request; unfold_M; fold first.
  all: rewrite Hclient, Hclient', Hstatus, Hstatus', Hheader.
  all: change (402 =? 402) with true; cbn [negb].
  all: repeat (rewrite ?Hretry; try reflexivity; split_goal).
  all: rewrite ?Hretry; reflexivity.
Qed.

(** With both headers set, the legacy one is not looked at. *)
Lemma run_reads_the_selected_header_witness :
  let st := Double.fresh (Double.literal 1 0) in
  invoke false Double.tool
    (Scenes.both_headers "REQ-10C" "REQ-OTHER-CHAIN" Double.ok_response)
    Double.env "https://api.example.com/premium" "GET" None None None false st =
  invoke false Double.tool (Double.server "REQ-10C" Double.ok_response)
    Double.env "https://api.example.com/premium" "GET" None None None false st.
Proof.
  intros st.
  apply (run_reads_the_selected_header false Double.tool
           (Double.server "REQ-10C" Double.ok_response)
           (Scenes.both_headers "REQ-10C" "REQ-OTHER-CHAIN" Double.ok_response)
           Double.env "https://api.example.com/premium" "GET" None None None false st
           {| status_code := 402;
              headers_get := fun name =>
                if String.eqb name "PAYMENT-REQUIRED" then Some "REQ-10C"%string else None;
              text := "payment required" |}
           {| status_code := 402;
              headers_get := fun name =>
                if String.eqb name "PAYMENT-REQUIRED" then Some "REQ-10C"%string
                else if String.eqb name "X-PAYMENT-REQUIRED"
                     then Some "REQ-OTHER-CHAIN"%string
                else None;
              text := "payment required" |}).
  all: reflexivity.
Defined.

(** X4.  A payment header that does not decode (base64, then JSON) ends
    [_run] and [_arun] with the parse-error string, which quotes the text
    of the exception that the decoding raised; the wallet is as it was and
    nothing was signed. *)
Theorem undecodable_header_is_reported `{Ports} async tool client env url method body
    headers max_price_usd run_manager st challenge header_value :
  let first := {| method := method; url := url; content := body;
                  headers := headers_or_empty headers |} in
  client 0%nat first = inr challenge ->
  status_code challenge = 402 ->
  str_or (headers_get challenge "PAYMENT-REQUIRED")
         (headers_get challenge "X-PAYMENT-REQUIRED") = Some header_value ->
  header_value <> ""%string ->
  b64_json_loads header_value = None ->
  invoke async tool client env url method body headers max_price_usd run_manager st =
    (Returned (ErrorParsing (ParseFailedText (b64_json_error header_value))),
     {| wallet := wallet st; trace := trace st ++ [Sending first] |}).
Proof.
  intros first Hclient Hstatus Hheader Hnonempty Hloads.
  destruct async; unfold invoke, _run, _arun, client_request,
    _parse_payment_requirements, str_truthy; unfold_M; fold first.
  all: rewrite Hclient, Hstatus, Hheader, Hloads.
  all: change (402 =? 402) with true.
  all: destruct (String.eqb_spec header_value "") as [|_]; [contradiction|].
  all: reflexivity.
Qed.

(** A header value the codec does not know. *)
Lemma undecodable_header_is_reported_witness :
  let st := Double.fresh (Double.literal 1 0) in
  let first := {| method := "GET"; url := "https://api.example.com/premium";
                  content := None; headers := ∅ |} in
  invoke false Double.tool (Double.server "not base64" Double.ok_response) Double.env
    "https://api.example.com/premium" "GET" None None None false st =
    (Returned (ErrorParsing (ParseFailedText "Incorrect padding")),
     {| wallet := wallet st; trace := trace st ++ [Sending first] |}).
Proof.
  intros st first.
  refine (undecodable_header_is_reported false Double.tool
            (Double.server "not base64" Double.ok_response) Double.env
            "https://api.example.com/premium" "GET" None None None false st
            {| status_code := 402;
               headers_get := fun name =>
                 if String.eqb name "PAYMENT-REQUIRED" then Some "not base64"%string
                 else None;
               text := "payment required" |}
            "not base64" _ _ _ _ _).
  all: try reflexivity.
  discriminate.
Defined.

(** X5.  With [auto_pay] off the tool is read-only: however a run of
    [_run] or [_arun] ends, it has sent the first request and nothing else,
    the signer was not asked, and the wallet is exactly as it was. *)
Theorem manual_tool_never_pays `{Ports} async tool client env url method body headers
    max_price_usd run_manager st out st' :
  let first := {| method := method; url := url; content := body;
                  headers := headers_or_empty headers |} in
  auto_pay tool = false ->
  invoke async tool client env url method body headers max_price_usd run_manager st =
    (out, st') ->
  wallet st' = wallet st /\ trace st' = trace st ++ [Sending first].
Proof.
  intros first Hauto Hrun.
  destruct async; unfold invoke, _run, _arun, client_request in Hrun; unfold_M;
    fold first in Hrun.
  all: rewrite Hauto in Hrun; cbn [negb] in Hrun.
  all: repeat split_run Hrun.
  all: injection Hrun as <- <-; proj; split; reflexivity.
Qed.

(** A requirement the wallet could pay is only quoted. *)
Lemma manual_tool_never_pays_witness :
  let st := Double.fresh (Double.literal 1 0) in
  let first := {| method := "GET"; url := "https://api.example.com/premium";
                  content := None; headers := ∅ |} in
  let run := invoke false Scenes.manual (Double.server "REQ-10C" Double.ok_response)
               Double.env "https://api.example.com/premium" "GET" None None None false st in
  wallet (snd run) = wallet st /\ trace (snd run) = trace st ++ [Sending first].
Proof.
  intros st first run.
  apply (manual_tool_never_pays false Scenes.manual
           (Double.server "REQ-10C" Double.ok_response) Double.env
           "https://api.example.com/premium" "GET" None None None false st
           (fst run) (snd run)).
  - reflexivity.
  - exact (surjective_pairing run).
Defined.

(** X6.  A requirement that passes the network and the price check ends a
    run of [_run] or [_arun] before any signing in one of two ways: with
    the insufficient-budget string when the wallet cannot afford the amount,
    else, with [auto_pay] off, with the string that quotes the amount and
    the recipient.  The wallet is as it was. *)
Theorem unpaid_requirement_is_quoted `{Ports} async tool client env url method body
    headers max_price_usd run_manager st
    challenge header_value fields units d valid_until :
  let first := {| method := method; url := url; content := body;
                  headers := headers_or_empty headers |} in
  let required := default JNull (dict_lookup fields "network") in
  let pay_to := default JNull (dict_lookup fields "payTo") in
  let amount := PyDecimal.to_float d in
  let remaining := remaining_usd (wallet st) in
  client 0%nat first = inr challenge ->
  status_code challenge = 402 ->
  str_or (headers_get challenge "PAYMENT-REQUIRED")
         (headers_get challenge "X-PAYMENT-REQUIRED") = Some header_value ->
  str_truthy (Some header_value) = true ->
  b64_json_loads header_value = Some (JObj fields) ->
  int (default (JInt 0) (dict_lookup fields "maxAmountRequired")) = inr units ->
  units_to_usd units = inr d ->
  int (default (JInt 0) (dict_lookup fields "validUntil")) = inr valid_until ->
  truthy required && differs_from_str required (network (wallet st)) = false ->
  Float.gt amount (float_or max_price_usd remaining) = false ->
  can_afford (wallet st) amount && auto_pay tool = false ->
  invoke async tool client env url method body headers max_price_usd run_manager st =
    (Returned (if can_afford (wallet st) amount
               then PaymentDeclined amount pay_to
               else InsufficientBudget amount remaining),
     {| wallet := wallet st; trace := trace st ++ [Sending first] |}).
Proof.
  intros first required pay_to amount remaining Hclient Hstatus Hheader Hnonempty Hloads
    Hunits Hd Hvalid Hnetwork Hprice Hstop.
  destruct async; unfold invoke, _run, _arun, client_request,
    _parse_payment_requirements, get; unfold_M; fold first.
  all: rewrite Hclient, Hstatus, Hheader, Hnonempty, Hloads, Hunits, Hd, Hvalid.
  all: change (402 =? 402) with true; cbn [negb].
  all: cbv beta iota; proj; fold required; rewrite Hnetwork.
  all: fold amount remaining; rewrite Hprice.
  all: destruct (can_afford (wallet st) amount); cbn [negb andb] in *;
         [rewrite Hstop|]; reflexivity.
Qed.

(** A ceiling of $1.00 lets a price of $0.10 through; a wallet with five
    cents cannot pay it. *)
Lemma unpaid_requirement_is_quoted_witness :
  let st := Double.fresh (Double.literal 5 (-2)) in
  let first := {| method := "GET"; url := "https://api.example.com/premium";
                  content := None; headers := ∅ |} in
  invoke false Double.tool (Double.server "REQ-10C" Double.ok_response) Double.env
    "https://api.example.com/premium" "GET" None None (Some (Double.literal 1 0)) false st =
    (Returned (InsufficientBudget (Double.literal 1 (-1)) (Double.literal 5 (-2))),
     {| wallet := wallet st; trace := trace st ++ [Sending first] |}).
Proof.
  intros st first.
  refine (eq_trans (unpaid_requirement_is_quoted false Double.tool
           (Double.server "REQ-10C" Double.ok_response) Double.env
           "https://api.example.com/premium" "GET" None None
           (Some (Double.literal 1 0)) false st
           {| status_code := 402;
              headers_get := fun name =>
                if String.eqb name "PAYMENT-REQUIRED" then Some "REQ-10C"%string else None;
              text := "payment required" |}
           "REQ-10C"
           [("x402Version", JInt 1); ("scheme", JStr "exact");
            ("network", JStr "base-sepolia");
            ("payTo", JStr "0x1234567890123456789012345678901234567890");
            ("maxAmountRequired", JStr "100000");
            ("validUntil", JInt 9999999999)]%string
           100000 (PyDecimal.mk false 1 (-1)) 9999999999 _ _ _ _ _ _ _ _ _ _ _) _).
  all: vm_compute; reflexivity.
Defined.

(** * How calls and runs end *)

Section Cases.
Context `{Ports}.

(** The address a wallet signs with: the cached one, or the key's. *)
Lemma address_returns st :
  exists w', address st = (Returned (default (get_wallet_address (private_key (wallet st)))
                                       (_address (wallet st))),
                           {| wallet := w'; trace := trace st |}) /\
    private_key w' = private_key (wallet st) /\
    network w' = network (wallet st) /\
    budget_usd w' = budget_usd (wallet st) /\
    _spent_usd w' = _spent_usd (wallet st) /\
    _payments w' = _payments (wallet st).
Proof.
  destruct st as [w tr]. unfold address. unfold_M. proj.
  destruct (_address w) eqn:E; eexists; (split; [reflexivity|]); proj; repeat split.
Qed.

(** The three ways a call of [sign_payment] ends: refused before the
    signer is asked, failed in the signer, or signed and recorded. *)
Lemma sign_payment_cases to units vb url env st o st' :
  sign_payment to units vb url env st = (o, st') ->
  let key := normalize_key (private_key (wallet st)) in
  let authorization :=
    {| from_address := default (get_wallet_address (private_key (wallet st)))
                         (_address (wallet st));
       to_address := to; value := units; valid_after := 0; valid_before := vb;
       nonce := token_bytes env |} in
  private_key (wallet st') = private_key (wallet st) /\
  network (wallet st') = network (wallet st) /\
  budget_usd (wallet st') = budget_usd (wallet st) /\
  ((exists e, o = Raised e /\ trace st' = trace st /\
      _spent_usd (wallet st') = _spent_usd (wallet st) /\
      _payments (wallet st') = _payments (wallet st)) \/
   (exists typed e, o = Raised e /\
      build_eip712_message authorization (network (wallet st)) = inr typed /\
      trace st' = trace st ++ [Signing key typed] /\
      account_sign_typed_data key typed = inl e /\
      _spent_usd (wallet st') = _spent_usd (wallet st) /\
      _payments (wallet st') = _payments (wallet st)) \/
   (exists typed sig d, o = Returned (sig, token_bytes env) /\
      build_eip712_message authorization (network (wallet st)) = inr typed /\
      trace st' = trace st ++ [Signing key typed] /\
      account_sign_typed_data key typed = inr sig /\
      units_to_usd units = inr d /\
      can_afford (wallet st) (PyDecimal.to_float d) = true /\
      _address (wallet st') = Some (from_address authorization) /\
      _spent_usd (wallet st') = Float.add (_spent_usd (wallet st)) (PyDecimal.to_float d) /\
      _payments (wallet st') = _payments (wallet st) ++ [
        {| timestamp := time_now env;
           pr_to_address := to;
           amount_usd := PyDecimal.of_float_str (PyDecimal.to_float d);
           amount_units := units;
           pr_network := network (wallet st);
           pr_nonce := hex (token_bytes env);
           signature := sig;
           resource_url := url |} ])).
Proof.
  intros Hrun key authorization. subst key authorization.
  unfold sign_payment, sign_transfer_authorization, address, generate_nonce in Hrun.
  unfold_M.
  repeat split_run Hrun.
  all: injection Hrun as <- <-; proj.
  all: repeat match goal with
       | E : (_, _) = (_, _) |- _ => injection E as ? ?; subst
       end; proj.
  all: repeat match goal with
       | E : _address _ = _ |- _ => rewrite E in *
       end; cbn [from_option id] in *.
  all: split; [reflexivity|]; split; [reflexivity|]; split; [reflexivity|].
  all: first
    [ solve [left; eexists; repeat split; reflexivity]
    | solve [right; left; do 2 eexists; repeat split; try reflexivity; eassumption]
    | right; right; do 3 eexists; repeat split; try reflexivity; try eassumption ].
  all: try (apply negb_false_iff; assumption).
Qed.

(** The proof header of a decoded object: built, or a [KeyError] for the
    first of [payTo], [maxAmountRequired], [validUntil] that is missing. *)
Lemma build_payment_header_cases fields sig nonce st o st' :
  _build_payment_header (JObj fields) sig nonce st = (o, st') ->
  (exists to amount valid_until,
     dict_lookup fields "payTo" = Some to /\
     dict_lookup fields "maxAmountRequired" = Some amount /\
     dict_lookup fields "validUntil" = Some valid_until /\
     o = Returned (b64_json_dumps (JObj [
       ("x402Version", default (JInt 1) (dict_lookup fields "x402Version"));
       ("scheme", default (JStr "exact") (dict_lookup fields "scheme"));
       ("network", default JNull (dict_lookup fields "network"));
       ("payload", JObj [
          ("signature", JStr (with_0x sig));
          ("authorization", JObj [
             ("from", JStr (default (get_wallet_address (private_key (wallet st)))
                              (_address (wallet st))));
             ("to", to);
             ("value", JStr (str_of amount));
             ("validAfter", JStr "0");
             ("validBefore", JStr (str_of valid_until));
             ("nonce", JStr ("0x" ++ hex nonce))
          ])
       ])
     ]%string))) \/
  (exists missing, o = Raised (KeyError missing) /\
     dict_lookup fields missing = None /\
     (missing = "payTo" \/ missing = "maxAmountRequired" \/ missing = "validUntil")%string).
Proof.
  unfold _build_payment_header, address, get, getitem. unfold_M. intros Hrun.
  repeat split_run Hrun.
  all: injection Hrun as <- <-; proj.
  all: repeat match goal with
       | E : (_, _) = (_, _) |- _ => injection E as ? ?; subst
       | E : inr _ = inr _ |- _ => injection E as ?; subst
       | E : inl _ = inl _ |- _ => injection E as ?; subst
       | E : inl _ = inr _ |- _ => discriminate E
       | E : inr _ = inl _ |- _ => discriminate E
       end; proj.
  all: repeat match goal with
       | E : _address _ = _ |- _ => rewrite E in *
       end; cbn [from_option id] in *.
  all: first
    [ solve [left; do 3 eexists; repeat split; reflexivity]
    | right; eexists; split; [reflexivity|]; split; [assumption|]; tauto ].
Qed.

Lemma log_payment_response_cases paid run_manager st :
  exists logged, log_payment_response paid run_manager st =
    (Returned tt, {| wallet := wallet st; trace := trace st ++ logged |}) /\
    (logged = [] \/ exists tx, logged = [OnText tx] /\ run_manager = true).
Proof.
  destruct st as [w tr0]. unfold log_payment_response. unfold_M.
  repeat split_goal.
  all: try (exists []; rewrite app_nil_r; split; [reflexivity | left; reflexivity]).
  all: eexists; split; [reflexivity|]; right; eexists; split; [reflexivity|].
  all: destruct run_manager; [reflexivity|].
  all: rewrite andb_false_r in *; discriminate.
Qed.

Lemma parse_returned header_value v :
  _parse_payment_requirements header_value = inr v ->
  b64_json_loads header_value = Some v.
Proof.
  unfold _parse_payment_requirements.
  destruct (b64_json_loads header_value); [congruence|discriminate].
Qed.

Lemma get_of_object d key fallback v :
  get d key fallback = inr v -> exists fields, d = JObj fields.
Proof. destruct d; try discriminate. eauto. Qed.

(** The typed data of a supported network carries the authorization and
    the chain and contract of the tables. *)
Lemma build_eip712_message_fields a n typed :
  build_eip712_message a n = inr typed ->
  CHAIN_IDS !! n = Some (chainId typed) /\
  USDC_CONTRACTS !! n = Some (verifyingContract typed) /\
  msg_from typed = from_address a /\
  msg_to typed = to_address a /\
  msg_value typed = value a /\
  msg_validAfter typed = valid_after a /\
  msg_validBefore typed = valid_before a /\
  msg_nonce typed = ("0x" ++ hex (nonce a))%string.
Proof.
  unfold build_eip712_message.
  destruct (USDC_CONTRACTS !! n) as [c|]; [|discriminate].
  destruct (CHAIN_IDS !! n) as [k|]; [|discriminate].
  destruct (String.eqb c "" || (k =? 0)); [discriminate|].
  intros [= <-]. repeat split.
Qed.

(** How a run of the tool ends, by what it did to the outside: nothing
    was signed; the signer was asked and failed; or the payment was signed
    and recorded, and then the proof header could not be built or the
    request was sent again. *)
Lemma run_cases async tool client env url method body headers max_price_usd
    run_manager st out st' :
  let first := {| method := method; url := url; content := body;
                  headers := headers_or_empty headers |} in
  invoke async tool client env url method body headers max_price_usd run_manager st =
    (out, st') ->
  private_key (wallet st') = private_key (wallet st) /\
  network (wallet st') = network (wallet st) /\
  budget_usd (wallet st') = budget_usd (wallet st) /\
  ((trace st' = trace st ++ [Sending first] /\
    _spent_usd (wallet st') = _spent_usd (wallet st) /\
    _payments (wallet st') = _payments (wallet st)) \/
   (exists key typed e,
      trace st' = trace st ++ [Sending first; Signing key typed] /\
      account_sign_typed_data key typed = inl e /\
      out = match e with
            | ValueError failure => Returned (PaymentSigningFailed failure)
            | _ => Raised e
            end /\
      _spent_usd (wallet st') = _spent_usd (wallet st) /\
      _payments (wallet st') = _payments (wallet st)) \/
   (exists key typed sig d record challenge header_value fields,
      client 0%nat first = inr challenge /\
      str_or (headers_get challenge "PAYMENT-REQUIRED")
             (headers_get challenge "X-PAYMENT-REQUIRED") = Some header_value /\
      b64_json_loads header_value = Some (JObj fields) /\
      key = normalize_key (private_key (wallet st)) /\
      account_sign_typed_data key typed = inr sig /\
      int (default (JInt 0) (dict_lookup fields "maxAmountRequired")) =
        inr (amount_units record) /\
      units_to_usd (amount_units record) = inr d /\
      truthy (default JNull (dict_lookup fields "network")) &&
        differs_from_str (default JNull (dict_lookup fields "network"))
          (network (wallet st)) = false /\
      auto_pay tool = true /\
      can_afford (wallet st) (PyDecimal.to_float d) = true /\
      Float.gt (PyDecimal.to_float d)
        (float_or max_price_usd (remaining_usd (wallet st))) = false /\
      _spent_usd (wallet st') =
        Float.add (_spent_usd (wallet st)) (PyDecimal.to_float d) /\
      _payments (wallet st') = _payments (wallet st) ++ [record] /\
      resource_url record = url /\
      signature record = sig /\
      pr_network record = network (wallet st) /\
      pr_to_address record = default JNull (dict_lookup fields "payTo") /\
      pr_nonce record = hex (token_bytes env) /\
      CHAIN_IDS !! network (wallet st) = Some (chainId typed) /\
      USDC_CONTRACTS !! network (wallet st) = Some (verifyingContract typed) /\
      msg_from typed = default (get_wallet_address (private_key (wallet st)))
                         (_address (wallet st)) /\
      msg_to typed = pr_to_address record /\
      msg_value typed = amount_units record /\
      msg_validAfter typed = 0 /\
      int (default (JInt 0) (dict_lookup fields "validUntil")) =
        inr (msg_validBefore typed) /\
      msg_nonce typed = ("0x" ++ hex (token_bytes env))%string /\
      ((trace st' = trace st ++ [Sending first; Signing key typed] /\
        exists missing, out = Raised (KeyError missing) /\
          dict_lookup fields missing = None /\
          (missing = "payTo" \/ missing = "maxAmountRequired" \/
           missing = "validUntil")%string) \/
       (exists to amount valid_until logged,
          let proof := b64_json_dumps (JObj [
            ("x402Version", default (JInt 1) (dict_lookup fields "x402Version"));
            ("scheme", default (JStr "exact") (dict_lookup fields "scheme"));
            ("network", default JNull (dict_lookup fields "network"));
            ("payload", JObj [
               ("signature", JStr (with_0x sig));
               ("authorization", JObj [
                  ("from", JStr (msg_from typed));
                  ("to", to);
                  ("value", JStr (str_of amount));
                  ("validAfter", JStr "0");
                  ("validBefore", JStr (str_of valid_until));
                  ("nonce", JStr (msg_nonce typed))
               ])
            ])
          ]%string) in
          let retry := {| method := method; url := url; content := body;
                          headers := <["PAYMENT-SIGNATURE" := proof]>
                                       (headers_or_empty headers) |} in
          dict_lookup fields "payTo" = Some to /\
          dict_lookup fields "maxAmountRequired" = Some amount /\
          dict_lookup fields "validUntil" = Some valid_until /\
          trace st' = trace st ++ [Sending first; Signing key typed; Sending retry]
                        ++ logged /\
          (logged = [] \/
           exists tx, logged = [OnText tx] /\ async = false /\ run_manager = true) /\
          out = match client 1%nat retry with
                | inl e => Raised e
                | inr paid =>
                    Returned (if 400 <=? status_code paid
                              then ErrorAfterPayment (status_code paid) (text paid)
                              else Body (text paid))
                end)))).
Proof.
  intros first Hrun.
  destruct async; unfold invoke, _run, _arun, client_request in Hrun; unfold_M; proj;
    fold first in Hrun.
  all: repeat split_run Hrun.
  all: try match goal with
       | Hg : get _ _ _ = inr _ |- _ =>
           destruct (get_of_object _ _ _ _ Hg) as [fields ->]
       end.
  all: try match goal with
       | Hsp : sign_payment _ _ _ _ _ _ = (_, _) |- _ =>
           destruct (sign_payment_cases _ _ _ _ _ _ _ _ Hsp)
             as (Hk & Hn & Hb &
                 [(e1 & Ho & Ht & Hs & Hp) |
                  [(typed & e1 & Ho & Hty & Ht & Hsg & Hs & Hp) |
                   (typed & sig & d & Ho & Hty & Ht & Hsg & Hd & Hca & Had & Hs & Hp)]]);
           proj; try discriminate Ho; clear Hsp
       end.
  all: try match goal with
       | Hbh : _build_payment_header _ _ _ _ = _ |- _ =>
           destruct (build_payment_header_frame _ _ _ _ _ _ Hbh)
             as (Hbt & Hbk & Hbn & Hbb & Hbs & Hbp);
           destruct (build_payment_header_cases _ _ _ _ _ _ Hbh)
             as [(to & amount & until & Hf1 & Hf2 & Hf3 & Hbo) |
                 (missing & Hbo & Hnone & Hmissing)];
           try discriminate Hbo; clear Hbh
       end.
  all: try match goal with
       | Hlog : log_payment_response ?p ?r ?s = _ |- _ =>
           destruct (log_payment_response_cases p r s) as (logged & Hext & Hlogged);
           rewrite Hext in Hlog; injection Hlog as ? ?; subst
       end.
  all: try match goal with
       | E : Returned _ = Raised _ |- _ => discriminate E
       end.
  all: injection Hrun as ? ?; subst out st'; proj.
  all: repeat match goal with
       | E : Raised _ = Raised _ |- _ => injection E as ?; subst
       | E : Returned _ = Returned _ |- _ => injection E as ?; subst
       end.
  all: rewrite ?Hbk, ?Hbn, ?Hbb, ?Hbs, ?Hbp, ?Hbt.
  all: rewrite ?Hk, ?Hn, ?Hb, ?Hs, ?Hp, ?Ht.
  all: split; [reflexivity|]; split; [reflexivity|]; split; [reflexivity|].
  all: rewrite <- ?app_assoc; cbn [app].
  all: try solve [left; repeat split; reflexivity].
  all: try solve [right; left; do 3 eexists; split; [reflexivity|];
                  split; [eassumption|]; repeat split; reflexivity].
  all: repeat match goal with
       | Hg : get (JObj _) _ _ = inr _ |- _ => unfold get in Hg; injection Hg as <-
       end.
  all: match goal with
       | Hu : units_to_usd ?z = inr ?t, Hd : units_to_usd ?z = inr ?d |- _ =>
           tryif constr_eq t d then fail else (rewrite Hd in Hu; injection Hu as ->)
       end.
  all: match goal with
       | Hp : _payments _ = _ ++ [?record],
         Hsg : account_sign_typed_data ?key ?typed = inr ?sig,
         Hd : units_to_usd _ = inr ?d,
         Hc : negb (status_code ?challenge =? 402) = false,
         Hh : str_or _ _ = Some ?header_value,
         Hl : _parse_payment_requirements _ = inr (JObj ?fields) |- _ =>
           right; right; exists key, typed, sig, d, record, challenge, header_value, fields;
           split; [reflexivity|]; split; [exact Hh|];
           split; [exact (parse_returned _ _ Hl)|]
       end.
  all: destruct (build_eip712_message_fields _ _ _ Hty)
         as (Hchain & Husdc & Hfrom & Hto & Hvalue & Hva & Hvb & Hnonce).
  all: cbn [from_address to_address value valid_after valid_before nonce]
         in Hfrom, Hto, Hvalue, Hva, Hvb, Hnonce.
  all: cbn [amount_units resource_url signature pr_network pr_to_address pr_nonce].
  all: rewrite Hfrom, Hto, Hvalue, Hva, Hvb, Hnonce.
  all: do 23 (split; [first [ reflexivity | assumption
                            | apply negb_false_iff; assumption ]|]).
  all: try solve [left; split; [reflexivity|]; eexists; split; [reflexivity|];
                  split; assumption].
  all: right; exists to, amount, until; first [exists logged | exists []]; cbv zeta.
  all: rewrite ?app_nil_r.
  all: match goal with
       | Hc : _ 1%nat _ = _ |- _ =>
           rewrite ?Hbk, ?Hbn, ?Hbb, ?Hbs, ?Hbp, ?Hbt in Hc;
           rewrite ?Hk, ?Hn, ?Hb, ?Hs, ?Hp, ?Ht in Hc;
           rewrite Had in Hc; cbn [from_option id from_address] in Hc
       end.
  all: rewrite Had; cbn [from_option id from_address].
  all: do 3 (split; [assumption|]).
  all: split; [reflexivity|].
  all: match goal with
       | Hc : _ 1%nat _ = _ |- _ => rewrite Hc
       end.
  all: rewrite ?Heqb5.
  all: split; [|reflexivity].
  all: try (left; reflexivity).
  all: destruct Hlogged as [->|(tx & -> & ->)]; [left; reflexivity|].
  all: right; exists tx; repeat split.
Qed.

End Cases.

(** * What a run does to the wallet and to the outside *)

(** X7.  Whatever the server answers, a run of [_run] or [_arun] sends the
    request, asks the signer at most once and sends the request at most
    once more, in this order; only [_run] may log one text after that.  The
    key, the network and the budget stay as they were; the history grows by
    one record or not at all, and not at all when nothing was signed. *)
Theorem run_pays_at_most_once `{Ports} async tool client env url method body headers
    max_price_usd run_manager st :
  let first := {| method := method; url := url; content := body;
                  headers := headers_or_empty headers |} in
  let st' := snd (invoke async tool client env url method body headers max_price_usd
                    run_manager st) in
  private_key (wallet st') = private_key (wallet st) /\
  network (wallet st') = network (wallet st) /\
  budget_usd (wallet st') = budget_usd (wallet st) /\
  ((trace st' = trace st ++ [Sending first] /\
    spent_usd (wallet st') = spent_usd (wallet st) /\
    payments (wallet st') = payments (wallet st)) \/
   (exists key typed,
      trace st' = trace st ++ [Sending first; Signing key typed] /\
      (payments (wallet st') = payments (wallet st) \/
       exists record, payments (wallet st') = payments (wallet st) ++ [record])) \/
   (exists key typed retry logged record,
      trace st' = trace st ++ [Sending first; Signing key typed; Sending retry] ++ logged /\
      (logged = [] \/ exists tx, logged = [OnText tx] /\ async = false) /\
      payments (wallet st') = payments (wallet st) ++ [record])).
Proof.
  intros first st'. subst st'.
  destruct (invoke async tool client env url method body headers max_price_usd
              run_manager st) as [out st'] eqn:Hrun.
  destruct (run_cases _ _ _ _ _ _ _ _ _ _ _ _ _ Hrun)
    as (Hk & Hn & Hb & [Hnone | [Hfailed | Hsigned]]).
  all: cbn [snd]; unfold spent_usd, payments.
  all: split; [exact Hk|]; split; [exact Hn|]; split; [exact Hb|].
  - left. exact Hnone.
  - destruct Hfailed as (key & typed & e & Htrace & _ & _ & _ & Hp).
    right. left. exists key, typed. split; [exact Htrace|]. left. exact Hp.
  - destruct Hsigned as (key & typed & sig & d & record & challenge & header_value &
      fields & _ & _ & _ & _ & _ & _ & _ & _ & _ & _ & _ & _ & Hp & _ & _ & _ & _ & _ &
      _ & _ & _ & _ & _ & _ & _ & _ & [(Htrace & _) | Hretried]).
    + right. left. exists key, typed. split; [exact Htrace|]. right. exists record.
      exact Hp.
    + destruct Hretried as (to & amount & until & logged & _ & _ & _ & Htrace &
        Hlogged & _).
      right. right. eexists key, typed, _, logged, record.
      split; [exact Htrace|]. split; [|exact Hp].
      destruct Hlogged as [->|(tx & -> & -> & _)]; [left; reflexivity|].
      right. exists tx. split; reflexivity.
Qed.

(** X8.  When the signer fails, nothing is paid: a [ValueError] of the
    signer becomes the payment-signing-failed string, any other exception
    leaves the run as it is, and [spent_usd] and the history are as they
    were.  The request is not sent again. *)
Theorem signer_failure_costs_nothing `{Ports} async tool client env url method body
    headers max_price_usd run_manager st out st' first key typed e :
  invoke async tool client env url method body headers max_price_usd run_manager st =
    (out, st') ->
  trace st' = trace st ++ [Sending first; Signing key typed] ->
  account_sign_typed_data key typed = inl e ->
  out = match e with
        | ValueError failure => Returned (PaymentSigningFailed failure)
        | _ => Raised e
        end /\
  spent_usd (wallet st') = spent_usd (wallet st) /\
  payments (wallet st') = payments (wallet st).
Proof.
  intros Hrun Htrace Hsigner.
  destruct (run_cases _ _ _ _ _ _ _ _ _ _ _ _ _ Hrun)
    as (_ & _ & _ & [Hnone | [Hfailed | Hsigned]]).
  - destruct Hnone as (Ht & _). rewrite Ht in Htrace.
    apply app_inv_head in Htrace. discriminate Htrace.
  - destruct Hfailed as (key' & typed' & e' & Ht & Hsg & Hout & Hs & Hp).
    rewrite Ht in Htrace. apply app_inv_head in Htrace.
    injection Htrace as _ <- <-. rewrite Hsigner in Hsg. injection Hsg as <-.
    repeat split; assumption.
  - destruct Hsigned as (key' & typed' & sig & d & record & challenge & header_value &
      fields & _ & _ & _ & _ & Hsg & _ & _ & _ & _ & _ & _ & _ & _ & _ & _ & _ & _ & _ &
      _ & _ & _ & _ & _ & _ & _ & _ & [(Ht & _) | Hretried]).
    + rewrite Ht in Htrace. apply app_inv_head in Htrace.
      injection Htrace as _ <- <-. congruence.
    + destruct Hretried as (to & amount & until & logged & _ & _ & _ & Ht & _).
      rewrite Ht in Htrace. apply app_inv_head in Htrace. discriminate Htrace.
Qed.

(** The signer refuses the payee's address. *)
Lemma signer_failure_costs_nothing_witness :
  let st := Double.fresh (Double.literal 1 0) in
  let run := @invoke Scenes.refusing false Double.tool
               (Double.server "REQ-10C" Double.ok_response) Double.env
               "https://api.example.com/premium" "GET" None None None false st in
  fst run = Returned (PaymentSigningFailed (OtherText "bad address")) /\
  spent_usd (wallet (snd run)) = spent_usd (wallet st) /\
  payments (wallet (snd run)) = payments (wallet st).
Proof.
  intros st run.
  apply (@signer_failure_costs_nothing Scenes.refusing false Double.tool
           (Double.server "REQ-10C" Double.ok_response) Double.env
           "https://api.example.com/premium" "GET" None None None false st
           (fst run) (snd run)
           {| method := "GET"; url := "https://api.example.com/premium";
              content := None; headers := ∅ |}
           Double.key
           {| domain_name := "USD Coin"; domain_version := "2"; chainId := 84532;
              verifyingContract := "0x036CbD53842c5426634e7929541eC2318f3dCF7e";
              msg_from := "0xf39Fd6e51aad88F6F4ce6aB8827279cffFb92266";
              msg_to := Double.payee; msg_value := 100000; msg_validAfter := 0;
              msg_validBefore := 9999999999;
              msg_nonce := ("0x" ++ hex (token_bytes Double.env))%string |}
           (ValueError (OtherText "bad address"))).
  - exact (surjective_pairing run).
  - vm_compute. reflexivity.
  - reflexivity.
Defined.

(** X9.  A requirement without [payTo], [maxAmountRequired] or
    [validUntil] is paid before it is found incomplete: when the signer has
    signed and the request was not sent again, the run has raised
    [KeyError] for one of these three keys, which the requirement lacks, and
    the payment is in the wallet all the same, [spent_usd] raised by the
    amount and one record appended. *)
Theorem missing_field_fails_after_the_payment `{Ports} async tool client env url method
    body headers max_price_usd run_manager st out st' first key typed sig :
  invoke async tool client env url method body headers max_price_usd run_manager st =
    (out, st') ->
  trace st' = trace st ++ [Sending first; Signing key typed] ->
  account_sign_typed_data key typed = inr sig ->
  exists missing record d,
    out = Raised (KeyError missing) /\
    (missing = "payTo" \/ missing = "maxAmountRequired" \/ missing = "validUntil")%string /\
    units_to_usd (amount_units record) = inr d /\
    spent_usd (wallet st') = Float.add (spent_usd (wallet st)) (PyDecimal.to_float d) /\
    payments (wallet st') = payments (wallet st) ++ [record] /\
    signature record = sig.
Proof.
  intros Hrun Htrace Hsigner.
  destruct (run_cases _ _ _ _ _ _ _ _ _ _ _ _ _ Hrun)
    as (_ & _ & _ & [Hnone | [Hfailed | Hsigned]]).
  - destruct Hnone as (Ht & _). rewrite Ht in Htrace.
    apply app_inv_head in Htrace. discriminate Htrace.
  - destruct Hfailed as (key' & typed' & e' & Ht & Hsg & _).
    rewrite Ht in Htrace. apply app_inv_head in Htrace.
    injection Htrace as _ <- <-. congruence.
  - destruct Hsigned as (key' & typed' & sig' & d & record & challenge & header_value &
      fields & Hc & Hh & Hl & Hkey & Hsg & Hunits & Hd & Hnet & Hauto & Hca & Hgt & Hs &
      Hp & Hurl & Hsig & Hrn & Hrto & Hrnonce & Hchain & Husdc & Hfrom & Hto & Hvalue &
      Hva & Hvb & Hnonce & [(Ht & missing & Hout & _ & Hmissing) | Hretried]).
    + rewrite Ht in Htrace. apply app_inv_head in Htrace.
      injection Htrace as _ <- <-. rewrite Hsigner in Hsg. injection Hsg as <-.
      exists missing, record, d. unfold spent_usd, payments. repeat split; assumption.
    + destruct Hretried as (to & amount & until & logged & _ & _ & _ & Ht & _).
      rewrite Ht in Htrace. apply app_inv_head in Htrace. discriminate Htrace.
Qed.

(** A requirement of $0.10 that names no deadline: the dime is spent, the
    run raises. *)
Lemma missing_field_fails_after_the_payment_witness :
  let st := Double.fresh (Double.literal 1 0) in
  let run := @invoke Scenes.ports false Double.tool
               (Double.server "REQ-NO-DEADLINE" Double.ok_response) Double.env
               "https://api.example.com/premium" "GET" None None None false st in
  exists missing record d,
    fst run = Raised (KeyError missing) /\
    (missing = "payTo" \/ missing = "maxAmountRequired" \/ missing = "validUntil")%string /\
    units_to_usd (amount_units record) = inr d /\
    spent_usd (wallet (snd run)) =
      Float.add (spent_usd (wallet st)) (PyDecimal.to_float d) /\
    payments (wallet (snd run)) = payments (wallet st) ++ [record] /\
    signature record = "0xsigned"%string.
Proof.
  intros st run.
  apply (@missing_field_fails_after_the_payment Scenes.ports false Double.tool
           (Double.server "REQ-NO-DEADLINE" Double.ok_response) Double.env
           "https://api.example.com/premium" "GET" None None None false st
           (fst run) (snd run)
           {| method := "GET"; url := "https://api.example.com/premium";
              content := None; headers := ∅ |}
           Double.key
           {| domain_name := "USD Coin"; domain_version := "2"; chainId := 84532;
              verifyingContract := "0x036CbD53842c5426634e7929541eC2318f3dCF7e";
              msg_from := "0xf39Fd6e51aad88F6F4ce6aB8827279cffFb92266";
              msg_to := Double.payee; msg_value := 100000; msg_validAfter := 0;
              msg_validBefore := 0;
              msg_nonce := ("0x" ++ hex (token_bytes Double.env))%string |}
           "0xsigned").
  - exact (surjective_pairing run).
  - vm_compute. reflexivity.
  - reflexivity.
Defined.

(** X10.  The request that is sent again is the first request with the
    header [PAYMENT-SIGNATURE] set: same method, URL and body, the caller's
    other headers kept.  Its value encodes the version, scheme and
    network of the requirement (1, [exact] and null when absent), the
    signer's signature with a [0x] prefix, and the authorization that was
    signed: its sender and nonce, the requirement's [payTo], the texts of
    its [maxAmountRequired] and [validUntil], and [validAfter] zero. *)
Theorem retry_carries_the_signed_authorization `{Ports} async tool client env url method
    body headers max_price_usd run_manager st out st' first key typed retry logged :
  invoke async tool client env url method body headers max_price_usd run_manager st =
    (out, st') ->
  trace st' = trace st ++ Sending first :: Signing key typed :: Sending retry :: logged ->
  exists challenge header_value fields sig to amount valid_until,
    client 0%nat first = inr challenge /\
    str_or (headers_get challenge "PAYMENT-REQUIRED")
           (headers_get challenge "X-PAYMENT-REQUIRED") = Some header_value /\
    b64_json_loads header_value = Some (JObj fields) /\
    account_sign_typed_data key typed = inr sig /\
    dict_lookup fields "payTo" = Some to /\
    dict_lookup fields "maxAmountRequired" = Some amount /\
    dict_lookup fields "validUntil" = Some valid_until /\
    retry =
      {| method := method; url := url; content := body;
         headers :=
           <["PAYMENT-SIGNATURE" := b64_json_dumps (JObj [
               ("x402Version", default (JInt 1) (dict_lookup fields "x402Version"));
               ("scheme", default (JStr "exact") (dict_lookup fields "scheme"));
               ("network", default JNull (dict_lookup fields "network"));
               ("payload", JObj [
                  ("signature", JStr (with_0x sig));
                  ("authorization", JObj [
                     ("from", JStr (msg_from typed));
                     ("to", to);
                     ("value", JStr (str_of amount));
                     ("validAfter", JStr "0");
                     ("validBefore", JStr (str_of valid_until));
                     ("nonce", JStr (msg_nonce typed))
                  ])
               ])
             ]%string)]> (headers_or_empty headers) |}.
Proof.
  intros Hrun Htrace.
  destruct (run_cases _ _ _ _ _ _ _ _ _ _ _ _ _ Hrun)
    as (_ & _ & _ & [Hnone | [Hfailed | Hsigned]]).
  - destruct Hnone as (Ht & _). rewrite Ht in Htrace.
    apply app_inv_head in Htrace. discriminate Htrace.
  - destruct Hfailed as (key' & typed' & e' & Ht & _).
    rewrite Ht in Htrace. apply app_inv_head in Htrace. discriminate Htrace.
  - destruct Hsigned as (key' & typed' & sig & d & record & challenge & header_value &
      fields & Hc & Hh & Hl & Hkey & Hsg & Hunits & Hd & Hnet & Hauto & Hca & Hgt & Hs &
      Hp & Hurl & Hsig & Hrn & Hrto & Hrnonce & Hchain & Husdc & Hfrom & Hto & Hvalue &
      Hva & Hvb & Hnonce & [(Ht & _) | Hretried]).
    + rewrite Ht in Htrace. apply app_inv_head in Htrace. discriminate Htrace.
    + destruct Hretried as (to & amount & until & logged' & Hf1 & Hf2 & Hf3 & Ht & _).
      rewrite Ht in Htrace. apply app_inv_head in Htrace.
      cbn [app] in Htrace. injection Htrace as Hfirst <- <- <- _.
      exists challenge, header_value, fields, sig, to, amount, until.
      rewrite <- Hfirst. repeat split; try assumption.
Qed.

(** The retried request of the run that pays $0.10. *)
Lemma retry_carries_the_signed_authorization_witness :
  let st := Double.fresh (Double.literal 1 0) in
  let first := {| method := "GET"; url := "https://api.example.com/premium";
                  content := None; headers := ∅ |} in
  let typed :=
    {| domain_name := "USD Coin"; domain_version := "2"; chainId := 84532;
       verifyingContract := "0x036CbD53842c5426634e7929541eC2318f3dCF7e";
       msg_from := "0xf39Fd6e51aad88F6F4ce6aB8827279cffFb92266";
       msg_to := Double.payee; msg_value := 100000; msg_validAfter := 0;
       msg_validBefore := 9999999999;
       msg_nonce := ("0x" ++ hex (token_bytes Double.env))%string |} in
  let retry := {| method := "GET"; url := "https://api.example.com/premium";
                  content := None;
                  headers := {["PAYMENT-SIGNATURE" := "PROOF"%string]} |} in
  exists challenge header_value fields sig to amount valid_until,
    Double.server "REQ-10C" Double.ok_response 0%nat first = inr challenge /\
    str_or (headers_get challenge "PAYMENT-REQUIRED")
           (headers_get challenge "X-PAYMENT-REQUIRED") = Some header_value /\
    b64_json_loads header_value = Some (JObj fields) /\
    account_sign_typed_data Double.key typed = inr sig /\
    dict_lookup fields "payTo" = Some to /\
    dict_lookup fields "maxAmountRequired" = Some amount /\
    dict_lookup fields "validUntil" = Some valid_until /\
    retry =
      {| method := "GET"; url := "https://api.example.com/premium"; content := None;
         headers :=
           <["PAYMENT-SIGNATURE" := b64_json_dumps (JObj [
               ("x402Version", default (JInt 1) (dict_lookup fields "x402Version"));
               ("scheme", default (JStr "exact") (dict_lookup fields "scheme"));
               ("network", default JNull (dict_lookup fields "network"));
               ("payload", JObj [
                  ("signature", JStr (with_0x sig));
                  ("authorization", JObj [
                     ("from", JStr (msg_from typed));
                     ("to", to);
                     ("value", JStr (str_of amount));
                     ("validAfter", JStr "0");
                     ("validBefore", JStr (str_of valid_until));
                     ("nonce", JStr (msg_nonce typed))
                  ])
               ])
             ]%string)]> (headers_or_empty None) |}.
Proof.
  intros st first typed retry.
  pose (run := invoke false Double.tool (Double.server "REQ-10C" Double.ok_response)
                 Double.env "https://api.example.com/premium" "GET" None None None
                 false st).
  apply (retry_carries_the_signed_authorization false Double.tool
           (Double.server "REQ-10C" Double.ok_response) Double.env
           "https://api.example.com/premium" "GET" None None None false st
           (fst run) (snd run) first Double.key typed retry []).
  - exact (surjective_pairing run).
  - vm_compute. reflexivity.
Defined.

(** X11.  Once the request has been sent again the payment stays, however
    the run ends: an exception of the transport is raised to the caller, a
    status of 400 or more gives the error-after-payment string, any other
    answer its body; in each case [spent_usd] is the spend before plus the
    amount and one record, for this URL, was appended. *)
Theorem paid_run_ends_by_the_second_answer `{Ports} async tool client env url method
    body headers max_price_usd run_manager st out st' first key typed retry logged :
  invoke async tool client env url method body headers max_price_usd run_manager st =
    (out, st') ->
  trace st' = trace st ++ Sending first :: Signing key typed :: Sending retry :: logged ->
  out = match client 1%nat retry with
        | inl e => Raised e
        | inr paid =>
            Returned (if 400 <=? status_code paid
                      then ErrorAfterPayment (status_code paid) (text paid)
                      else Body (text paid))
        end /\
  exists record d,
    units_to_usd (amount_units record) = inr d /\
    spent_usd (wallet st') = Float.add (spent_usd (wallet st)) (PyDecimal.to_float d) /\
    payments (wallet st') = payments (wallet st) ++ [record] /\
    resource_url record = url.
Proof.
  intros Hrun Htrace.
  destruct (run_cases _ _ _ _ _ _ _ _ _ _ _ _ _ Hrun)
    as (_ & _ & _ & [Hnone | [Hfailed | Hsigned]]).
  - destruct Hnone as (Ht & _). rewrite Ht in Htrace.
    apply app_inv_head in Htrace. discriminate Htrace.
  - destruct Hfailed as (key' & typed' & e' & Ht & _).
    rewrite Ht in Htrace. apply app_inv_head in Htrace. discriminate Htrace.
  - destruct Hsigned as (key' & typed' & sig & d & record & challenge & header_value &
      fields & Hc & Hh & Hl & Hkey & Hsg & Hunits & Hd & Hnet & Hauto & Hca & Hgt & Hs &
      Hp & Hurl & Hsig & Hrn & Hrto & Hrnonce & Hchain & Husdc & Hfrom & Hto & Hvalue &
      Hva & Hvb & Hnonce & [(Ht & _) | Hretried]).
    + rewrite Ht in Htrace. apply app_inv_head in Htrace. discriminate Htrace.
    + destruct Hretried as (to & amount & until & logged' & _ & _ & _ & Ht & _ & Hout).
      rewrite Ht in Htrace. apply app_inv_head in Htrace.
      cbn [app] in Htrace. injection Htrace as _ <- <- <- _.
      split; [exact Hout|]. exists record, d. unfold spent_usd, payments.
      repeat split; assumption.
Qed.

(** The server takes the proof and the connection drops: the caller gets
    the exception, the wallet has paid. *)
Lemma paid_run_ends_by_the_second_answer_witness :
  let st := Double.fresh (Double.literal 1 0) in
  let run := invoke false Double.tool (Scenes.drops_retry "REQ-10C") Double.env
               "https://api.example.com/premium" "GET" None None None false st in
  let retry := {| method := "GET"; url := "https://api.example.com/premium";
                  content := None;
                  headers := {["PAYMENT-SIGNATURE" := "PROOF"%string]} |} in
  fst run = match Scenes.drops_retry "REQ-10C" 1%nat retry with
            | inl e => Raised e
            | inr paid =>
                Returned (if 400 <=? status_code paid
                          then ErrorAfterPayment (status_code paid) (text paid)
                          else Body (text paid))
            end /\
  exists record d,
    units_to_usd (amount_units record) = inr d /\
    spent_usd (wallet (snd run)) =
      Float.add (spent_usd (wallet st)) (PyDecimal.to_float d) /\
    payments (wallet (snd run)) = payments (wallet st) ++ [record] /\
    resource_url record = "https://api.example.com/premium"%string.
Proof.
  intros st run retry.
  apply (paid_run_ends_by_the_second_answer false Double.tool
           (Scenes.drops_retry "REQ-10C") Double.env
           "https://api.example.com/premium" "GET" None None None false st
           (fst run) (snd run)
           {| method := "GET"; url := "https://api.example.com/premium";
              content := None; headers := ∅ |}
           Double.key
           {| domain_name := "USD Coin"; domain_version := "2"; chainId := 84532;
              verifyingContract := "0x036CbD53842c5426634e7929541eC2318f3dCF7e";
              msg_from := "0xf39Fd6e51aad88F6F4ce6aB8827279cffFb92266";
              msg_to := Double.payee; msg_value := 100000; msg_validAfter := 0;
              msg_validBefore := 9999999999;
              msg_nonce := ("0x" ++ hex (token_bytes Double.env))%string |}
           retry []).
  - exact (surjective_pairing run).
  - vm_compute. reflexivity.
Defined.

(** X12.  A run changes the history only by a payment that passed every
    check.  When the history after a run differs from the history before,
    the first answer carried a payment header that decodes to an object,
    the tool pays automatically, that object names no network or the
    wallet's, its amount, [int(maxAmountRequired)] in USD, is not above the
    ceiling ([max_price_usd], or the remaining budget without one) and the
    wallet could afford it before the run.  The one record appended carries
    these units, the URL and the wallet's network. *)
Theorem every_payment_passed_the_checks `{Ports} async tool client env url method body
    headers max_price_usd run_manager st out st' :
  let first := {| method := method; url := url; content := body;
                  headers := headers_or_empty headers |} in
  invoke async tool client env url method body headers max_price_usd run_manager st =
    (out, st') ->
  payments (wallet st') <> payments (wallet st) ->
  exists challenge header_value fields record d,
    client 0%nat first = inr challenge /\
    str_or (headers_get challenge "PAYMENT-REQUIRED")
           (headers_get challenge "X-PAYMENT-REQUIRED") = Some header_value /\
    b64_json_loads header_value = Some (JObj fields) /\
    payments (wallet st') = payments (wallet st) ++ [record] /\
    int (default (JInt 0) (dict_lookup fields "maxAmountRequired")) =
      inr (amount_units record) /\
    units_to_usd (amount_units record) = inr d /\
    auto_pay tool = true /\
    truthy (default JNull (dict_lookup fields "network")) &&
      differs_from_str (default JNull (dict_lookup fields "network"))
        (network (wallet st)) = false /\
    Float.gt (PyDecimal.to_float d)
      (float_or max_price_usd (remaining_usd (wallet st))) = false /\
    can_afford (wallet st) (PyDecimal.to_float d) = true /\
    resource_url record = url /\
    pr_network record = network (wallet st).
Proof.
  intros first Hrun Hchanged. unfold payments in *.
  destruct (run_cases _ _ _ _ _ _ _ _ _ _ _ _ _ Hrun)
    as (_ & _ & _ & [Hnone | [Hfailed | Hsigned]]).
  - destruct Hnone as (_ & _ & Hp). contradiction.
  - destruct Hfailed as (key' & typed' & e' & _ & _ & _ & _ & Hp). contradiction.
  - destruct Hsigned as (key' & typed' & sig & d & record & challenge & header_value &
      fields & Hc & Hh & Hl & Hkey & Hsg & Hunits & Hd & Hnet & Hauto & Hca & Hgt & Hs &
      Hp & Hurl & Hsig & Hrn & Hrto & Hrnonce & Hchain & Husdc & Hfrom & Hto & Hvalue &
      Hva & Hvb & Hnonce & _).
    exists challenge, header_value, fields, record, d. repeat split; assumption.
Qed.

(** The run that pays $0.10 from a budget of $1.00. *)
Lemma every_payment_passed_the_checks_witness :
  let st := Double.fresh (Double.literal 1 0) in
  let first := {| method := "GET"; url := "https://api.example.com/premium";
                  content := None; headers := headers_or_empty None |} in
  let run := invoke false Double.tool (Double.server "REQ-10C" Double.ok_response)
               Double.env "https://api.example.com/premium" "GET" None None None
               false st in
  exists challenge header_value fields record d,
    Double.server "REQ-10C" Double.ok_response 0%nat first = inr challenge /\
    str_or (headers_get challenge "PAYMENT-REQUIRED")
           (headers_get challenge "X-PAYMENT-REQUIRED") = Some header_value /\
    b64_json_loads header_value = Some (JObj fields) /\
    payments (wallet (snd run)) = payments (wallet st) ++ [record] /\
    int (default (JInt 0) (dict_lookup fields "maxAmountRequired")) =
      inr (amount_units record) /\
    units_to_usd (amount_units record) = inr d /\
    auto_pay Double.tool = true /\
    truthy (default JNull (dict_lookup fields "network")) &&
      differs_from_str (default JNull (dict_lookup fields "network"))
        (network (wallet st)) = false /\
    Float.gt (PyDecimal.to_float d)
      (float_or None (remaining_usd (wallet st))) = false /\
    can_afford (wallet st) (PyDecimal.to_float d) = true /\
    resource_url record = "https://api.example.com/premium"%string /\
    pr_network record = network (wallet st).
Proof.
  intros st first run.
  apply (every_payment_passed_the_checks false Double.tool
           (Double.server "REQ-10C" Double.ok_response) Double.env
           "https://api.example.com/premium" "GET" None None None false st
           (fst run) (snd run)).
  - exact (surjective_pairing run).
  - vm_compute. discriminate.
Defined.

(** X13.  What the tool has signed is what the server asked for, on the
    wallet's own chain: the signer is given the wallet's key with a [0x]
    prefix, the chain id and the USDC contract of the wallet's network, the
    wallet's address as sender, the requirement's [payTo] as recipient,
    [int(maxAmountRequired)] as value, zero as [validAfter] and
    [int(validUntil)] as [validBefore]; a field the requirement lacks
    counts as null or zero. *)
Theorem signed_terms_are_the_requirement `{Ports} async tool client env url method body
    headers max_price_usd run_manager st out st' first key typed sig rest :
  invoke async tool client env url method body headers max_price_usd run_manager st =
    (out, st') ->
  trace st' = trace st ++ Sending first :: Signing key typed :: rest ->
  account_sign_typed_data key typed = inr sig ->
  exists challenge header_value fields,
    client 0%nat first = inr challenge /\
    str_or (headers_get challenge "PAYMENT-REQUIRED")
           (headers_get challenge "X-PAYMENT-REQUIRED") = Some header_value /\
    b64_json_loads header_value = Some (JObj fields) /\
    key = normalize_key (private_key (wallet st)) /\
    CHAIN_IDS !! network (wallet st) = Some (chainId typed) /\
    USDC_CONTRACTS !! network (wallet st) = Some (verifyingContract typed) /\
    msg_from typed = default (get_wallet_address (private_key (wallet st)))
                       (_address (wallet st)) /\
    msg_to typed = default JNull (dict_lookup fields "payTo") /\
    int (default (JInt 0) (dict_lookup fields "maxAmountRequired")) =
      inr (msg_value typed) /\
    msg_validAfter typed = 0 /\
    int (default (JInt 0) (dict_lookup fields "validUntil")) =
      inr (msg_validBefore typed) /\
    msg_nonce typed = ("0x" ++ hex (token_bytes env))%string.
Proof.
  intros Hrun Htrace Hsigner.
  destruct (run_cases _ _ _ _ _ _ _ _ _ _ _ _ _ Hrun)
    as (_ & _ & _ & [Hnone | [Hfailed | Hsigned]]).
  - destruct Hnone as (Ht & _). rewrite Ht in Htrace.
    apply app_inv_head in Htrace. discriminate Htrace.
  - destruct Hfailed as (key' & typed' & e' & Ht & Hsg & _).
    rewrite Ht in Htrace. apply app_inv_head in Htrace.
    injection Htrace as _ <- <- _. congruence.
  - destruct Hsigned as (key' & typed' & sig' & d & record & challenge & header_value &
      fields & Hc & Hh & Hl & Hkey & Hsg & Hunits & Hd & Hnet & Hauto & Hca & Hgt & Hs &
      Hp & Hurl & Hsig & Hrn & Hrto & Hrnonce & Hchain & Husdc & Hfrom & Hto & Hvalue &
      Hva & Hvb & Hnonce & Hend).
    assert (Hsame : first = {| method := method; url := url; content := body;
                               headers := headers_or_empty headers |} /\
                    key' = key /\ typed' = typed).
    { destruct Hend as [(Ht & _) | (to & amount & until & logged & _ & _ & _ & Ht & _)].
      all: rewrite Ht in Htrace; apply app_inv_head in Htrace; cbn [app] in Htrace.
      all: injection Htrace; intros; subst; repeat split. }
    destruct Hsame as (-> & -> & ->).
    exists challenge, header_value, fields.
    rewrite Hvalue, Hto, Hrto, Hunits.
    repeat split; assumption.
Qed.

(** The authorization of the run that pays $0.10. *)
Lemma signed_terms_are_the_requirement_witness :
  let st := Double.fresh (Double.literal 1 0) in
  let first := {| method := "GET"; url := "https://api.example.com/premium";
                  content := None; headers := ∅ |} in
  let typed :=
    {| domain_name := "USD Coin"; domain_version := "2"; chainId := 84532;
       verifyingContract := "0x036CbD53842c5426634e7929541eC2318f3dCF7e";
       msg_from := "0xf39Fd6e51aad88F6F4ce6aB8827279cffFb92266";
       msg_to := Double.payee; msg_value := 100000; msg_validAfter := 0;
       msg_validBefore := 9999999999;
       msg_nonce := ("0x" ++ hex (token_bytes Double.env))%string |} in
  exists challenge header_value fields,
    Double.server "REQ-10C" Double.ok_response 0%nat first = inr challenge /\
    str_or (headers_get challenge "PAYMENT-REQUIRED")
           (headers_get challenge "X-PAYMENT-REQUIRED") = Some header_value /\
    b64_json_loads header_value = Some (JObj fields) /\
    Double.key = normalize_key (private_key (wallet st)) /\
    CHAIN_IDS !! network (wallet st) = Some (chainId typed) /\
    USDC_CONTRACTS !! network (wallet st) = Some (verifyingContract typed) /\
    msg_from typed = default (get_wallet_address (private_key (wallet st)))
                       (_address (wallet st)) /\
    msg_to typed = default JNull (dict_lookup fields "payTo") /\
    int (default (JInt 0) (dict_lookup fields "maxAmountRequired")) =
      inr (msg_value typed) /\
    msg_validAfter typed = 0 /\
    int (default (JInt 0) (dict_lookup fields "validUntil")) =
      inr (msg_validBefore typed) /\
    msg_nonce typed = ("0x" ++ hex (token_bytes Double.env))%string.
Proof.
  intros st first typed.
  pose (run := invoke false Double.tool (Double.server "REQ-10C" Double.ok_response)
                 Double.env "https://api.example.com/premium" "GET" None None None
                 false st).
  apply (signed_terms_are_the_requirement false Double.tool
           (Double.server "REQ-10C" Double.ok_response) Double.env
           "https://api.example.com/premium" "GET" None None None false st
           (fst run) (snd run) first Double.key typed "0xsigned"
           [Sending {| method := "GET"; url := "https://api.example.com/premium";
                       content := None;
                       headers := {["PAYMENT-SIGNATURE" := "PROOF"%string]} |}]).
  - exact (surjective_pairing run).
  - vm_compute. reflexivity.
  - reflexivity.
Defined.

(** * The wallet, call by call *)

(** X14.  A call of [sign_payment] that raises, for whatever reason, has
    written nothing: [spent_usd], the history, the budget, the key and the
    network are as before.  Either the signer was not asked at all, or it
    was asked once and the exception is the signer's own. *)
Theorem failed_payment_writes_nothing `{Ports} to units vb url env st e st' :
  sign_payment to units vb url env st = (Raised e, st') ->
  spent_usd (wallet st') = spent_usd (wallet st) /\
  payments (wallet st') = payments (wallet st) /\
  budget_usd (wallet st') = budget_usd (wallet st) /\
  private_key (wallet st') = private_key (wallet st) /\
  network (wallet st') = network (wallet st) /\
  (trace st' = trace st \/
   exists typed,
     trace st' = trace st ++ [Signing (normalize_key (private_key (wallet st))) typed] /\
     account_sign_typed_data (normalize_key (private_key (wallet st))) typed = inl e).
Proof.
  intros Hrun.
  destruct (sign_payment_cases _ _ _ _ _ _ _ _ Hrun)
    as (Hk & Hn & Hb &
        [(e1 & Ho & Ht & Hs & Hp) |
         [(typed & e1 & Ho & Hty & Ht & Hsg & Hs & Hp) |
          (typed & sig & d & Ho & _)]]).
  - unfold spent_usd, payments. repeat split; try assumption. left. exact Ht.
  - injection Ho as <-. unfold spent_usd, payments. repeat split; try assumption.
    right. exists typed. split; assumption.
  - discriminate Ho.
Qed.

(** The signer refuses: the dime is not spent. *)
Lemma failed_payment_writes_nothing_witness :
  let st := Double.fresh (Double.literal 1 0) in
  let st' := snd (@sign_payment Scenes.refusing Double.payee 100000 9999999999 ""
                    Double.env st) in
  spent_usd (wallet st') = spent_usd (wallet st) /\
  payments (wallet st') = payments (wallet st) /\
  budget_usd (wallet st') = budget_usd (wallet st) /\
  private_key (wallet st') = private_key (wallet st) /\
  network (wallet st') = network (wallet st) /\
  (trace st' = trace st \/
   exists typed,
     trace st' = trace st ++ [Signing (normalize_key (private_key (wallet st))) typed] /\
     @account_sign_typed_data Scenes.refusing (normalize_key (private_key (wallet st)))
       typed = inl (ValueError (OtherText "bad address"))).
Proof.
  intros st st'.
  apply (@failed_payment_writes_nothing Scenes.refusing Double.payee 100000 9999999999 ""
           Double.env st (ValueError (OtherText "bad address")) st').
  vm_compute. reflexivity.
Defined.

(** X15.  A call of [sign_payment] that returns has asked the signer once,
    with the wallet's key and the typed data of exactly this transfer: the
    recipient, the units, [validAfter] zero, the given [validBefore], the
    nonce just drawn, the wallet's address as sender, and the chain id and USDC
    contract of the wallet's network.  It returns the signer's signature
    with that nonce, and the one record it appends shows the same terms. *)
Theorem sign_payment_records_what_it_signed `{Ports} to units vb url env st sig fresh st' :
  sign_payment to units vb url env st = (Returned (sig, fresh), st') ->
  exists typed record,
    trace st' = trace st ++ [Signing (normalize_key (private_key (wallet st))) typed] /\
    account_sign_typed_data (normalize_key (private_key (wallet st))) typed = inr sig /\
    fresh = token_bytes env /\
    payments (wallet st') = payments (wallet st) ++ [record] /\
    CHAIN_IDS !! network (wallet st) = Some (chainId typed) /\
    USDC_CONTRACTS !! network (wallet st) = Some (verifyingContract typed) /\
    msg_from typed = default (get_wallet_address (private_key (wallet st)))
                       (_address (wallet st)) /\
    msg_to typed = to /\ pr_to_address record = to /\
    msg_value typed = units /\ amount_units record = units /\
    msg_validAfter typed = 0 /\
    msg_validBefore typed = vb /\
    msg_nonce typed = ("0x" ++ hex fresh)%string /\ pr_nonce record = hex fresh /\
    signature record = sig /\
    pr_network record = network (wallet st) /\
    resource_url record = url /\
    timestamp record = time_now env.
Proof.
  intros Hrun.
  destruct (sign_payment_cases _ _ _ _ _ _ _ _ Hrun)
    as (Hk & Hn & Hb &
        [(e1 & Ho & _) |
         [(typed & e1 & Ho & _) |
          (typed & sig' & d & Ho & Hty & Ht & Hsg & Hd & Hca & Had & Hs & Hp)]]);
    try discriminate Ho.
  injection Ho as <- ->.
  destruct (build_eip712_message_fields _ _ _ Hty)
    as (Hchain & Husdc & Hfrom & Hto & Hvalue & Hva & Hvb & Hnonce).
  cbn [from_address to_address value valid_after valid_before nonce] in *.
  eexists typed, _. unfold payments.
  split; [exact Ht|]. split; [exact Hsg|]. split; [reflexivity|]. split; [exact Hp|].
  cbn [pr_to_address amount_units pr_nonce signature pr_network resource_url timestamp].
  repeat split; assumption.
Qed.

(** The payment of [test_sign_payment_returns_signature]. *)
Lemma sign_payment_records_what_it_signed_witness :
  let st := Double.fresh (Double.literal 1 0) in
  let st' := snd (sign_payment Double.payee 100000 9999999999 "" Double.env st) in
  let sig := "0xsigned"%string in
  let fresh := token_bytes Double.env in
  exists typed record,
    trace st' = trace st ++ [Signing (normalize_key (private_key (wallet st))) typed] /\
    account_sign_typed_data (normalize_key (private_key (wallet st))) typed = inr sig /\
    fresh = token_bytes Double.env /\
    payments (wallet st') = payments (wallet st) ++ [record] /\
    CHAIN_IDS !! network (wallet st) = Some (chainId typed) /\
    USDC_CONTRACTS !! network (wallet st) = Some (verifyingContract typed) /\
    msg_from typed = default (get_wallet_address (private_key (wallet st)))
                       (_address (wallet st)) /\
    msg_to typed = Double.payee /\ pr_to_address record = Double.payee /\
    msg_value typed = 100000 /\ amount_units record = 100000 /\
    msg_validAfter typed = 0 /\
    msg_validBefore typed = 9999999999 /\
    msg_nonce typed = ("0x" ++ hex fresh)%string /\ pr_nonce record = hex fresh /\
    signature record = sig /\
    pr_network record = network (wallet st) /\
    resource_url record = ""%string /\
    timestamp record = time_now Double.env.
Proof.
  intros st st' sig fresh.
  apply (sign_payment_records_what_it_signed Double.payee 100000 9999999999 ""
           Double.env st sig fresh st').
  vm_compute. reflexivity.
Defined.

(** * The networks *)

(** Every name of [CHAIN_IDS] has a contract in [USDC_CONTRACTS], and its
    CAIP-2 name is listed with the same chain and contract. *)
Lemma listed_network name chain :
  CHAIN_IDS !! name = Some chain ->
  exists contract,
    USDC_CONTRACTS !! name = Some contract /\
    String.eqb contract "" || (chain =? 0) = false /\
    CHAIN_IDS !! ("eip155:" ++ pretty chain)%string = Some chain /\
    USDC_CONTRACTS !! ("eip155:" ++ pretty chain)%string = Some contract.
Proof.
  intros Hchain. apply elem_of_list_to_map_2 in Hchain.
  repeat (apply elem_of_cons in Hchain as [Hchain|Hchain];
          [injection Hchain as -> ->; vm_compute; eexists; repeat split|]).
  apply elem_of_nil in Hchain. contradiction.
Qed.

(** X16.  The networks of [eip3009.py].  [build_eip712_message] raises
    [ValueError] exactly on the names that [CHAIN_IDS] does not list.  On a
    listed name it returns typed data with the listed chain id, and the
    same typed data as on the CAIP-2 name [eip155:<chain id>] of that chain:
    a legacy alias and its CAIP-2 name are signed alike. *)
Theorem networks_are_the_listed_chains `{Ports} authorization name :
  match CHAIN_IDS !! name with
  | None =>
      build_eip712_message authorization name =
        inl (ValueError (UnsupportedNetworkText name))
  | Some chain =>
      (exists typed,
         build_eip712_message authorization name = inr typed /\
         chainId typed = chain /\
         USDC_CONTRACTS !! name = Some (verifyingContract typed)) /\
      build_eip712_message authorization name =
        build_eip712_message authorization ("eip155:" ++ pretty chain)
  end.
Proof.
  destruct (CHAIN_IDS !! name) as [chain|] eqn:Hchain.
  - destruct (listed_network name chain Hchain) as (contract & Hc & Hok & Hchain' & Hc').
    unfold build_eip712_message. rewrite Hchain, Hc, Hchain', Hc', Hok.
    split; [|reflexivity]. eexists. repeat split.
  - unfold build_eip712_message. rewrite Hchain.
    destruct (USDC_CONTRACTS !! name); reflexivity.
Qed.

(** X17.  A wallet on a network that [CHAIN_IDS] does not list cannot
    pay: a call of [sign_payment] for an amount it can afford raises the
    unsupported-network [ValueError], the signer is not asked, and
    [spent_usd] and the history are as before. *)
Theorem unlisted_network_never_signs `{Ports} to units vb url env st d :
  CHAIN_IDS !! network (wallet st) = None ->
  units_to_usd units = inr d ->
  can_afford (wallet st) (PyDecimal.to_float d) = true ->
  exists st',
    sign_payment to units vb url env st =
      (Raised (ValueError (UnsupportedNetworkText (network (wallet st)))), st') /\
    trace st' = trace st /\
    spent_usd (wallet st') = spent_usd (wallet st) /\
    payments (wallet st') = payments (wallet st).
Proof.
  intros Hchain Hd Hafford.
  destruct (sign_payment to units vb url env st) as [o st'] eqn:Hrun.
  exists st'.
  assert (Hbuild : forall a, build_eip712_message a (network (wallet st)) =
                     inl (ValueError (UnsupportedNetworkText (network (wallet st))))).
  { intros a. unfold build_eip712_message. rewrite Hchain.
    destruct (USDC_CONTRACTS !! network (wallet st)); reflexivity. }
  destruct (sign_payment_cases _ _ _ _ _ _ _ _ Hrun)
    as (Hk & Hn & Hb &
        [(e1 & Ho & Ht & Hs & Hp) |
         [(typed & e1 & Ho & Hty & _) |
          (typed & sig & d' & Ho & Hty & _)]]).
  2, 3: rewrite Hbuild in Hty; discriminate Hty.
  unfold spent_usd, payments. repeat split; try assumption.
  f_equal. subst o. f_equal.
  unfold sign_payment, sign_transfer_authorization, address, generate_nonce in Hrun.
  unfold_M. rewrite Hd in Hrun. rewrite Hafford in Hrun. cbn [negb] in Hrun.
  destruct (_address (wallet st)); proj; rewrite Hbuild in Hrun; congruence.
Qed.

(** A wallet on polygon-mainnet, which the tables do not know. *)
Lemma unlisted_network_never_signs_witness :
  let st := Scenes.elsewhere (Double.literal 1 0) in
  exists st',
    sign_payment Double.payee 100000 9999999999 "" Double.env st =
      (Raised (ValueError (UnsupportedNetworkText (network (wallet st)))), st') /\
    trace st' = trace st /\
    spent_usd (wallet st') = spent_usd (wallet st) /\
    payments (wallet st') = payments (wallet st).
Proof.
  intros st.
  apply (unlisted_network_never_signs Double.payee 100000 9999999999 "" Double.env st
           (PyDecimal.mk false 1 (-1))).
  all: vm_compute; reflexivity.
Defined.

(** X18.  The key may come with or without its [0x] prefix: the address
    and every signing use the key with the prefix, so a key without it and
    the same key with it give the same address, the same question to the
    signer and the same result. *)
Theorem key_prefix_is_optional `{Ports} key authorization network st :
  String.prefix "0x" key = false ->
  normalize_key (normalize_key key) = normalize_key key /\
  get_wallet_address ("0x" ++ key) = get_wallet_address key /\
  sign_transfer_authorization ("0x" ++ key) authorization network st =
    sign_transfer_authorization key authorization network st.
Proof.
  intros Hbare.
  assert (Hnorm : normalize_key ("0x" ++ key) = normalize_key key).
  { assert (Hprefixed : String.prefix "0x" ("0x" ++ key) = true).
    { cbn [append String.prefix].
      destruct (ascii_dec "0" "0") as [_|Hne]; [|contradiction].
      destruct (ascii_dec "x" "x") as [_|Hne]; [|contradiction].
      destruct key; reflexivity. }
    unfold normalize_key. rewrite Hbare, Hprefixed. reflexivity. }
  split; [|split].
  - unfold normalize_key at 2. rewrite Hbare. exact Hnorm.
  - unfold get_wallet_address. rewrite Hnorm. reflexivity.
  - unfold sign_transfer_authorization. rewrite Hnorm. reflexivity.
Qed.

(** The key of [test_wallet_without_0x_prefix]. *)
Lemma key_prefix_is_optional_witness :
  let key := "ac0974bec39a17e36ba4a6b4d238ff944bacb478cbed5efcae784d7bf4f2ff80"%string in
  let authorization :=
    {| from_address := "0xf39Fd6e51aad88F6F4ce6aB8827279cffFb92266";
       to_address := Double.payee; value := 100000; valid_after := 0;
       valid_before := 9999999999; nonce := token_bytes Double.env |} in
  let st := Double.fresh (Double.literal 1 0) in
  normalize_key (normalize_key key) = normalize_key key /\
  get_wallet_address ("0x" ++ key) = get_wallet_address key /\
  sign_transfer_authorization ("0x" ++ key) authorization "base-sepolia" st =
    sign_transfer_authorization key authorization "base-sepolia" st.
Proof.
  intros key authorization st.
  apply (key_prefix_is_optional key authorization "base-sepolia" st).
  reflexivity.
Defined.

(** X19.  Payments signed one after the other, up to the first call that
    raises: the history is the history before followed by one record for
    each call that returned, in the order of the calls, with its units, its
    recipient and its URL; a call that raised left no record, and the calls
    after it were not made.  The summary counts the same records. *)
Theorem history_follows_the_calls `{Ports} calls : forall st,
  let run := sign_each calls st in
  let st' := snd run in
  exists n : nat,
    (n <= length calls)%nat /\
    (fst run = Returned tt <-> n = length calls) /\
    map amount_units (payments (wallet st')) =
      map amount_units (payments (wallet st)) ++ map call_units (take n calls) /\
    map pr_to_address (payments (wallet st')) =
      map pr_to_address (payments (wallet st)) ++ map call_to (take n calls) /\
    map resource_url (payments (wallet st')) =
      map resource_url (payments (wallet st)) ++ map call_url (take n calls) /\
    budget_usd (wallet st') = budget_usd (wallet st) /\
    exists summary st'',
      get_payment_summary st' = (Returned summary, st'') /\
      summary_payment_count summary = (length (payments (wallet st)) + n)%nat /\
      summary_spent_usd summary = spent_usd (wallet st') /\
      summary_budget_usd summary = budget_usd (wallet st).
Proof.
  induction calls as [|c rest IH]; intros st; cbv zeta; unfold payments in *.
  - exists 0%nat. cbn [sign_each take map length]. unfold_M. proj.
    rewrite !app_nil_r, Nat.add_0_r.
    split; [lia|]. split; [tauto|]. do 4 (split; [reflexivity|]).
    destruct (address_returns st) as (w' & Ha & _ & _ & Hb & Hs & Hp).
    unfold get_payment_summary. unfold_M. rewrite Ha. proj.
    do 2 eexists. split; [reflexivity|].
    cbn [summary_payment_count summary_spent_usd summary_budget_usd].
    unfold spent_usd. rewrite Hp, Hb, Hs. repeat split.
  - cbn [sign_each]. unfold mbind, M_bind, bind.
    destruct (sign_payment (call_to c) (call_units c) (call_valid_before c)
                (call_url c) (call_env c) st) as [[r|e] st1] eqn:Hfirst.
    + destruct (sign_payment_returned _ _ _ _ _ _ _ _ Hfirst)
        as (d & typed & sig & _ & _ & _ & _ & _ & Hb & _ & Hp & _).
      destruct (IH st1) as (n & Hn & Hall & Hunits & Hto & Hurl & Hbudget & Hsummary).
      exists (S n). cbn [take map length].
      split; [lia|]. split; [rewrite Hall; lia|].
      rewrite Hunits, Hto, Hurl, Hbudget, Hb, Hp, !map_app. cbn [map].
      rewrite <- !app_assoc. cbn [app].
      do 4 (split; [reflexivity|]).
      destruct Hsummary as (summary & st'' & Hsum & Hcount & Hspent & Hbud).
      exists summary, st''. split; [exact Hsum|].
      rewrite Hcount, Hp, Hb in *. rewrite length_app. cbn [length].
      repeat split; [lia | exact Hspent | exact Hbud].
    + destruct (sign_payment_cases _ _ _ _ _ _ _ _ Hfirst)
        as (_ & _ & Hb &
            [(e1 & _ & _ & Hs & Hp) |
             [(typed & e1 & _ & _ & _ & _ & Hs & Hp) |
              (typed & sig & d & Ho & _)]]); try discriminate Ho.
      all: exists 0%nat; cbn [fst snd take map length].
      all: rewrite !app_nil_r, Nat.add_0_r, Hp, Hb.
      all: split; [lia|]; split; [split; [discriminate|lia]|].
      all: do 4 (split; [reflexivity|]).
      all: destruct (address_returns st1) as (w' & Ha & _ & _ & Hb' & Hs' & Hp').
      all: unfold get_payment_summary; unfold_M; rewrite Ha; proj.
      all: do 2 eexists; (split; [reflexivity|]).
      all: cbn [summary_payment_count summary_spent_usd summary_budget_usd].
      all: unfold spent_usd; rewrite Hp', Hb', Hs', Hp, Hb; repeat split.
Qed.

(** X20.  A wallet that has spent nothing has its budget to spend, to the
    bit: right after construction, and after [reset_budget], [remaining_usd]
    is the budget itself when the budget is above zero, and [0.0] when it is
    zero, negative or not a number. *)
Theorem fresh_ledger_has_the_budget `{Ports} key name budget new_budget st :
  let fresh := new_wallet key name budget in
  let reset := wallet (snd (reset_budget new_budget st)) in
  let after := default (budget_usd (wallet st)) new_budget in
  remaining_usd fresh = (if Float.gt budget Float.zero then budget else Float.zero) /\
  remaining_usd reset = (if Float.gt after Float.zero then after else Float.zero) /\
  spent_usd fresh = Float.zero /\ payments fresh = [] /\
  spent_usd reset = Float.zero /\ payments reset = [].
Proof.
  assert (Hsub : forall x, Float.sub x Float.zero = x)
    by (intros [[]|[]| |[] m e]; reflexivity).
  intros fresh reset after. subst fresh reset after.
  unfold reset_budget. unfold_M. proj.
  unfold remaining_usd, Float.max. proj. rewrite !Hsub.
  destruct new_budget; repeat split.
Qed.

(** * Amounts *)

(** X21.  [usd_to_units] cuts what lies beyond the sixth decimal place,
    toward zero: an amount whose text reads as the decimal [c * 10^e] with
    more than six places ([e < -6]) and at most 22 digits gives
    [c // 10^(-e-6)] units, with the sign of the amount.  Nothing is
    rounded up. *)
Theorem usd_to_units_truncates `{Ports} usd (negative : bool) (c e : Z) :
  decimal_of_str usd = PyDecimal.Finite (PyDecimal.mk negative c e) ->
  0 < c < 10 ^ 22 -> PyDecimal.Etiny <= e < -6 ->
  usd_to_units usd =
    inr (if negative then - (c / 10 ^ (- e - 6)) else c / 10 ^ (- e - 6)).
Proof.
  intros Husd Hc He. unfold usd_to_units, PyDecimal.mul, PyDecimal.of_int.
  rewrite Husd.
  cbn [PyDecimal.sign PyDecimal.coeff PyDecimal.exp].
  change (1000000 <? 0) with false. change (Z.abs 1000000) with 1000000.
  rewrite xorb_false_r, Z.add_0_r.
  assert (Hbound : 0 < c * 1000000 < 10 ^ 28).
  { change (10 ^ 28) with (10 ^ 22 * 1000000). lia. }
  pose proof (ndigits_le (c * 1000000) 28 ltac:(lia) ltac:(lia) ltac:(lia)) as Hn.
  rewrite fix_keeps; [|exact Hbound|lia|unfold PyDecimal.Etop, PyDecimal.Emax,
                                         PyDecimal.ctx_prec; lia].
  unfold PyDecimal.to_int. cbn [PyDecimal.sign PyDecimal.coeff PyDecimal.exp].
  destruct (Z.leb_spec 0 e) as [|_]; [lia|].
  replace (c * 1000000 / 10 ^ (- e)) with (c / 10 ^ (- e - 6)); [reflexivity|].
  replace (10 ^ (- e)) with (10 ^ (- e - 6) * 1000000).
  - symmetry. apply Z.div_mul_cancel_r; [|lia].
    pose proof (p10_pos (- e - 6)). lia.
  - change 1000000 with (10 ^ 6). rewrite <- Z.pow_add_r by lia. f_equal. lia.
Qed.

(** The float [0.0000019], printed [1.9e-06], is one unit, not two. *)
Lemma usd_to_units_truncates_witness :
  usd_to_units (UsdFloat (Double.literal 19 (-7))) =
    inr (if false then - (19 / 10 ^ (- -7 - 6)) else 19 / 10 ^ (- -7 - 6)).
Proof.
  apply (usd_to_units_truncates (UsdFloat (Double.literal 19 (-7))) false 19 (-7)).
  - vm_compute. reflexivity.
  - lia.
  - unfold PyDecimal.Etiny, PyDecimal.Emin, PyDecimal.ctx_prec. lia.
Defined.

Section Signs.

Lemma shr_1_nonneg mrs : 0 <= shr_m mrs -> 0 <= shr_m (shr_1 mrs).
Proof. destruct mrs as [[|[p|p|]|[p|p|]] r s]; cbn; lia. Qed.

Lemma iter_shr_1_nonneg p : forall mrs,
  0 <= shr_m mrs -> 0 <= shr_m (@SpecFloat.iter_pos shr_record shr_1 p mrs).
Proof.
  induction p as [p IH|p IH|]; intros mrs Hm; cbn [SpecFloat.iter_pos].
  - apply IH, IH, shr_1_nonneg, Hm.
  - apply IH, IH, Hm.
  - apply shr_1_nonneg, Hm.
Qed.

Lemma shr_fexp_nonneg m e l :
  0 <= m -> 0 <= shr_m (fst (shr_fexp Float.prec Float.emax m e l)).
Proof.
  intros Hm. unfold shr_fexp, shr.
  assert (H0 : 0 <= shr_m (shr_record_of_loc m l)) by (destruct l as [|[]]; exact Hm).
  destruct (fexp _ _ _ - e); cbn [fst]; try exact H0.
  apply iter_shr_1_nonneg, H0.
Qed.

Lemma round_nearest_even_nonneg m l : 0 <= m -> 0 <= round_nearest_even m l.
Proof.
  intros Hm. destruct l as [|[]]; cbn; try lia. destruct (Z.even m); lia.
Qed.

Lemma binary_round_aux_signed s m e l :
  0 <= m -> Float.has_sign s (binary_round_aux Float.prec Float.emax s m e l).
Proof.
  intros Hm. unfold binary_round_aux.
  pose proof (shr_fexp_nonneg m e l Hm) as H1.
  destruct (shr_fexp Float.prec Float.emax m e l) as [mrs' e'] eqn:E1. cbn [fst] in H1.
  pose proof (shr_fexp_nonneg _ e' loc_Exact
                (round_nearest_even_nonneg _ (loc_of_shr_record mrs') H1)) as H2.
  destruct (shr_fexp Float.prec Float.emax _ e' loc_Exact) as [mrs'' e''].
  cbn [fst] in H2.
  destruct (shr_m mrs'') as [|p|p]; [reflexivity| |lia].
  destruct (e'' <=? Float.emax - Float.prec); reflexivity.
Qed.

(** [float(d)] is a number, with the sign of [d]. *)
Lemma to_float_signed d :
  0 <= PyDecimal.coeff d -> Float.has_sign (PyDecimal.sign d) (PyDecimal.to_float d).
Proof.
  intros Hc. unfold PyDecimal.to_float.
  destruct (Z.eqb_spec (PyDecimal.coeff d) 0) as [|Hnz]; [reflexivity|].
  destruct (Z.leb_spec 0 (PyDecimal.exp d)) as [He|He].
  - pose proof (p10_pos (PyDecimal.exp d) He) as Hp.
    assert (Hpos : 0 < PyDecimal.coeff d * 10 ^ PyDecimal.exp d) by nia.
    destruct (PyDecimal.coeff d * 10 ^ PyDecimal.exp d) as [|v|v]; try lia.
    change (- Z.pos v) with (Z.neg v).
    destruct (PyDecimal.sign d); cbn [binary_normalize]; unfold binary_round;
      match goal with
      | |- context [shl_align ?a ?b ?c] => destruct (shl_align a b c) as [mz ez]
      end; apply binary_round_aux_signed; lia.
  - unfold SFdiv, SFdiv_core_binary.
    rewrite xorb_false_r.
    set (m1 := Z.pos (Z.to_pos (PyDecimal.coeff d))).
    set (m2 := Z.pos (Z.to_pos (10 ^ (- PyDecimal.exp d)))).
    set (e' := Z.min _ _).
    set (m' := match 0 - 0 - e' with 0 => m1 | Z.pos _ => _ | Z.neg _ => 0 end).
    assert (Hm' : 0 <= m').
    { subst m'. destruct (0 - 0 - e'); [subst m1; lia| |lia].
      apply Z.shiftl_nonneg. subst m1. lia. }
    rewrite div_eucl_pair.
    apply binary_round_aux_signed. apply Z.div_pos; [exact Hm'|subst m2; lia].
Qed.

Lemma remaining_signed w : Float.has_sign false (remaining_usd w).
Proof.
  unfold remaining_usd, Float.max, Float.gt.
  destruct (Float.sub (budget_usd w) (_spent_usd w)) as [[]|[]| |[] m e];
    cbn; reflexivity.
Qed.

Lemma signed_ge r a : Float.has_sign false r -> Float.has_sign true a -> Float.ge r a = true.
Proof.
  destruct r as [s|s| |s m e], a as [s'|s'| |s' m' e']; cbn; try contradiction.
  all: intros -> ->; reflexivity.
Qed.

Lemma signed_ge_zero r : Float.has_sign false r -> Float.ge r Float.zero = true.
Proof. destruct r as [s|s| |s m e]; cbn; try contradiction; intros ->; reflexivity. Qed.

(** What [units_to_usd] returns for an amount of at most 28 digits. *)
Lemma units_to_usd_returns `{Ports} units :
  Z.abs units < 10 ^ 28 ->
  exists d, units_to_usd units = inr d /\
    PyDecimal.sign d = (units <? 0) /\ 0 <= PyDecimal.coeff d /\
    (units = 0 -> d = PyDecimal.mk false 0 0).
Proof.
  intros Hn. destruct (Z.eq_dec units 0) as [->|Hnz].
  - exists (PyDecimal.mk false 0 0). repeat split. cbn. lia.
  - destruct (units_to_usd_exact (units <? 0) (Z.abs units) 0 ltac:(lia) ltac:(lia))
      as (c & e & _ & _ & Hu & He & Hv & _).
    change (10 ^ 0) with 1 in *. rewrite Z.mul_1_r in *.
    replace (if units <? 0 then - Z.abs units else Z.abs units) with units in Hu
      by (destruct (Z.ltb_spec units 0); lia).
    exists (PyDecimal.mk (units <? 0) c e). split; [exact Hu|].
    cbn [PyDecimal.sign PyDecimal.coeff]. split; [reflexivity|]. split; [|lia].
    pose proof (p10_pos (e + 6) ltac:(lia)). nia.
Qed.

(** The budget check lets every amount that is not positive through. *)
Lemma nonpositive_amount_affordable `{Ports} w units :
  units <= 0 -> -10 ^ 28 < units ->
  exists d, units_to_usd units = inr d /\ can_afford w (PyDecimal.to_float d) = true.
Proof.
  intros Hneg Hbound.
  destruct (units_to_usd_returns units ltac:(lia)) as (d & Hd & Hsign & Hcoeff & Hzero).
  exists d. split; [exact Hd|]. unfold can_afford.
  destruct (Z.eq_dec units 0) as [->|Hnz].
  - rewrite (Hzero eq_refl). apply signed_ge_zero, remaining_signed.
  - apply signed_ge; [apply remaining_signed|].
    pose proof (to_float_signed d Hcoeff) as Hs. rewrite Hsign in Hs.
    destruct (Z.ltb_spec units 0); [exact Hs|lia].
Qed.

End Signs.

(** X22.  The budget check never refuses an amount that is not positive.
    For zero or negative units (of at most 28 digits) the amount in USD is a
    float with the sign of the units, and [can_afford] holds in every
    wallet, also in one with nothing left; on a listed network
    [sign_payment] therefore goes on to ask the signer for a transfer of
    these units. *)
Theorem budget_check_passes_nonpositive_amounts `{Ports} to units vb url env st :
  units <= 0 -> -10 ^ 28 < units ->
  exists d,
    units_to_usd units = inr d /\
    Float.has_sign (units <? 0) (PyDecimal.to_float d) /\
    can_afford (wallet st) (PyDecimal.to_float d) = true /\
    (is_Some (CHAIN_IDS !! network (wallet st)) ->
     exists typed,
       trace (snd (sign_payment to units vb url env st)) =
         trace st ++ [Signing (normalize_key (private_key (wallet st))) typed] /\
       msg_value typed = units).
Proof.
  intros Hneg Hbound.
  destruct (nonpositive_amount_affordable (wallet st) units Hneg Hbound)
    as (d & Hd & Hafford).
  exists d. split; [exact Hd|]. split; [|split; [exact Hafford|]].
  - destruct (units_to_usd_returns units ltac:(lia)) as (d' & Hd' & Hsign & Hcoeff & _).
    rewrite Hd in Hd'. injection Hd' as <-.
    rewrite <- Hsign. apply to_float_signed, Hcoeff.
  - intros [chain Hchain].
    destruct (listed_network _ _ Hchain) as (contract & Hc & Hok & _).
    unfold sign_payment, address, sign_transfer_authorization, build_eip712_message.
    unfold_M. rewrite Hd, Hafford. cbn [negb].
    destruct (_address (wallet st)); proj; rewrite Hchain, Hc, Hok.
    all: eexists; destruct (account_sign_typed_data _ _); proj; split; reflexivity.
Qed.

(** Minus one dollar in a wallet that has one cent. *)
Lemma budget_check_passes_nonpositive_amounts_witness :
  let st := Double.fresh (Double.literal 1 (-2)) in
  exists d,
    units_to_usd (-1000000) = inr d /\
    Float.has_sign (-1000000 <? 0) (PyDecimal.to_float d) /\
    can_afford (wallet st) (PyDecimal.to_float d) = true /\
    (is_Some (CHAIN_IDS !! network (wallet st)) ->
     exists typed,
       trace (snd (sign_payment Double.payee (-1000000) 9999999999 "" Double.env st)) =
         trace st ++ [Signing (normalize_key (private_key (wallet st))) typed] /\
       msg_value typed = -1000000).
Proof.
  intros st.
  apply (budget_check_passes_nonpositive_amounts Double.payee (-1000000) 9999999999 ""
           Double.env st); lia.
Defined.

(** The order of floats composes: at least [a], and [b] at most [a]. *)
Lemma ge_le_trans (r a b : float) :
  Float.ge r a = true -> Float.le b a = true -> Float.ge r b = true.
Proof.
  unfold Float.ge, Float.le, SFleb.
  destruct r as [sr|sr| |sr mr er], a as [sa|sa| |sa ma ea], b as [sb|sb| |sb mb eb];
    cbn [SFcompare]; try discriminate; try reflexivity.
  all: try (destruct sr, sa, sb; cbn; intros; congruence).
  all: destruct sr, sa, sb; try (intros; congruence); try reflexivity.
  all: change (Pos.compare_cont Eq ?x ?y) with (Pos.compare x y).
  all: intros H1 H2.
  all: destruct (Z.compare_spec er ea), (Z.compare_spec eb ea);
         try discriminate; cbn [CompOpp] in *.
  all: destruct (Z.compare_spec er eb); try lia; try reflexivity; cbn [CompOpp].
  all: subst.
  all: destruct (Pos.compare_spec mr ma), (Pos.compare_spec mb ma);
         try discriminate; cbn [CompOpp] in *.
  all: destruct (Pos.compare_spec mr mb); try lia; try reflexivity.
Qed.

(** X23.  What a wallet can afford, it can afford less of: when
    [can_afford] holds for an amount, it holds for every amount that is at
    most that one.  For an amount that is not a number it never holds. *)
Theorem smaller_amounts_are_affordable `{Ports} w (amount smaller : float) :
  can_afford w amount = true ->
  Float.le smaller amount = true ->
  can_afford w smaller = true /\ can_afford w S754_nan = false.
Proof.
  unfold can_afford. intros Hafford Hle. split.
  - exact (ge_le_trans _ _ _ Hafford Hle).
  - unfold Float.ge. destruct (remaining_usd w); reflexivity.
Qed.

(** Half a dollar and a dime, in a wallet of one dollar. *)
Lemma smaller_amounts_are_affordable_witness :
  let w := wallet (Double.fresh (Double.literal 1 0)) in
  can_afford w (Double.literal 1 (-1)) = true /\ can_afford w S754_nan = false.
Proof.
  intros w.
  apply (smaller_amounts_are_affordable w (Double.literal 5 (-1)) (Double.literal 1 (-1))).
  all: vm_compute; reflexivity.
Defined.

(** * The copy of the history and the wallet's own list *)

Section Steps.
Import Aliasing.

(** One step of the wallet writes the wallet object and its own list. *)
Lemma perform_writes (self : loc) (h : gmap loc object) (step : wallet_step) w items :
  h !! self = Some (WalletObject w) ->
  h !! obj_payments w = Some (ListObject items) ->
  exists w',
    perform self h step !! self = Some (WalletObject w') /\
    obj_payments w' = obj_payments w /\
    perform self h step !! obj_payments w =
      Some (ListObject match step with
                       | Record _ record => items ++ [record]
                       | Reset _ => []
                       end) /\
    obj_spent_usd w' = match step with
                       | Record amount _ => Float.add (obj_spent_usd w) amount
                       | Reset _ => Float.zero
                       end /\
    forall k, k <> self -> k <> obj_payments w -> perform self h step !! k = h !! k.
Proof.
  intros Hself Hlist.
  assert (Hne : obj_payments w <> self) by congruence.
  unfold perform, apply. rewrite Hself.
  destruct step as [amount record|new_budget]; cbv zeta.
  all: rewrite lookup_insert_ne by congruence; rewrite Hlist; cbn [mutate].
  all: eexists; split; [rewrite lookup_insert_ne by exact Hne; apply lookup_insert_eq|].
  all: cbn [obj_payments obj_spent_usd].
  all: split; [reflexivity|]; split; [apply lookup_insert_eq|]; split; [reflexivity|].
  all: intros k Hk1 Hk2; rewrite !lookup_insert_ne by congruence; reflexivity.
Qed.

Lemma steps_elsewhere (self k : loc) (steps : list wallet_step) :
  forall (h : gmap loc object) w items,
    h !! self = Some (WalletObject w) ->
    h !! obj_payments w = Some (ListObject items) ->
    k <> self -> k <> obj_payments w ->
    foldl (perform self) h steps !! k = h !! k /\
    exists w' items',
      foldl (perform self) h steps !! self = Some (WalletObject w') /\
      obj_payments w' = obj_payments w /\
      foldl (perform self) h steps !! obj_payments w = Some (ListObject items').
Proof.
  induction steps as [|step steps IH]; intros h w items Hself Hlist Hk1 Hk2.
  - split; [reflexivity|]. exists w, items. repeat split; assumption.
  - cbn [foldl].
    destruct (perform_writes self h step w items Hself Hlist)
      as (w1 & Hself1 & Hp1 & Hlist1 & _ & Helse).
    rewrite <- Hp1 in Hlist1, Hk2.
    destruct (IH _ _ _ Hself1 Hlist1 Hk1 Hk2) as (Hk & w' & items' & Hs & Hp & Hl).
    split; [rewrite Hk; apply Helse; congruence|].
    exists w', items'. rewrite <- Hp1. repeat split; congruence.
Qed.

End Steps.

(** X24.  The list that [payments] has handed out is cut off from the
    wallet: whatever the wallet does afterwards, recording further payments
    or [reset_budget], which clears its own list in place, the list handed
    out still holds exactly the records of the moment of the call; and a
    [reset_budget] at the end leaves the wallet itself with nothing spent
    and an empty history. *)
Theorem snapshot_outlives_the_wallet (self l : Aliasing.loc)
    (h h' : gmap Aliasing.loc Aliasing.object) (steps : list Aliasing.wallet_step)
    (new_budget : option float) :
  Aliasing.payments self h = Some (l, h') ->
  exists spent items,
    Aliasing.observed self h = Some (spent, items, length items) /\
    foldl (Aliasing.perform self) h' steps !! l = Some (Aliasing.ListObject items) /\
    foldl (Aliasing.perform self) h' (steps ++ [Aliasing.Reset new_budget]) !! l =
      Some (Aliasing.ListObject items) /\
    Aliasing.observed self
      (foldl (Aliasing.perform self) h' (steps ++ [Aliasing.Reset new_budget])) =
      Some (Float.zero, [], 0%nat).
Proof.
  unfold Aliasing.payments.
  destruct (h !! self) as [[items0|w]|] eqn:Hself; try discriminate.
  intros Hcopy.
  destruct (list_copy_fresh _ _ _ _ Hcopy) as (Hfresh & items & Hlist & ->).
  assert (Hne_self : l <> self) by congruence.
  assert (Hne_list : l <> Aliasing.obj_payments w) by congruence.
  assert (Hself' : <[l := Aliasing.ListObject items]> h !! self =
                   Some (Aliasing.WalletObject w))
    by (rewrite lookup_insert_ne by exact Hne_self; exact Hself).
  assert (Hlist' : <[l := Aliasing.ListObject items]> h !! Aliasing.obj_payments w =
                   Some (Aliasing.ListObject items))
    by (rewrite lookup_insert_ne by exact Hne_list; exact Hlist).
  exists (Aliasing.obj_spent_usd w), items.
  split; [unfold Aliasing.observed; rewrite Hself, Hlist; reflexivity|].
  destruct (steps_elsewhere self l steps _ _ _ Hself' Hlist' Hne_self Hne_list)
    as (Hl & w' & items' & Hs & Hp & Hli).
  rewrite lookup_insert_eq in Hl.
  split; [exact Hl|].
  rewrite foldl_app. cbn [foldl].
  rewrite <- Hp in Hli, Hne_list.
  destruct (perform_writes self _ (Aliasing.Reset new_budget) w' items' Hs Hli)
    as (w'' & Hs'' & Hp'' & Hl'' & Hspent & Helse).
  split.
  - rewrite Helse by assumption. exact Hl.
  - unfold Aliasing.observed. rewrite Hs'', Hp'', Hl'', Hspent. reflexivity.
Qed.

(** A copy is taken, a payment is recorded, the budget is reset. *)
Lemma snapshot_outlives_the_wallet_witness :
  let l := 3%positive in
  let h' := <[l := Aliasing.ListObject [Double.record_10c]]> Double.heap in
  let steps := [Aliasing.Record (Double.literal 1 (-1)) Double.record_10c] in
  exists spent items,
    Aliasing.observed 1%positive Double.heap = Some (spent, items, length items) /\
    foldl (Aliasing.perform 1%positive) h' steps !! l = Some (Aliasing.ListObject items) /\
    foldl (Aliasing.perform 1%positive) h' (steps ++ [Aliasing.Reset None]) !! l =
      Some (Aliasing.ListObject items) /\
    Aliasing.observed 1%positive
      (foldl (Aliasing.perform 1%positive) h' (steps ++ [Aliasing.Reset None])) =
      Some (Float.zero, [], 0%nat).
Proof.
  intros l h' steps.
  apply (snapshot_outlives_the_wallet 1%positive l Double.heap h' steps None).
  vm_compute. reflexivity.
Defined.

(** * More ways a run ends before any payment *)

(** X25.  A price above the ceiling is not paid: when the amount of a
    requirement that passes the network check is greater than
    [max_price_usd] (a given value other than zero) or, without one, than
    the remaining budget, [_run] and [_arun] return the price-rejected
    string with the amount, the recipient and the ceiling; the wallet is as
    it was and nothing was signed. *)
Theorem price_above_the_ceiling_is_rejected `{Ports} async tool client env url method
    body headers max_price_usd run_manager st
    challenge header_value fields units d valid_until :
  let first := {| method := method; url := url; content := body;
                  headers := headers_or_empty headers |} in
  let required := default JNull (dict_lookup fields "network") in
  let ceiling := float_or max_price_usd (remaining_usd (wallet st)) in
  client 0%nat first = inr challenge ->
  status_code challenge = 402 ->
  str_or (headers_get challenge "PAYMENT-REQUIRED")
         (headers_get challenge "X-PAYMENT-REQUIRED") = Some header_value ->
  str_truthy (Some header_value) = true ->
  b64_json_loads header_value = Some (JObj fields) ->
  int (default (JInt 0) (dict_lookup fields "maxAmountRequired")) = inr units ->
  units_to_usd units = inr d ->
  int (default (JInt 0) (dict_lookup fields "validUntil")) = inr valid_until ->
  truthy required && differs_from_str required (network (wallet st)) = false ->
  Float.gt (PyDecimal.to_float d) ceiling = true ->
  invoke async tool client env url method body headers max_price_usd run_manager st =
    (Returned (PriceRejected (PyDecimal.to_float d)
                 (default JNull (dict_lookup fields "payTo")) ceiling),
     {| wallet := wallet st; trace := trace st ++ [Sending first] |}).
Proof.
  intros first required ceiling Hclient Hstatus Hheader Hnonempty Hloads Hunits Hd Hvalid
    Hnetwork Hprice.
  destruct (price_above_ceiling_stops_before_signing tool client env url method body
              headers max_price_usd run_manager st challenge header_value fields units d
              valid_until Hclient Hstatus Hheader Hnonempty Hloads Hunits Hd Hvalid
              Hnetwork Hprice) as [Hrun Harun].
  destruct async; [exact Harun | exact Hrun].
Qed.

(** A caller who accepts five cents is asked for ten. *)
Lemma price_above_the_ceiling_is_rejected_witness :
  let st := Double.fresh (Double.literal 1 0) in
  let first := {| method := "GET"; url := "https://api.example.com/premium";
                  content := None; headers := ∅ |} in
  invoke true Double.tool (Double.server "REQ-10C" Double.ok_response) Double.env
    "https://api.example.com/premium" "GET" None None (Some (Double.literal 5 (-2)))
    false st =
    (Returned (PriceRejected (Double.literal 1 (-1)) Double.payee (Double.literal 5 (-2))),
     {| wallet := wallet st; trace := trace st ++ [Sending first] |}).
Proof.
  intros st first.
  refine (eq_trans (price_above_the_ceiling_is_rejected true Double.tool
           (Double.server "REQ-10C" Double.ok_response) Double.env
           "https://api.example.com/premium" "GET" None None
           (Some (Double.literal 5 (-2))) false st
           {| status_code := 402;
              headers_get := fun name =>
                if String.eqb name "PAYMENT-REQUIRED" then Some "REQ-10C"%string else None;
              text := "payment required" |}
           "REQ-10C"
           [("x402Version", JInt 1); ("scheme", JStr "exact");
            ("network", JStr "base-sepolia");
            ("payTo", JStr "0x1234567890123456789012345678901234567890");
            ("maxAmountRequired", JStr "100000");
            ("validUntil", JInt 9999999999)]%string
           100000 (PyDecimal.mk false 1 (-1)) 9999999999 _ _ _ _ _ _ _ _ _ _) _).
  all: vm_compute; reflexivity.
Defined.

(** X26.  A payment header that decodes to something other than an
    object (a list, a string, a number, null) is not reported as a parse
    error: the run raises [AttributeError] at the first [requirements.get].
    One request was sent, nothing was signed, the wallet is as it was. *)
Theorem non_object_requirement_raises `{Ports} async tool client env url method body
    headers max_price_usd run_manager st challenge header_value requirement :
  let first := {| method := method; url := url; content := body;
                  headers := headers_or_empty headers |} in
  client 0%nat first = inr challenge ->
  status_code challenge = 402 ->
  str_or (headers_get challenge "PAYMENT-REQUIRED")
         (headers_get challenge "X-PAYMENT-REQUIRED") = Some header_value ->
  str_truthy (Some header_value) = true ->
  b64_json_loads header_value = Some requirement ->
  (forall fields, requirement <> JObj fields) ->
  invoke async tool client env url method body headers max_price_usd run_manager st =
    (Raised AttributeError,
     {| wallet := wallet st; trace := trace st ++ [Sending first] |}).
Proof.
  intros first Hclient Hstatus Hheader Hnonempty Hloads Hshape.
  destruct async; unfold invoke, _run, _arun, client_request,
    _parse_payment_requirements; unfold_M; fold first.
  all: rewrite Hclient, Hstatus, Hheader, Hnonempty, Hloads.
  all: change (402 =? 402) with true; cbn [negb]; cbv beta iota.
  all: destruct requirement; try reflexivity.
  all: exfalso; eapply Hshape; reflexivity.
Qed.

(** The header holds a JSON list. *)
Lemma non_object_requirement_raises_witness :
  let st := Double.fresh (Double.literal 1 0) in
  let first := {| method := "GET"; url := "https://api.example.com/premium";
                  content := None; headers := ∅ |} in
  @invoke Scenes.ports false Double.tool (Double.server "REQ-LIST" Double.ok_response)
    Double.env "https://api.example.com/premium" "GET" None None None false st =
    (Raised AttributeError,
     {| wallet := wallet st; trace := trace st ++ [Sending first] |}).
Proof.
  intros st first.
  apply (@non_object_requirement_raises Scenes.ports false Double.tool
           (Double.server "REQ-LIST" Double.ok_response) Double.env
           "https://api.example.com/premium" "GET" None None None false st
           {| status_code := 402;
              headers_get := fun name =>
                if String.eqb name "PAYMENT-REQUIRED" then Some "REQ-LIST"%string else None;
              text := "payment required" |}
           "REQ-LIST" (JList [JInt 100000])).
  all: try reflexivity.
  intros fields. discriminate.
Defined.

(** X27.  An amount or a deadline that [int] cannot read is not caught
    either: when [int(maxAmountRequired)] raises, or the amount is read and
    [int(validUntil)] raises, the run raises that error; a key that is
    absent counts as 0.  One request was sent, nothing was signed, the
    wallet is as it was. *)
Theorem unreadable_number_raises `{Ports} async tool client env url method body
    headers max_price_usd run_manager st challenge header_value fields e :
  let first := {| method := method; url := url; content := body;
                  headers := headers_or_empty headers |} in
  let amount := int (default (JInt 0) (dict_lookup fields "maxAmountRequired")) in
  let deadline := int (default (JInt 0) (dict_lookup fields "validUntil")) in
  client 0%nat first = inr challenge ->
  status_code challenge = 402 ->
  str_or (headers_get challenge "PAYMENT-REQUIRED")
         (headers_get challenge "X-PAYMENT-REQUIRED") = Some header_value ->
  str_truthy (Some header_value) = true ->
  b64_json_loads header_value = Some (JObj fields) ->
  amount = inl e \/
    (exists units d, amount = inr units /\ units_to_usd units = inr d /\
                     deadline = inl e) ->
  invoke async tool client env url method body headers max_price_usd run_manager st =
    (Raised e, {| wallet := wallet st; trace := trace st ++ [Sending first] |}).
Proof.
  intros first amount deadline Hclient Hstatus Hheader Hnonempty Hloads Hbad.
  subst amount deadline.
  destruct async; unfold invoke, _run, _arun, client_request,
    _parse_payment_requirements, get; unfold_M; fold first.
  all: rewrite Hclient, Hstatus, Hheader, Hnonempty, Hloads.
  all: change (402 =? 402) with true; cbn [negb]; cbv beta iota.
  all: destruct Hbad as [Hamount | (units & d & Hamount & Hd & Hdeadline)].
  all: rewrite Hamount; try reflexivity.
  all: rewrite Hd, Hdeadline; reflexivity.
Qed.

(** The amount is spelled [ten cents]. *)
Lemma unreadable_number_raises_witness :
  let st := Double.fresh (Double.literal 1 0) in
  let first := {| method := "GET"; url := "https://api.example.com/premium";
                  content := None; headers := ∅ |} in
  @invoke Scenes.ports true Double.tool (Double.server "REQ-IN-WORDS" Double.ok_response)
    Double.env "https://api.example.com/premium" "GET" None None None false st =
    (Raised (ValueError (InvalidLiteralText "ten cents")),
     {| wallet := wallet st; trace := trace st ++ [Sending first] |}).
Proof.
  intros st first.
  apply (@unreadable_number_raises Scenes.ports true Double.tool
           (Double.server "REQ-IN-WORDS" Double.ok_response) Double.env
           "https://api.example.com/premium" "GET" None None None false st
           {| status_code := 402;
              headers_get := fun name =>
                if String.eqb name "PAYMENT-REQUIRED" then Some "REQ-IN-WORDS"%string
                else None;
              text := "payment required" |}
           "REQ-IN-WORDS"
           [("network", JStr "base-sepolia");
            ("payTo", JStr "0x1234567890123456789012345678901234567890");
            ("maxAmountRequired", JStr "ten cents");
            ("validUntil", JInt 9999999999)]%string
           (ValueError (InvalidLiteralText "ten cents"))).
  all: try reflexivity.
  left. reflexivity.
Defined.

(** X28.  When the transport fails on the first request, its exception
    is the caller's: the run raises it, the wallet is as it was and nothing
    was signed. *)
Theorem first_transport_failure_is_raised `{Ports} async tool client env url method body
    headers max_price_usd run_manager st e :
  let first := {| method := method; url := url; content := body;
                  headers := headers_or_empty headers |} in
  client 0%nat first = inl e ->
  invoke async tool client env url method body headers max_price_usd run_manager st =
    (Raised e, {| wallet := wallet st; trace := trace st ++ [Sending first] |}).
Proof.
  intros first Hclient.
  destruct async; unfold invoke, _run, _arun, client_request; unfold_M; fold first.
  all: rewrite Hclient; reflexivity.
Qed.

(** The connection is refused. *)
Lemma first_transport_failure_is_raised_witness :
  let st := Double.fresh (Double.literal 1 0) in
  let first := {| method := "GET"; url := "https://api.example.com/premium";
                  content := None; headers := ∅ |} in
  invoke false Double.tool Scenes.unreachable Double.env
    "https://api.example.com/premium" "GET" None None None false st =
    (Raised (OtherError "ConnectError"),
     {| wallet := wallet st; trace := trace st ++ [Sending first] |}).
Proof.
  intros st first.
  apply (first_transport_failure_is_raised false Double.tool Scenes.unreachable
           Double.env "https://api.example.com/premium" "GET" None None None false st
           (OtherError "ConnectError")).
  reflexivity.
Defined.
